(** * Pricing-distribution engine of the auction analyzer

    A shallow embedding of the numeric core of [auction_analyzer.py]:
    the statistical analyzer [_analyze_price_distribution] with its nested
    helpers [get_percentile], [smart_round] and [small_round], the
    AI-assisted front end [_analyze_prices_with_ai], and the bid formula
    [calculate_bid] nested in [calculate_recommended_bid].

    Number model.  Prices are Python floats.  The statistical analyzer is
    embedded twice.  [Analyzer64] is the program on binary64 floats
    ([PrimFloat]), every operation as Python performs it: the statements
    whose truth depends on the rounding of the arithmetic (the mean, the
    percentiles, the IQR bounds, the order of the tiers) are about it.
    [Analyzer] is the same program with prices as exact rationals ([Q]),
    where every operation (+, -, *, /, comparison, [round], [int], [min],
    [max]) is a rational operation and equality is [Qeq] ([==]): it carries
    the statements about counts, filters and the two rounding helpers, which
    do not depend on rounding error, and it is the fallback of the
    AI-assisted analyzer.  The bid formula takes a square root; it is
    embedded twice as well, on binary64 floats exactly as Python evaluates
    it and on the reals ([R]) for the analytic statements.

    Text model.  Python strings are modelled as [string]; [lower] and
    [strip] act on the ASCII range.

    Effects.  An exception is modelled by [None]; the lines the program
    writes to its activity log are not modelled. *)

From Stdlib Require Import ZArith QArith Qround Qabs Lia Bool List.
From Stdlib Require Import Ascii String Floats.
From Stdlib Require Import Permutation Sorted.
From Stdlib Require Reals Lra Lqa Qreals DecimalString.
Import ListNotations.

Set Warnings "-inexact-float,-register-all".

(** A small error monad: [None] is a raised exception. *)
Notation "x <- e ;; k" :=
  (match e with Some x => k | None => None end)
  (at level 61, e at next level, right associativity, only parsing).
Notation "' p <- e ;; k" :=
  (match e with Some p => k | None => None end)
  (at level 61, p pattern, e at next level, right associativity, only parsing).

(** ** Python numeric primitives on exact rationals *)

Module PyNum.

Local Open Scope Q_scope.

Definition Qltb (x y : Q) : bool := negb (Qle_bool y x).

(** [round(x)] with one argument: nearest integer, ties to the even one. *)
Definition py_round (x : Q) : Z :=
  let f := Qfloor x in
  match Qcompare (x - inject_Z f) (1 # 2) with
  | Lt => f
  | Gt => (f + 1)%Z
  | Eq => if Z.even f then f else (f + 1)%Z
  end.

(** [int(x)]: truncation towards zero. *)
Definition py_int (x : Q) : Z :=
  if Qle_bool 0 x then Qfloor x else Qceiling x.

(** [max(a, b)] on two arguments keeps the first one unless the second is
    larger. *)
Definition py_max2 (a b : Q) : Q := if Qltb a b then b else a.

(** [min(l)] and [max(l)] of a list, each keeping the first extremal
    element; [None] is the [ValueError] of an empty sequence. *)
Definition py_min (l : list Q) : option Q :=
  match l with
  | [] => None
  | x :: r => Some (fold_left (fun acc y => if Qltb y acc then y else acc) r x)
  end.

Definition py_max (l : list Q) : option Q :=
  match l with
  | [] => None
  | x :: r => Some (fold_left (fun acc y => if Qltb acc y then y else acc) r x)
  end.

(** [sum(l)], starting from the integer 0. *)
Definition py_sum (l : list Q) : Q := fold_left Qplus l 0.

(** [sorted(l)]: a stable ascending sort. *)
Fixpoint insert_sorted (x : Q) (l : list Q) : list Q :=
  match l with
  | [] => [x]
  | y :: r => if Qle_bool x y then x :: l else y :: insert_sorted x r
  end.

Definition py_sorted (l : list Q) : list Q := fold_right insert_sorted [] l.

(** List indexing [l[i]]: a negative index counts from the end, and an index
    out of range raises [IndexError]. *)
Definition py_index {A : Type} (l : list A) (i : Z) : option A :=
  let n := Z.of_nat (List.length l) in
  if (i <? 0)%Z
  then (if (n + i <? 0)%Z then None else nth_error l (Z.to_nat (n + i)))
  else nth_error l (Z.to_nat i).

End PyNum.

(** ** Python string primitives *)

Module PyStr.

Local Open Scope string_scope.

Definition lower_ascii (c : ascii) : ascii :=
  let n := nat_of_ascii c in
  if (65 <=? n)%nat && (n <=? 90)%nat then ascii_of_nat (n + 32) else c.

(** [s.lower()] *)
Fixpoint lower (s : string) : string :=
  match s with
  | EmptyString => EmptyString
  | String c r => String (lower_ascii c) (lower r)
  end.

(** [s.startswith(p)] *)
Definition startswith (s p : string) : bool := String.prefix p s.

(** [needle in hay] on two strings. *)
Fixpoint contains (needle hay : string) : bool :=
  String.prefix needle hay ||
  match hay with
  | EmptyString => false
  | String _ r => contains needle r
  end.

Definition is_space (c : ascii) : bool :=
  let n := nat_of_ascii c in
  ((9 <=? n)%nat && (n <=? 13)%nat) || ((28 <=? n)%nat && (n <=? 32)%nat).

Fixpoint lstrip (s : string) : string :=
  match s with
  | EmptyString => EmptyString
  | String c r => if is_space c then lstrip r else s
  end.

Fixpoint rstrip (s : string) : string :=
  match s with
  | EmptyString => EmptyString
  | String c r =>
      match rstrip r with
      | EmptyString => if is_space c then EmptyString else String c EmptyString
      | r' => String c r'
      end
  end.

(** [s.strip()] *)
Definition strip (s : string) : string := rstrip (lstrip s).

(** [s.replace(old, new)] for a non-empty [old]: every occurrence, left to
    right, not overlapping.  [skip] counts the characters of a matched
    occurrence that are still to be passed over. *)
Fixpoint replace_from (old new : string) (skip : nat) (s : string) : string :=
  match s with
  | EmptyString => EmptyString
  | String c r =>
      match skip with
      | S k => replace_from old new k r
      | O =>
          if String.prefix old s
          then new ++ replace_from old new (String.length old - 1) r
          else String c (replace_from old new 0 r)
      end
  end.

Definition replace (s old new : string) : string := replace_from old new 0 s.

(** [d.get(key, default)] on a dict written as its list of items. *)
Fixpoint dict_get {V : Type} (d : list (string * V)) (key : string) (default : V) : V :=
  match d with
  | [] => default
  | (k, v) :: r => if String.eqb k key then v else dict_get r key default
  end.

End PyStr.

(** ** The statistical analyzer: [_analyze_price_distribution] *)

Module Analyzer.

Import PyNum PyStr.
Local Open Scope Q_scope.

(** The entries of [removed_items].  The program stores each as a formatted
    line of text; the model keeps the price and the reason. *)
Inductive removal : Type :=
| Miscategorized (price : Q)
| BelowMinimum (price minimum : Q)
| StatisticalOutlier (price : Q).

(** The keys the full path adds to the returned dict. *)
Record details : Type := mk_details {
  raw_p10 : Q;
  raw_p30 : Q;
  raw_p50 : Q;
  removed_details : list removal;
  final_range : Q;
  minimum_price_used : Q
}.

(** The returned dict.  The two early returns and the empty-after-cleaning
    return carry the first five keys only ([extra = None]). *)
Record price_analysis : Type := mk_price_analysis {
  low : Q;
  average : Q;
  high : Q;
  items_removed : Z;
  cleaned_count : Z;
  extra : option details
}.

Definition suspicious_keywords : list (string * list string) :=
  [ ("engine", ["oil filter"; "housing"; "gasket"; "seal"; "sensor"; "valve cover";
                "dipstick"; "bracket"; "mount"; "belt"; "pulley"]);
    ("alternator", ["brush"; "pulley"; "wire"; "connector"; "regulator"; "belt"]);
    ("transmission", ["fluid"; "filter"; "gasket"; "cooler"; "mount"; "line"]);
    ("starter", ["solenoid"; "brush"; "drive"; "gear"; "bolt"]);
    ("brake caliper", ["pad"; "rotor"; "disc"; "fluid"; "line"; "hose"]);
    ("fuel pump", ["filter"; "line"; "hose"; "tank"; "sending unit"]);
    ("headlight", ["bulb"; "ballast"; "wire"; "connector"; "lens"; "cover"]) ]%string.

Definition keywords_for (part_name : string) : list string :=
  dict_get suspicious_keywords (lower part_name) [].

(** [raw_titles[i].lower() if raw_titles and i < len(raw_titles) else ""] *)
Definition title_at (raw_titles : option (list string)) (i : nat) : string :=
  match raw_titles with
  | Some titles =>
      match nth_error titles i with
      | Some t => lower t
      | None => EmptyString
      end
  | None => EmptyString
  end.

(** [any(keyword in title for keyword in keywords_to_check)] *)
Definition is_suspicious (keywords_to_check : list string) (title : string) : bool :=
  existsb (fun keyword => contains keyword title) keywords_to_check.

(** Step 1, the loop over [enumerate(raw_prices)], started at index [i]:
    the prices kept and the removals recorded. *)
Fixpoint keyword_stage (keywords_to_check : list string)
    (raw_titles : option (list string)) (i : nat) (raw_prices : list Q)
    : list Q * list removal :=
  match raw_prices with
  | [] => ([], [])
  | price :: rest =>
      let '(cleaned, removed) := keyword_stage keywords_to_check raw_titles (S i) rest in
      if is_suspicious keywords_to_check (title_at raw_titles i)
      then (cleaned, Miscategorized price :: removed)
      else (price :: cleaned, removed)
  end.

(** Step 2, the configurable minimum price. *)
Definition minimum_stage (minimum_price : Q) (cleaned_prices : list Q)
    : list Q * list removal :=
  if Qltb 0 minimum_price then
    (filter (fun price => Qle_bool minimum_price price) cleaned_prices,
     map (fun price => BelowMinimum price minimum_price)
         (filter (fun price => negb (Qle_bool minimum_price price)) cleaned_prices))
  else (cleaned_prices, []).

(** Step 3, the IQR outlier detection. *)
Definition is_outlier (lower_bound upper_bound price : Q) : bool :=
  Qltb price lower_bound || Qltb upper_bound price.

Definition iqr_stage (cleaned_prices : list Q) : option (list Q * list removal) :=
  if (10 <=? List.length cleaned_prices)%nat then
    let sorted_prices := py_sorted cleaned_prices in
    let q1_idx := (Z.of_nat (List.length sorted_prices) / 4)%Z in
    let q3_idx := (3 * Z.of_nat (List.length sorted_prices) / 4)%Z in
    q1 <- py_index sorted_prices q1_idx ;;
    q3 <- py_index sorted_prices q3_idx ;;
    let iqr := q3 - q1 in
    let lower_bound := q1 - 1.5 * iqr in
    let upper_bound := q3 + 1.5 * iqr in
    Some (filter (fun price => negb (is_outlier lower_bound upper_bound price)) cleaned_prices,
          map StatisticalOutlier
              (filter (is_outlier lower_bound upper_bound) cleaned_prices))
  else Some (cleaned_prices, []).

(** The nested helper [get_percentile]. *)
Definition get_percentile (data : list Q) (percentile : Q) : option Q :=
  if (List.length data =? 1)%nat then py_index data 0
  else
    let index := (percentile / 100) * inject_Z (Z.of_nat (List.length data) - 1) in
    let lower_index := py_int index in
    let upper_index := Z.min (lower_index + 1) (Z.of_nat (List.length data) - 1) in
    let weight := index - inject_Z lower_index in
    lo <- py_index data lower_index ;;
    hi <- py_index data upper_index ;;
    Some (lo * (1 - weight) + hi * weight).

(** The nested helpers [smart_round] and [small_round]; both return ints. *)
Definition smart_round (price : Q) : Z :=
  if Qltb price 100 then (py_round (price / 5) * 5)%Z
  else if Qltb price 500 then (py_round (price / 10) * 10)%Z
  else (py_round (price / 25) * 25)%Z.

Definition small_round (price : Q) : Z :=
  if Qltb price 50 then py_round price
  else if Qltb price 200 then (py_round (price / 5) * 5)%Z
  else (py_round (price / 10) * 10)%Z.

(** The raw percentiles and the rounded tiers: the 10th, 30th and 50th
    percentile with [smart_round], recomputed as the 5th, 25th and 50th with
    [small_round] when fewer than 10 prices are left. *)
Definition rounded_tiers (sorted_prices : list Q) : option ((Q * Q * Q) * (Z * Z * Z)) :=
  let n := List.length sorted_prices in
  raw_p10 <- get_percentile sorted_prices 10 ;;
  raw_p30 <- get_percentile sorted_prices 30 ;;
  raw_p50 <- get_percentile sorted_prices 50 ;;
  let budget_tier := smart_round raw_p10 in
  let standard_tier := smart_round raw_p30 in
  let premium_tier := smart_round raw_p50 in
  if (n <? 10)%nat then
    raw_p10 <- get_percentile sorted_prices 5 ;;
    raw_p30 <- get_percentile sorted_prices 25 ;;
    raw_p50 <- get_percentile sorted_prices 50 ;;
    Some ((raw_p10, raw_p30, raw_p50),
          (small_round raw_p10, small_round raw_p30, small_round raw_p50))
  else
    Some ((raw_p10, raw_p30, raw_p50), (budget_tier, standard_tier, premium_tier)).

(** "Ensure tiers are different": the separation forced on three equal
    tiers. *)
Definition separate_tiers (sorted_prices : list Q) (tiers : Z * Z * Z) : option (Q * Q * Q) :=
  let '(budget_tier, standard_tier, premium_tier) := tiers in
  let n := List.length sorted_prices in
  if (budget_tier =? standard_tier)%Z && (standard_tier =? premium_tier)%Z && (3 <=? n)%nat then
    hi <- py_max sorted_prices ;;
    lo <- py_min sorted_prices ;;
    let price_range := hi - lo in
    if Qltb 10 price_range then
      let step := if Qltb price_range 50 then 5%Z
                  else if Qltb price_range 200 then 10%Z
                  else 25%Z in
      lo <- py_min sorted_prices ;;
      Some (py_max2 (inject_Z (budget_tier - step)) lo,
            inject_Z standard_tier,
            inject_Z (premium_tier + step))
    else Some (inject_Z budget_tier, inject_Z standard_tier, inject_Z premium_tier)
  else Some (inject_Z budget_tier, inject_Z standard_tier, inject_Z premium_tier).

(** The three cleaning steps in order. *)
Definition clean_prices (raw_prices : list Q) (part_name : string)
    (raw_titles : option (list string)) (minimum_price : Q)
    : option (list Q * list removal) :=
  let keywords_to_check := keywords_for part_name in
  let '(cleaned_prices, removed1) := keyword_stage keywords_to_check raw_titles 0 raw_prices in
  let '(cleaned_prices, removed2) := minimum_stage minimum_price cleaned_prices in
  '(cleaned_prices, removed3) <- iqr_stage cleaned_prices ;;
  Some (cleaned_prices, removed1 ++ removed2 ++ removed3).

(** Everything after the two early returns. *)
Definition full_analysis (raw_prices : list Q) (part_name : string)
    (raw_titles : option (list string)) (minimum_price : Q) : option price_analysis :=
  let original_count := Z.of_nat (List.length raw_prices) in
  '(cleaned_prices, removed_items) <- clean_prices raw_prices part_name raw_titles minimum_price ;;
  match cleaned_prices with
  | [] => Some (mk_price_analysis 0 0 0 original_count 0 None)
  | _ :: _ =>
      let sorted_prices := py_sorted cleaned_prices in
      '(raw, tiers) <- rounded_tiers sorted_prices ;;
      '(budget_tier, standard_tier, premium_tier) <- separate_tiers sorted_prices tiers ;;
      hi <- py_max cleaned_prices ;;
      lo <- py_min cleaned_prices ;;
      let '(raw_p10, raw_p30, raw_p50) := raw in
      Some (mk_price_analysis budget_tier standard_tier premium_tier
              (original_count - Z.of_nat (List.length cleaned_prices))
              (Z.of_nat (List.length cleaned_prices))
              (Some (mk_details raw_p10 raw_p30 raw_p50
                       (firstn 3 removed_items) (hi - lo) minimum_price)))
  end.

Definition _analyze_price_distribution (raw_prices : list Q) (part_name : string)
    (raw_titles : option (list string)) (minimum_price : Q) : option price_analysis :=
  match raw_prices with
  | [] => Some (mk_price_analysis 0 0 0 0 0 None)
  | _ :: _ =>
      if (List.length raw_prices <? 3)%nat then
        let avg := py_sum raw_prices / inject_Z (Z.of_nat (List.length raw_prices)) in
        Some (mk_price_analysis avg avg avg 0 (Z.of_nat (List.length raw_prices)) None)
      else full_analysis raw_prices part_name raw_titles minimum_price
  end.

(** The rounding a tier receives, as a function of the number of cleaned
    prices: what [rounded_tiers] applies to each raw percentile. *)
Definition smartRound (value : Q) (datasetSize : nat) : Z :=
  if (datasetSize <? 10)%nat then small_round value else smart_round value.

End Analyzer.

(** ** Python numeric primitives on binary64 floats *)

Module Py64.

Local Open Scope float_scope.

(** The exact value of a float that is a number; a NaN and the infinities
    have none. *)
Definition value (x : float) : option Q :=
  match Prim2SF x with
  | S754_zero _ => Some 0%Q
  | S754_finite s m e =>
      let magnitude :=
        match e with
        | Zneg k => (Zpos m # Pos.pow 2 k)%Q
        | _ => inject_Z (Zpos m * 2 ^ e)
        end in
      Some (if s then Qopp magnitude else magnitude)
  | _ => None
  end.

(** The float an int becomes next to a float operand ([x * i], [i - x],
    [x / i]): the nearest float, which is the int itself up to 2^53. *)
Definition of_int (i : Z) : float := SF2Prim (binary_normalize prec emax i 0 false).

(** [round(x)]: the integer nearest to the exact value of [x], ties to the
    even one.  [None] is the [ValueError] of a NaN or the [OverflowError] of
    an infinity. *)
Definition py_round (x : float) : option Z := option_map PyNum.py_round (value x).

(** [int(x)]: truncation towards zero, with the same two exceptions. *)
Definition py_int (x : float) : option Z := option_map PyNum.py_int (value x).

(** A number of the program: an int or a float. *)
Inductive number : Type :=
| PyInt (i : Z)
| PyFloat (x : float).

(** [x > i] for a float and an int: Python compares the exact values. *)
Definition float_gt_int (x : float) (i : Z) : bool :=
  match Prim2SF x with
  | S754_nan => false
  | S754_infinity s => negb s
  | _ => match value x with
         | Some v => PyNum.Qltb (inject_Z i) v
         | None => false
         end
  end.

(** The exact value of a number, and [x <= y], [x == y] between numbers:
    Python compares an int and a float by their exact values. *)
Definition exact (x : number) : option Q :=
  match x with
  | PyInt i => Some (inject_Z i)
  | PyFloat x => value x
  end.



(** [max(i, x)] on an int and a float keeps the int unless the float is
    larger. *)
Definition py_max2 (i : Z) (x : float) : number :=
  if float_gt_int x i then PyFloat x else PyInt i.

(** [min(l)] and [max(l)] of a list of floats, each keeping the first
    extremal element; [None] is the [ValueError] of an empty sequence. *)
Definition py_min (l : list float) : option float :=
  match l with
  | [] => None
  | x :: r => Some (fold_left (fun acc y => if y <? acc then y else acc) r x)
  end.

Definition py_max (l : list float) : option float :=
  match l with
  | [] => None
  | x :: r => Some (fold_left (fun acc y => if acc <? y then y else acc) r x)
  end.

(** [sum(l)] of a nonempty list of floats: the additions from left to
    right, the int 0 it starts from being added as the float 0.0.  (The
    analyzer sums one or two prices; on so few the compensated summation of
    recent Python versions returns the same float.) *)
Definition py_sum (l : list float) : float := fold_left add l (of_int 0).

(** [sorted(l)]: a stable ascending sort (of a list without NaN, on which
    the order of floats is total). *)
Fixpoint insert_sorted (x : float) (l : list float) : list float :=
  match l with
  | [] => [x]
  | y :: r => if x <=? y then x :: l else y :: insert_sorted x r
  end.

Definition py_sorted (l : list float) : list float := fold_right insert_sorted [] l.

(** A price as the search produces it: a number that is not negative
    (neither a NaN, an infinity nor -0.0). *)
Definition is_price (x : float) : bool :=
  match Prim2SF x with
  | S754_zero false | S754_finite false _ _ => true
  | _ => false
  end.

End Py64.

(** ** The statistical analyzer on binary64 floats

    The same function, [_analyze_price_distribution], with every arithmetic
    operation as Python performs it on floats.  The tiers it returns are
    ints where they come out of [round] and floats where they are a mean or
    a minimum price. *)

Module Analyzer64.

Import PyNum PyStr Py64.
Local Open Scope float_scope.

Inductive removal : Type :=
| Miscategorized (price : float)
| BelowMinimum (price minimum : float)
| StatisticalOutlier (price : float).

Record details : Type := mk_details {
  raw_p10 : float;
  raw_p30 : float;
  raw_p50 : float;
  removed_details : list removal;
  final_range : float;
  minimum_price_used : float
}.

Record price_analysis : Type := mk_price_analysis {
  low : number;
  average : number;
  high : number;
  items_removed : Z;
  cleaned_count : Z;
  extra : option details
}.

(** Step 1, the loop over [enumerate(raw_prices)], started at index [i]. *)
Fixpoint keyword_stage (keywords_to_check : list string)
    (raw_titles : option (list string)) (i : nat) (raw_prices : list float)
    : list float * list removal :=
  match raw_prices with
  | [] => ([], [])
  | price :: rest =>
      let '(cleaned, removed) := keyword_stage keywords_to_check raw_titles (S i) rest in
      if Analyzer.is_suspicious keywords_to_check (Analyzer.title_at raw_titles i)
      then (cleaned, Miscategorized price :: removed)
      else (price :: cleaned, removed)
  end.

(** Step 2, the configurable minimum price. *)
Definition minimum_stage (minimum_price : float) (cleaned_prices : list float)
    : list float * list removal :=
  if 0 <? minimum_price then
    (filter (fun price => minimum_price <=? price) cleaned_prices,
     map (fun price => BelowMinimum price minimum_price)
         (filter (fun price => negb (minimum_price <=? price)) cleaned_prices))
  else (cleaned_prices, []).

(** Step 3, the IQR outlier detection. *)
Definition is_outlier (lower_bound upper_bound price : float) : bool :=
  (price <? lower_bound) || (upper_bound <? price).

Definition iqr_stage (cleaned_prices : list float) : option (list float * list removal) :=
  if (10 <=? List.length cleaned_prices)%nat then
    let sorted_prices := py_sorted cleaned_prices in
    let q1_idx := (Z.of_nat (List.length sorted_prices) / 4)%Z in
    let q3_idx := (3 * Z.of_nat (List.length sorted_prices) / 4)%Z in
    q1 <- py_index sorted_prices q1_idx ;;
    q3 <- py_index sorted_prices q3_idx ;;
    let iqr := q3 - q1 in
    let lower_bound := q1 - 1.5 * iqr in
    let upper_bound := q3 + 1.5 * iqr in
    Some (filter (fun price => negb (is_outlier lower_bound upper_bound price)) cleaned_prices,
          map StatisticalOutlier
              (filter (is_outlier lower_bound upper_bound) cleaned_prices))
  else Some (cleaned_prices, []).

(** The nested helper [get_percentile]; the analyzer calls it with the int
    literals 5, 10, 25, 30 and 50. *)
Definition get_percentile (data : list float) (percentile : Z) : option float :=
  if (List.length data =? 1)%nat then py_index data 0
  else
    let index := (of_int percentile / 100) * of_int (Z.of_nat (List.length data) - 1) in
    lower_index <- py_int index ;;
    let upper_index := Z.min (lower_index + 1) (Z.of_nat (List.length data) - 1) in
    let weight := index - of_int lower_index in
    lo <- py_index data lower_index ;;
    hi <- py_index data upper_index ;;
    Some (lo * (1 - weight) + hi * weight).

(** The nested helpers [smart_round] and [small_round]; both return ints. *)
Definition smart_round (price : float) : option Z :=
  if price <? 100 then r <- py_round (price / 5) ;; Some (r * 5)%Z
  else if price <? 500 then r <- py_round (price / 10) ;; Some (r * 10)%Z
  else r <- py_round (price / 25) ;; Some (r * 25)%Z.

Definition small_round (price : float) : option Z :=
  if price <? 50 then py_round price
  else if price <? 200 then r <- py_round (price / 5) ;; Some (r * 5)%Z
  else r <- py_round (price / 10) ;; Some (r * 10)%Z.

(** The raw percentiles and the rounded tiers: the 10th, 30th and 50th
    percentile with [smart_round], then, when fewer than 10 prices are
    left, the 5th, 25th and 50th with [small_round] in their place. *)
Definition rounded_tiers (sorted_prices : list float)
    : option ((float * float * float) * (Z * Z * Z)) :=
  let n := List.length sorted_prices in
  raw_p10 <- get_percentile sorted_prices 10 ;;
  raw_p30 <- get_percentile sorted_prices 30 ;;
  raw_p50 <- get_percentile sorted_prices 50 ;;
  budget_tier <- smart_round raw_p10 ;;
  standard_tier <- smart_round raw_p30 ;;
  premium_tier <- smart_round raw_p50 ;;
  if (n <? 10)%nat then
    raw_p10 <- get_percentile sorted_prices 5 ;;
    raw_p30 <- get_percentile sorted_prices 25 ;;
    raw_p50 <- get_percentile sorted_prices 50 ;;
    budget_tier <- small_round raw_p10 ;;
    standard_tier <- small_round raw_p30 ;;
    premium_tier <- small_round raw_p50 ;;
    Some ((raw_p10, raw_p30, raw_p50), (budget_tier, standard_tier, premium_tier))
  else
    Some ((raw_p10, raw_p30, raw_p50), (budget_tier, standard_tier, premium_tier)).

(** "Ensure tiers are different": the separation forced on three equal
    tiers. *)
Definition separate_tiers (sorted_prices : list float) (tiers : Z * Z * Z)
    : option (number * number * number) :=
  let '(budget_tier, standard_tier, premium_tier) := tiers in
  let n := List.length sorted_prices in
  if (budget_tier =? standard_tier)%Z && (standard_tier =? premium_tier)%Z && (3 <=? n)%nat then
    hi <- py_max sorted_prices ;;
    lo <- py_min sorted_prices ;;
    let price_range := hi - lo in
    if 10 <? price_range then
      let step := if price_range <? 50 then 5%Z
                  else if price_range <? 200 then 10%Z
                  else 25%Z in
      lo <- py_min sorted_prices ;;
      Some (py_max2 (budget_tier - step) lo,
            PyInt standard_tier,
            PyInt (premium_tier + step))
    else Some (PyInt budget_tier, PyInt standard_tier, PyInt premium_tier)
  else Some (PyInt budget_tier, PyInt standard_tier, PyInt premium_tier).

(** The three cleaning steps in order. *)
Definition clean_prices (raw_prices : list float) (part_name : string)
    (raw_titles : option (list string)) (minimum_price : float)
    : option (list float * list removal) :=
  let keywords_to_check := Analyzer.keywords_for part_name in
  let '(cleaned_prices, removed1) := keyword_stage keywords_to_check raw_titles 0 raw_prices in
  let '(cleaned_prices, removed2) := minimum_stage minimum_price cleaned_prices in
  '(cleaned_prices, removed3) <- iqr_stage cleaned_prices ;;
  Some (cleaned_prices, removed1 ++ removed2 ++ removed3).

(** Everything after the two early returns. *)
Definition full_analysis (raw_prices : list float) (part_name : string)
    (raw_titles : option (list string)) (minimum_price : float) : option price_analysis :=
  let original_count := Z.of_nat (List.length raw_prices) in
  '(cleaned_prices, removed_items) <- clean_prices raw_prices part_name raw_titles minimum_price ;;
  match cleaned_prices with
  | [] => Some (mk_price_analysis (PyInt 0) (PyInt 0) (PyInt 0) original_count 0 None)
  | _ :: _ =>
      let sorted_prices := py_sorted cleaned_prices in
      '(raw, tiers) <- rounded_tiers sorted_prices ;;
      '(budget_tier, standard_tier, premium_tier) <- separate_tiers sorted_prices tiers ;;
      hi <- py_max cleaned_prices ;;
      lo <- py_min cleaned_prices ;;
      let '(raw_p10, raw_p30, raw_p50) := raw in
      Some (mk_price_analysis budget_tier standard_tier premium_tier
              (original_count - Z.of_nat (List.length cleaned_prices))
              (Z.of_nat (List.length cleaned_prices))
              (Some (mk_details raw_p10 raw_p30 raw_p50
                       (firstn 3 removed_items) (hi - lo) minimum_price)))
  end.

Definition _analyze_price_distribution (raw_prices : list float) (part_name : string)
    (raw_titles : option (list string)) (minimum_price : float) : option price_analysis :=
  match raw_prices with
  | [] => Some (mk_price_analysis (PyInt 0) (PyInt 0) (PyInt 0) 0 0 None)
  | _ :: _ =>
      if (List.length raw_prices <? 3)%nat then
        let avg := py_sum raw_prices / of_int (Z.of_nat (List.length raw_prices)) in
        Some (mk_price_analysis (PyFloat avg) (PyFloat avg) (PyFloat avg)
                0 (Z.of_nat (List.length raw_prices)) None)
      else full_analysis raw_prices part_name raw_titles minimum_price
  end.

End Analyzer64.

(** ** The AI-assisted analyzer: [_analyze_prices_with_ai] *)

Module AIAnalyzer.

Import PyNum PyStr Analyzer.
Local Open Scope Q_scope.
Local Open Scope string_scope.

(** What [json.loads] returns.  A JSON object is given by its items, one
    per key; ints and floats are both rationals. *)
Inductive json : Type :=
| JNull
| JBool (b : bool)
| JNumber (q : Q)
| JString (s : string)
| JArray (items : list json)
| JObject (fields : list (string * json)).

(** An element of [raw_items]; a key may be absent from the dict. *)
Record raw_item : Type := mk_raw_item {
  price : option Q;
  shipping : option Q;
  total_price : option Q;
  title : option string
}.

(** The dict the AI path returns on success. *)
Record ai_analysis : Type := mk_ai_analysis {
  ai_low : Q;
  ai_average : Q;
  ai_high : Q;
  items_analyzed : json;
  items_filtered_out : json;
  reasoning : json;
  confidence_rating : string;
  confidence_explanation : json;
  ai_cleaned_count : Q;
  ai_items_removed : json
}.

(** The three shapes of dict [_analyze_prices_with_ai] can return. *)
Inductive analysis : Type :=
| Statistical (r : price_analysis)
| NoData
| AIAssisted (r : ai_analysis).

Definition required_keys : list string :=
  ["low_price"; "average_price"; "high_price"; "items_analyzed";
   "items_filtered_out"; "reasoning"; "confidence_rating"; "confidence_explanation"].

Definition valid_confidence_levels : list string :=
  ["dark_green"; "light_green"; "yellow"; "orange"; "red"].

Definition max_retries : nat := 2.

(** The markdown clean-up made before parsing. *)
Definition strip_fences (text : string) : string :=
  let response_text := strip text in
  if startswith response_text "```json"
  then strip (replace (replace response_text "```json" "") "```" "")
  else if startswith response_text "```"
  then strip (replace response_text "```" "")
  else response_text.

(** [key in result]: a key of a dict, an element of a list, a substring of
    a string, and a [TypeError] on anything else. *)
Definition py_in (key : string) (result : json) : option bool :=
  match result with
  | JObject fields => Some (existsb (fun kv => String.eqb (fst kv) key) fields)
  | JArray items =>
      Some (existsb (fun e => match e with JString s => String.eqb s key | _ => false end) items)
  | JString s => Some (contains key s)
  | _ => None
  end.

(** [all(...)] over a generator whose elements may raise: it stops at the
    first false element and propagates the first exception met. *)
Fixpoint py_all (tests : list (option bool)) : option bool :=
  match tests with
  | [] => Some true
  | None :: _ => None
  | Some false :: _ => Some false
  | Some true :: rest => py_all rest
  end.

(** [result.get(...)] and [result[...]] need a dict here: a list or a
    string that passed the key test has no [get] ([AttributeError]). *)
Definition as_dict (result : json) : option (list (string * json)) :=
  match result with
  | JObject fields => Some fields
  | _ => None
  end.

(** [x.lower()] exists on strings only. *)
Definition py_lower (x : json) : option string :=
  match x with
  | JString s => Some (lower s)
  | _ => None
  end.

(** [a - b] on JSON values: numbers and booleans subtract, anything else
    is a [TypeError]. *)
Definition as_number (x : json) : option Q :=
  match x with
  | JNumber q => Some q
  | JBool b => Some (if b then 1 else 0)%Q
  | _ => None
  end.

Definition py_sub (a b : json) : option Q :=
  x <- as_number a ;;
  y <- as_number b ;;
  Some (x - y)%Q.

(** [[item.get('total_price', item.get('price', 0)) for item in raw_items]]
    and [[item.get('title', '') for item in raw_items]] *)
Definition prices_of (raw_items : list raw_item) : list Q :=
  map (fun item =>
         match total_price item with
         | Some t => t
         | None => match price item with Some p => p | None => 0%Q end
         end) raw_items.

Definition titles_of (raw_items : list raw_item) : list string :=
  map (fun item => match title item with Some t => t | None => "" end) raw_items.

Section Service.

(** [json.loads]; [None] is [json.JSONDecodeError]. *)
Variable json_loads : string -> option json.

(** [float(s)] on a string; [None] is [ValueError]. *)
Variable float_of_string : string -> option Q.

(** Whether [self.gemini_model] is set, and [self.use_ai_analysis]. *)
Variable gemini_model : bool.
Variable use_ai_analysis : bool.

(** [self.gemini_model.generate_content(...)], by attempt number; [None] is
    an exception of the service.  A response is given by what reading its
    [.text] yields: [None] there is the exception [.text] raises on a
    response that carries no text. *)
Variable generate_content : nat -> option (option string).

(** [float(x)] *)
Definition py_float (x : json) : option Q :=
  match x with
  | JNumber q => Some q
  | JBool b => Some (if b then 1 else 0)%Q
  | JString s => float_of_string s
  | _ => None
  end.

(** The retry loop: the response of the first attempt that answers, or the
    exception of the last attempt. *)
Fixpoint attempt_loop (attempts : list nat) : option (option string) :=
  match attempts with
  | [] => None
  | attempt :: rest =>
      match generate_content attempt with
      | Some response => Some response
      | None => attempt_loop rest
      end
  end.

(** The retry loop followed by the read of [response.text]: the text is
    read once, after the loop, so a response whose text cannot be read is
    not asked for again. *)
Definition model_text : option string :=
  response <- attempt_loop (seq 0 max_retries) ;;
  response.

(** The body of the [try] from "Parse JSON response" to its [return];
    [None] is any exception, all of them caught by the two handlers. *)
Definition interpret_response (text : string) : option ai_analysis :=
  let response_text := strip_fences text in
  result <- json_loads response_text ;;
  present <- py_all (map (fun key => py_in key result) required_keys) ;;
  if negb present then None
  else
    fields <- as_dict result ;;
    confidence_rating <- py_lower (dict_get fields "confidence_rating" (JString "")) ;;
    let confidence_rating :=
      if negb (existsb (String.eqb confidence_rating) valid_confidence_levels)
      then "yellow" else confidence_rating in
    low <- py_float (dict_get fields "low_price" JNull) ;;
    average <- py_float (dict_get fields "average_price" JNull) ;;
    high <- py_float (dict_get fields "high_price" JNull) ;;
    cleaned <- py_sub (dict_get fields "items_analyzed" JNull)
                      (dict_get fields "items_filtered_out" JNull) ;;
    Some (mk_ai_analysis low average high
            (dict_get fields "items_analyzed" JNull)
            (dict_get fields "items_filtered_out" JNull)
            (dict_get fields "reasoning" JNull)
            confidence_rating
            (dict_get fields "confidence_explanation" JNull)
            cleaned
            (dict_get fields "items_filtered_out" JNull)).

(** "Fall back to traditional method". *)
Definition traditional_analysis (raw_items : list raw_item) (part_name : string)
    (minimum_price : Q) : option analysis :=
  let raw_prices := prices_of raw_items in
  let raw_titles := titles_of raw_items in
  r <- _analyze_price_distribution raw_prices part_name (Some raw_titles) minimum_price ;;
  Some (Statistical r).

Definition _analyze_prices_with_ai (raw_items : list raw_item) (part_name : string)
    (minimum_price : Q) : option analysis :=
  if negb gemini_model || negb use_ai_analysis then
    traditional_analysis raw_items part_name minimum_price
  else
    match raw_items with
    | [] => Some NoData
    | _ :: _ =>
        match (text <- model_text ;;
               interpret_response text) with
        | Some r => Some (AIAssisted r)
        | None => traditional_analysis raw_items part_name minimum_price
        end
    end.

End Service.

(** A sample exchange: a response with every required key, numeric prices
    and counts, and the JSON value [null] as its confidence rating; and a
    [json.loads] that knows this one text. *)
Definition dq : string := String (ascii_of_nat 34) EmptyString.

Definition member (key value : string) : string := dq ++ key ++ dq ++ ": " ++ value.

Definition null_rating_response : string :=
  "{" ++ member "low_price" "40" ++ ", "
      ++ member "average_price" "50" ++ ", "
      ++ member "high_price" "60" ++ ", "
      ++ member "items_analyzed" "10" ++ ", "
      ++ member "items_filtered_out" "2" ++ ", "
      ++ member "reasoning" (dq ++ "ok" ++ dq) ++ ", "
      ++ member "confidence_rating" "null" ++ ", "
      ++ member "confidence_explanation" (dq ++ "ok" ++ dq) ++ "}".

Definition null_rating_object : json :=
  JObject [ ("low_price", JNumber 40); ("average_price", JNumber 50);
            ("high_price", JNumber 60); ("items_analyzed", JNumber 10);
            ("items_filtered_out", JNumber 2); ("reasoning", JString "ok");
            ("confidence_rating", JNull); ("confidence_explanation", JString "ok") ].

Definition sample_loads (text : string) : option json :=
  if String.eqb text null_rating_response then Some null_rating_object else None.

End AIAnalyzer.

(** ** The bid formula: [calculate_bid] *)

Module Bid.

(** On binary64 floats, as Python evaluates it.  An int argument (a sum of
    rounded tiers) compares and subtracts as the float of the same value. *)
Definition calculate_bid (parts_value : float) : float :=
  (if parts_value <=? 0 then 0
   else if parts_value <=? 3000 then 300
   else
     let excess := parts_value - 3000 in
     let percentage := 0.25 + 0.40 * PrimFloat.sqrt ((parts_value - 3000) / 15000) in
     300 + excess * percentage)%float.

Import Reals.

(** The same formula on the reals. *)
Definition calculate_bid_real (parts_value : R) : R :=
  (if Rle_dec parts_value 0 then 0
   else if Rle_dec parts_value 3000 then 300
   else
     let excess := parts_value - 3000 in
     let percentage := 0.25 + 0.40 * sqrt ((parts_value - 3000) / 15000) in
     300 + excess * percentage)%R.

(** Its third branch, as a function on its own. *)
Definition premium_branch (parts_value : R) : R :=
  (300 + (parts_value - 3000)
         * (0.25 + 0.40 * sqrt ((parts_value - 3000) / 15000)))%R.

End Bid.

(** ** Per-part results: the end of [_search_single_part_optimized] *)

Module Parts.

Import PyNum PyStr Analyzer AIAnalyzer.
Local Open Scope string_scope.

(** The dict stored for a part; a key may be absent (the zero dicts of the
    failure paths carry the three tiers only). *)
Record part_result : Type := mk_part_result {
  pr_low : option Q;
  pr_average : option Q;
  pr_high : option Q;
  pr_reasoning : option json;
  pr_items_analyzed : option json;
  pr_items_filtered_out : option json;
  pr_cleaned_count : option Q;
  pr_confidence_rating : option string;
  pr_confidence_explanation : option json;
  pr_raw_items : option (list raw_item)
}.

(** A value of [parts_prices]: such a dict or, in the old format, a bare
    number. *)
Inductive part_prices : Type :=
| PartDict (d : part_result)
| PartNumber (value : Q).

(** [{'low': 0.0, 'average': 0.0, 'high': 0.0, 'raw_items': []}] *)
Definition no_prices_result : part_result :=
  mk_part_result (Some 0%Q) (Some 0%Q) (Some 0%Q) None None None None None None (Some []).

(** [part_result] as built from [price_analysis], each [.get] with its
    default. *)
Definition assemble (price_analysis : analysis) (raw_items : list raw_item) : part_result :=
  match price_analysis with
  | Statistical r =>
      mk_part_result (Some (low r)) (Some (average r)) (Some (high r))
        (Some (JString "")) (Some (JNumber 0)) (Some (JNumber 0))
        (Some (inject_Z (cleaned_count r)))
        (Some "yellow") (Some (JString "No confidence data available"))
        (Some raw_items)
  | NoData =>
      mk_part_result (Some 0%Q) (Some 0%Q) (Some 0%Q)
        (Some (JString "No data provided")) (Some (JNumber 0)) (Some (JNumber 0))
        (Some 0%Q)
        (Some "yellow") (Some (JString "No confidence data available"))
        (Some raw_items)
  | AIAssisted a =>
      mk_part_result (Some (ai_low a)) (Some (ai_average a)) (Some (ai_high a))
        (Some (reasoning a)) (Some (items_analyzed a)) (Some (items_filtered_out a))
        (Some (ai_cleaned_count a))
        (Some (confidence_rating a)) (Some (confidence_explanation a))
        (Some raw_items)
  end.

Section Service.

Variable json_loads : string -> option json.
Variable float_of_string : string -> option Q.
Variable gemini_model : bool.
Variable use_ai_analysis : bool.
Variable generate_content : nat -> option (option string).

(** From [if prices:] on, for a part whose listings were collected as
    [raw_items] (one per price): the analysis and the assembled dict, or the
    zero dict when there is no price.  [None] is an exception, which the
    enclosing handler turns into a zero dict. *)
Definition price_part (raw_items : list raw_item) (search_query : string)
    (min_price : option Q) : option part_result :=
  match raw_items with
  | _ :: _ =>
      price_analysis <-
        _analyze_prices_with_ai json_loads float_of_string gemini_model use_ai_analysis
          generate_content raw_items search_query
          (match min_price with Some m => m | None => 0%Q end) ;;
      Some (assemble price_analysis raw_items)
  | [] => Some no_prices_result
  end.

End Service.

End Parts.

(** ** Totals and bids: [calculate_recommended_bid] *)

Module Aggregator.

Import Parts Bid Reals Qreals.

(** [d.get(key, 0)] on a tier of a part dict. *)
Definition get0 (x : option Q) : Q := match x with Some v => v | None => 0%Q end.

Record tier_totals : Type := mk_totals {
  total_low : Q;
  total_average : Q;
  total_high : Q
}.

Record tier_bids : Type := mk_bids {
  bid_low : R;
  bid_average : R;
  bid_high : R
}.

(** One turn of the loop over [parts_prices.values()]. *)
Definition add_part (totals : tier_totals) (part_prices : part_prices) : tier_totals :=
  match part_prices with
  | PartDict d =>
      mk_totals (total_low totals + get0 (pr_low d))
                (total_average totals + get0 (pr_average d))
                (total_high totals + get0 (pr_high d))
  | PartNumber value =>
      mk_totals (total_low totals + value)
                (total_average totals + value)
                (total_high totals + value)
  end.

Definition sum_totals (parts_prices : list part_prices) : tier_totals :=
  fold_left add_part parts_prices (mk_totals 0 0 0).

(** The totals are exact rationals; the bid of each is the formula on the
    reals at that rational. *)
Definition calculate_recommended_bid (parts_prices : list part_prices)
    : tier_totals * tier_bids :=
  let totals := sum_totals parts_prices in
  (totals,
   mk_bids (calculate_bid_real (Q2R (total_low totals)))
           (calculate_bid_real (Q2R (total_average totals)))
           (calculate_bid_real (Q2R (total_high totals)))).

End Aggregator.

(** ** The scan history: [add_to_vin_history] *)

Module History.

Import Parts Aggregator.
Local Open Scope string_scope.

(** The three shapes of the status text ("N Failed", "N Low Conf",
    "Complete"), without their pictograms. *)
Inductive scan_status : Type :=
| StatusFailed (count : nat)
| StatusLowConf (count : nat)
| StatusComplete.

(** [prices.get('low', 0) == 0 and prices.get('average', 0) == 0 and
    prices.get('high', 0) == 0] *)
Definition all_tiers_zero (d : part_result) : bool :=
  Qeq_bool (get0 (pr_low d)) 0 && Qeq_bool (get0 (pr_average d)) 0
  && Qeq_bool (get0 (pr_high d)) 0.

(** [prices.get('confidence_rating', 'yellow') in ['orange', 'red']] *)
Definition rated_low (d : part_result) : bool :=
  let rating := match pr_confidence_rating d with Some c => c | None => "yellow" end in
  existsb (String.eqb rating) ["orange"; "red"].

(** The loop over [parts_prices.items()]: the failed parts and the
    low-confidence parts, each in dict order. *)
Fixpoint classify (parts_prices : list (string * part_prices))
    : list string * list string :=
  match parts_prices with
  | [] => ([], [])
  | (part, prices) :: rest =>
      let '(failed_parts, low_confidence_parts) := classify rest in
      match prices with
      | PartDict d =>
          if all_tiers_zero d then (part :: failed_parts, low_confidence_parts)
          else if rated_low d then (failed_parts, part :: low_confidence_parts)
          else (failed_parts, low_confidence_parts)
      | PartNumber _ => (failed_parts, low_confidence_parts)
      end
  end.

Definition status_of (failed_parts low_confidence_parts : list string) : scan_status :=
  match failed_parts with
  | _ :: _ => StatusFailed (List.length failed_parts)
  | [] =>
      match low_confidence_parts with
      | _ :: _ => StatusLowConf (List.length low_confidence_parts)
      | [] => StatusComplete
      end
  end.

(** [self.vin_history.insert(0, history_entry)] and the cut to the 50 most
    recent entries. *)
Definition insert_entry {E : Type} (history_entry : E) (vin_history : list E) : list E :=
  let vin_history := history_entry :: vin_history in
  if (50 <? List.length vin_history)%nat then firstn 50 vin_history else vin_history.

End History.

(** ** The table sent to the model: [format_raw_results_for_ai] *)

Module CsvExport.

Import PyNum PyStr AIAnalyzer.
Local Open Scope string_scope.

Definition newline : ascii := "010"%char.
Definition comma : ascii := ","%char.

(** [str(n)] for a natural number. *)
Definition decimal (n : N) : string :=
  DecimalString.NilZero.string_of_uint (N.to_uint n).

(** [f"{x:.2f}"]: the sign, the integer part and two decimals of [x]
    rounded to the nearest hundredth, ties to even. *)
Definition format_2f (x : Q) : string :=
  let cents := Z.to_N (py_round (Qabs x * 100)) in
  let units := N.div cents 100 in
  let rest := N.modulo cents 100 in
  (if Qltb x 0 then "-" else "")
  ++ decimal units ++ "."
  ++ (if N.ltb rest 10 then "0" else "") ++ decimal rest.

(** [item.get('title', '').replace(',', ';').replace('\n', ' ').strip()] *)
Definition clean_title (item : raw_item) : string :=
  let title := match title item with Some t => t | None => "" end in
  strip (replace (replace title "," ";") (String newline "") " ").

Definition csv_line (item : raw_item) : string :=
  let price := match price item with Some p => p | None => 0%Q end in
  let shipping := match shipping item with Some s => s | None => 0%Q end in
  let total_price :=
    match total_price item with Some t => t | None => (price + shipping)%Q end in
  format_2f price ++ "," ++ format_2f shipping ++ "," ++ format_2f total_price
  ++ "," ++ dq ++ clean_title item ++ dq.

(** ["\n".join(lines)] *)
Fixpoint join_lines (lines : list string) : string :=
  match lines with
  | [] => ""
  | [line] => line
  | line :: rest => line ++ String newline (join_lines rest)
  end.

Definition format_raw_results_for_ai (part_name : string) (raw_items : list raw_item)
    : string :=
  join_lines ("Price,Shipping,Total,Title" :: map csv_line raw_items).

End CsvExport.

(** ** The vocabulary of the specification *)

Module SpecWords.

Import PyNum.
Local Open Scope Q_scope.


(** "Linearly interpolates between the values at [floor(idx)] and
    [ceil(idx)]": the value at [floor(idx)] plus the fraction of [idx] times
    the step to the value at [ceil(idx)]. *)
Definition interpolate (sortedValues : list Q) (idx : Q) : option Q :=
  at_floor <- nth_error sortedValues (Z.to_nat (Qfloor idx)) ;;
  at_ceil <- nth_error sortedValues (Z.to_nat (Qceiling idx)) ;;
  Some (at_floor + (at_ceil - at_floor) * (idx - inject_Z (Qfloor idx))).

(** "For a single-element input, returns that element.  Otherwise computes
    a fractional index [idx = (p/100)*(n-1)]" and interpolates there. *)
Definition percentile (sortedValues : list Q) (p : Q) : option Q :=
  match sortedValues with
  | [x] => Some x
  | _ =>
      let n := Z.of_nat (List.length sortedValues) in
      interpolate sortedValues ((p / 100) * inject_Z (n - 1))
  end.

(** "Values outside [[Q1 - 1.5 IQR, Q3 + 1.5 IQR]]": [within] tests
    membership of the closed interval, and [iqr_bounds] gives its ends from
    the two quartiles. *)
Definition within (bounds : Q * Q) (price : Q) : bool :=
  Qle_bool (fst bounds) price && Qle_bool price (snd bounds).

Definition iqr_bounds (q1 q3 : Q) : Q * Q :=
  (q1 - 1.5 * (q3 - q1), q3 + 1.5 * (q3 - q1)).

(** "Exactly equal to the arithmetic mean of the prices". *)
Definition mean (prices : list Q) : Q :=
  fold_right Qplus 0 prices / inject_Z (Z.of_nat (List.length prices)).

End SpecWords.

(** ** The same vocabulary, evaluated in binary64 *)

Module SpecWords64.

Import Py64.
Local Open Scope float_scope.

(** "Linearly interpolates between the values at [floor(idx)] and
    [ceil(idx)]", with the weights [1 - t] and [t] for the fractional part
    [t] of [idx], every operation a float operation. *)
Definition interpolate (sortedValues : list float) (idx : float) : option float :=
  v <- value idx ;;
  at_floor <- nth_error sortedValues (Z.to_nat (Qfloor v)) ;;
  at_ceil <- nth_error sortedValues (Z.to_nat (Qceiling v)) ;;
  let t := idx - of_int (Qfloor v) in
  Some (at_floor * (1 - t) + at_ceil * t).

(** "For a single-element input, returns that element.  Otherwise computes
    a fractional index [idx = (p/100)*(n-1)]" and interpolates there. *)
Definition percentile (sortedValues : list float) (p : Z) : option float :=
  match sortedValues with
  | [x] => Some x
  | _ =>
      let n := Z.of_nat (List.length sortedValues) in
      interpolate sortedValues ((of_int p / 100) * of_int (n - 1))
  end.

(** "Strictly outside [[Q1 - 1.5 IQR, Q3 + 1.5 IQR]]", the two ends being
    the floats these expressions evaluate to. *)
Definition strictly_outside (bounds : float * float) (price : float) : bool :=
  (price <? fst bounds) || (snd bounds <? price).

Definition iqr_bounds (q1 q3 : float) : float * float :=
  (q1 - 1.5 * (q3 - q1), q3 + 1.5 * (q3 - q1)).



(** The estimate proper: the three tiers and the two counts of a result. *)
Definition estimate (r : Analyzer64.price_analysis) : number * number * number * Z * Z :=
  (Analyzer64.low r, Analyzer64.average r, Analyzer64.high r,
   Analyzer64.items_removed r, Analyzer64.cleaned_count r).

End SpecWords64.

(** ** Predicates on text used by the statements below *)

Module TextWords.

Local Open Scope string_scope.

(** No character of [s] is [c]. *)
Fixpoint free_of (c : ascii) (s : string) : bool :=
  match s with
  | EmptyString => true
  | String a r => negb (Ascii.eqb a c) && free_of c r
  end.

(** The number of occurrences of [c] in [s]. *)
Fixpoint count_char (c : ascii) (s : string) : nat :=
  match s with
  | EmptyString => 0
  | String a r => (if Ascii.eqb a c then 1 else 0) + count_char c r
  end.

End TextWords.

(** ** Words for the totals: the tiers a part contributes, and plain sums *)

Module TotalsWords.

Import Parts Aggregator.
Local Open Scope Q_scope.

Definition part_low (p : part_prices) : Q :=
  match p with PartDict d => get0 (pr_low d) | PartNumber value => value end.

Definition part_average (p : part_prices) : Q :=
  match p with PartDict d => get0 (pr_average d) | PartNumber value => value end.

Definition part_high (p : part_prices) : Q :=
  match p with PartDict d => get0 (pr_high d) | PartNumber value => value end.

Definition Qsum (l : list Q) : Q := fold_right Qplus 0 l.

(** Two totals with equal numbers. *)
Definition same_totals (t t' : tier_totals) : Prop :=
  total_low t == total_low t' /\
  total_average t == total_average t' /\
  total_high t == total_high t'.

End TotalsWords.

(** ** Sample data for the statements below *)

Module Samples.

Import AIAnalyzer.
Local Open Scope string_scope.

(** A parsed response whose rating is a recognised level in mixed case and
    whose average price is a numeric string. *)
Definition mixed_case_object : json :=
  JObject [ ("low_price", JNumber 40); ("average_price", JString "50");
            ("high_price", JNumber 60); ("items_analyzed", JNumber 10);
            ("items_filtered_out", JNumber 2); ("reasoning", JString "ok");
            ("confidence_rating", JString "Light_Green");
            ("confidence_explanation", JString "ok") ].

Definition mixed_case_loads (text : string) : option json := Some mixed_case_object.

Definition decimal_50 (s : string) : option Q :=
  if String.eqb s "50" then Some 50%Q else None.

Definition one_item : list raw_item :=
  [mk_raw_item (Some 40%Q) (Some 0%Q) (Some 40%Q) (Some "Alternator")].

End Samples.

(** * Facts

    First the embedding on exact rationals (the rounding helpers, the
    cleaning steps, the counts), then the AI-assisted analyzer and the bid
    formula, then the embedding on binary64 floats (the percentile routine,
    the IQR bounds, the mean, the tiers), then further properties of each
    part of the program. *)

(** ** Rounding, ordering and indexing *)

Module PyNumFacts.

Import PyNum SpecWords Lqa.
Local Open Scope Q_scope.

Lemma Qltb_lt (x y : Q) : Qltb x y = true <-> x < y.
Proof.
  unfold Qltb. rewrite negb_true_iff.
  split; intro H.
  - destruct (Qlt_le_dec x y) as [L | L]; [exact L |].
    apply Qle_bool_iff in L. congruence.
  - destruct (Qle_bool y x) eqn:E; [| reflexivity].
    apply Qle_bool_iff in E. lra.
Qed.

Lemma Qltb_ge (x y : Q) : Qltb x y = false <-> y <= x.
Proof.
  unfold Qltb. rewrite negb_false_iff. apply Qle_bool_iff.
Qed.

(** Push [inject_Z] through integer arithmetic so that [lra] sees it. *)
Ltac push_inject :=
  repeat (rewrite ?inject_Z_plus, ?inject_Z_mult, ?inject_Z_opp in *);
  change (inject_Z 1) with 1 in *.

Lemma Qfloor_bounds (x : Q) : inject_Z (Qfloor x) <= x < inject_Z (Qfloor x) + 1.
Proof.
  split; [apply Qfloor_le |].
  pose proof (Qlt_floor x) as H.
  push_inject. exact H.
Qed.

(** The three outcomes of [py_round], phrased on the fractional part. *)
Lemma py_round_cases (x : Q) :
  let f := Qfloor x in
  (x - inject_Z f < 1 # 2 /\ py_round x = f) \/
  (1 # 2 < x - inject_Z f /\ py_round x = (f + 1)%Z) \/
  (x - inject_Z f == 1 # 2 /\ py_round x = if Z.even f then f else (f + 1)%Z).
Proof.
  cbv zeta. unfold py_round.
  destruct (Qcompare (x - inject_Z (Qfloor x)) (1 # 2)) eqn:E.
  - right; right. apply Qeq_alt in E. split; [exact E | reflexivity].
  - left. apply Qlt_alt in E. split; [exact E | reflexivity].
  - right; left. apply Qgt_alt in E. split; [exact E | reflexivity].
Qed.

Lemma py_round_floor_le (x : Q) : (Qfloor x <= py_round x <= Qfloor x + 1)%Z.
Proof.
  destruct (py_round_cases x) as [[_ ->] | [[_ ->] | [_ ->]]];
    try destruct (Z.even _); lia.
Qed.


(** [round] is the identity on integers. *)
Lemma py_round_inject (z : Z) : py_round (inject_Z z) = z.
Proof.
  destruct (py_round_cases (inject_Z z)) as [[H E] | [[H E] | [H E]]];
    rewrite Qfloor_Z in *; try exact E; lra.
Qed.

(** [round] is monotone, ties included. *)
Lemma py_round_mono (x y : Q) : x <= y -> (py_round x <= py_round y)%Z.
Proof.
  intro Hxy.
  pose proof (Qfloor_resp_le _ _ Hxy) as Hf.
  destruct (Z.eq_dec (Qfloor x) (Qfloor y)) as [E | NE].
  - destruct (py_round_cases x) as [[Hx ->] | [[Hx ->] | [Hx ->]]];
      destruct (py_round_cases y) as [[Hy ->] | [[Hy ->] | [Hy ->]]];
      rewrite <- ?E in *; try destruct (Z.even (Qfloor x)); try lia; lra.
  - pose proof (py_round_floor_le x). pose proof (py_round_floor_le y). lia.
Qed.


(** Bounds of [round] against an integer. *)
Lemma py_round_le_int (x : Q) (z : Z) : x <= inject_Z z -> (py_round x <= z)%Z.
Proof.
  intro H. rewrite <- (py_round_inject z). apply py_round_mono, H.
Qed.

Lemma py_round_ge_int (x : Q) (z : Z) : inject_Z z <= x -> (z <= py_round x)%Z.
Proof.
  intro H. rewrite <- (py_round_inject z) at 1. apply py_round_mono, H.
Qed.

End PyNumFacts.

(** ** The rounding helpers *)

Module RoundingFacts.

Import PyNum SpecWords Analyzer PyNumFacts Lqa.
Local Open Scope Q_scope.

(** Turn the tests of a rounding helper into inequalities. *)
Ltac branch b :=
  let E := fresh "B" in
  destruct b eqn:E; [apply Qltb_lt in E | apply Qltb_ge in E].

(** Bound [round(x / k)] from one side by an integer [z]. *)
Ltac round_le x k z :=
  let H := fresh "U" in
  assert (H : (py_round (x / k) <= z)%Z)
    by (apply py_round_le_int; unfold inject_Z;
        apply Qle_shift_div_r; [reflexivity | lra]).
Ltac round_ge x k z :=
  let H := fresh "L" in
  assert (H : (z <= py_round (x / k))%Z)
    by (apply py_round_ge_int; unfold inject_Z;
        apply Qle_shift_div_l; [reflexivity | lra]).

Lemma round_div_mono (k x y : Q) :
  0 < k -> x <= y -> (py_round (x / k) <= py_round (y / k))%Z.
Proof.
  intros Hk Hxy. apply py_round_mono.
  unfold Qdiv. apply Qmult_le_compat_r; [exact Hxy |].
  apply Qlt_le_weak, Qinv_lt_0_compat, Hk.
Qed.

Lemma smart_round_mono (x y : Q) : x <= y -> (smart_round x <= smart_round y)%Z.
Proof.
  intro Hxy. unfold smart_round.
  branch (Qltb x 100); branch (Qltb y 100); try lra.
  - pose proof (round_div_mono 5 x y eq_refl Hxy). lia.
  - round_le x 5 20%Z.
    branch (Qltb y 500).
    + round_ge y 10 10%Z. lia.
    + round_ge y 25 20%Z. lia.
  - branch (Qltb x 500); branch (Qltb y 500); try lra.
    + pose proof (round_div_mono 10 x y eq_refl Hxy). lia.
    + round_le x 10 50%Z. round_ge y 25 20%Z. lia.
    + pose proof (round_div_mono 25 x y eq_refl Hxy). lia.
Qed.

Lemma small_round_mono (x y : Q) : x <= y -> (small_round x <= small_round y)%Z.
Proof.
  intro Hxy. unfold small_round.
  branch (Qltb x 50); branch (Qltb y 50); try lra.
  - apply py_round_mono, Hxy.
  - assert (U : (py_round x <= 50)%Z) by (apply py_round_le_int; unfold inject_Z; lra).
    branch (Qltb y 200).
    + round_ge y 5 10%Z. lia.
    + round_ge y 10 20%Z. lia.
  - branch (Qltb x 200); branch (Qltb y 200); try lra.
    + pose proof (round_div_mono 5 x y eq_refl Hxy). lia.
    + round_le x 5 40%Z. round_ge y 10 20%Z. lia.
    + pose proof (round_div_mono 10 x y eq_refl Hxy). lia.
Qed.

(** C10.  Both rounding helpers of [_analyze_price_distribution] are
    monotone nondecreasing, their piecewise increments and the ties-to-even
    rule of [round] notwithstanding: whenever [x <= y], [smart_round x <=
    smart_round y] and [small_round x <= small_round y].  The claim asks it
    for [0 <= x]; it holds for every rational. *)
Theorem rounding_helpers_monotone (x y : Q) :
  x <= y ->
  (smart_round x <= smart_round y)%Z /\ (small_round x <= small_round y)%Z.
Proof.
  intro Hxy. split; [apply smart_round_mono | apply small_round_mono]; exact Hxy.
Qed.

Lemma rounding_helpers_monotone_witness :
  99 <= 100 /\
  (smart_round 99 <= smart_round 100)%Z /\ (small_round 99 <= small_round 100)%Z.
Proof.
  split; [unfold Qle; simpl; lia |].
  apply (rounding_helpers_monotone 99 100). unfold Qle; simpl; lia.
Defined.



(** The tiers [rounded_tiers] returns are [smartRound] of the raw
    percentiles it returns, at the number of cleaned prices. *)
Lemma rounded_tiers_smartRound (sorted_prices : list Q) raw tiers :
  rounded_tiers sorted_prices = Some (raw, tiers) ->
  let n := List.length sorted_prices in
  let '(p_low, p_average, p_high) := raw in
  tiers = (smartRound p_low n, smartRound p_average n, smartRound p_high n).
Proof.
  unfold rounded_tiers, smartRound.
  destruct (get_percentile sorted_prices 10) as [a |]; [| discriminate].
  destruct (get_percentile sorted_prices 30) as [b |]; [| discriminate].
  destruct (get_percentile sorted_prices 50) as [c |]; [| discriminate].
  destruct (List.length sorted_prices <? 10)%nat.
  - destruct (get_percentile sorted_prices 5) as [a' |]; [| discriminate].
    destruct (get_percentile sorted_prices 25) as [b' |]; [| discriminate].
    intro H. injection H as <- <-. reflexivity.
  - intro H. injection H as <- <-. reflexivity.
Qed.




End RoundingFacts.

(** ** The percentile helper *)

Module PercentileFacts.

Import PyNum SpecWords Analyzer PyNumFacts Lqa.
Local Open Scope Q_scope.

Lemma py_index_nonneg {A : Type} (l : list A) (i : Z) :
  (0 <= i)%Z -> py_index l i = nth_error l (Z.to_nat i).
Proof.
  intro H. unfold py_index.
  destruct (i <? 0)%Z eqn:E; [apply Z.ltb_lt in E; lia | reflexivity].
Qed.

Lemma nth_error_in_range {A : Type} (l : list A) (k : nat) :
  (k < List.length l)%nat -> exists x, nth_error l k = Some x.
Proof.
  intro H. destruct (nth_error l k) as [x |] eqn:E; [eauto |].
  apply nth_error_None in E. lia.
Qed.

Lemma py_int_nonneg (x : Q) : 0 <= x -> py_int x = Qfloor x.
Proof.
  intro H. unfold py_int. apply Qle_bool_iff in H. rewrite H. reflexivity.
Qed.

(** The fractional index of a percentile between 0 and 100 lies between the
    first and the last position. *)
Lemma index_in_range (p : Q) (n : Z) :
  0 <= p -> p <= 100 -> (1 <= n)%Z ->
  0 <= (p / 100) * inject_Z (n - 1) <= inject_Z (n - 1).
Proof.
  intros H0 H100 Hn.
  assert (T0 : 0 <= p / 100) by (apply Qle_shift_div_l; [reflexivity | lra]).
  assert (T1 : p / 100 <= 1) by (apply Qle_shift_div_r; [reflexivity | lra]).
  assert (N : 0 <= inject_Z (n - 1)).
  { change 0 with (inject_Z 0). rewrite <- Zle_Qle. lia. }
  split; nra.
Qed.

(** [get_percentile] on a nonempty list and a percentile between 0 and 100:
    it returns the combination, with weight [w = index - floor(index)], of
    the values at [floor(index)] and at [min(floor(index) + 1, n - 1)]. *)
Lemma get_percentile_char (data : list Q) (p : Q) :
  data <> [] -> 0 <= p -> p <= 100 ->
  let n := Z.of_nat (List.length data) in
  let index := (p / 100) * inject_Z (n - 1) in
  let f := Qfloor index in
  let w := index - inject_Z f in
  exists r lo hi,
    get_percentile data p = Some r /\
    nth_error data (Z.to_nat f) = Some lo /\
    nth_error data (Z.to_nat (Z.min (f + 1) (n - 1))) = Some hi /\
    r == lo * (1 - w) + hi * w /\
    (0 <= f)%Z /\ (f <= n - 1)%Z /\ 0 <= w /\ w < 1.
Proof.
  intros Hne H0 H100. cbv zeta.
  set (n := Z.of_nat (List.length data)).
  assert (Hn : (1 <= n)%Z) by (unfold n; destruct data; [contradiction | simpl; lia]).
  set (index := (p / 100) * inject_Z (n - 1)).
  destruct (index_in_range p n H0 H100 Hn) as [I0 I1]. fold index in I0, I1.
  pose proof (Qfloor_bounds index) as [Fl Fu].
  assert (F0 : (0 <= Qfloor index)%Z).
  { change 0%Z with (Qfloor 0). apply Qfloor_resp_le, I0. }
  assert (F1 : (Qfloor index <= n - 1)%Z).
  { rewrite <- (Qfloor_Z (n - 1)). apply Qfloor_resp_le, I1. }
  destruct (nth_error_in_range data (Z.to_nat (Qfloor index))) as [lo Hlo];
    [unfold n in *; lia |].
  destruct (nth_error_in_range data
              (Z.to_nat (Z.min (Qfloor index + 1) (n - 1)))) as [hi Hhi];
    [unfold n in *; lia |].
  unfold get_percentile. fold n. fold index.
  destruct (List.length data =? 1)%nat eqn:L1.
  - apply Nat.eqb_eq in L1.
    assert (N1 : n = 1%Z) by (unfold n; lia).
    assert (I : index == 0) by (unfold index; rewrite N1; simpl; ring).
    assert (Fz : Qfloor index = 0%Z) by (rewrite I; reflexivity).
    rewrite Fz, N1 in *. simpl in Hlo, Hhi.
    rewrite py_index_nonneg by lia. simpl.
    exists lo, lo, hi. rewrite Hlo.
    assert (W : index - inject_Z 0 == 0) by (change (inject_Z 0) with 0; lra).
    repeat split; try assumption; try lia; try lra; try congruence.
    rewrite W. ring.
  - rewrite (py_int_nonneg index I0), !py_index_nonneg by lia.
    rewrite Hlo, Hhi. exists (lo * (1 - (index - inject_Z (Qfloor index)))
                              + hi * (index - inject_Z (Qfloor index))), lo, hi.
    repeat split; try assumption; try lra.
Qed.

End PercentileFacts.

(** ** Sorting, and the IQR stage *)

Module FilterFacts.

Import PyNum PyStr SpecWords Analyzer PyNumFacts PercentileFacts Lqa.
Local Open Scope Q_scope.

Lemma insert_sorted_perm (x : Q) (l : list Q) : Permutation (x :: l) (insert_sorted x l).
Proof.
  induction l as [| y r IH]; simpl; [apply Permutation_refl |].
  destruct (Qle_bool x y); [apply Permutation_refl |].
  eapply perm_trans; [apply perm_swap |]. apply perm_skip, IH.
Qed.

Lemma py_sorted_perm (l : list Q) : Permutation l (py_sorted l).
Proof.
  induction l as [| x r IH]; simpl; [constructor |].
  eapply perm_trans; [apply perm_skip, IH | apply insert_sorted_perm].
Qed.

Lemma py_sorted_length (l : list Q) : List.length (py_sorted l) = List.length l.
Proof. symmetry. apply Permutation_length, py_sorted_perm. Qed.

Lemma insert_sorted_hd (a x : Q) (l : list Q) :
  a <= x -> HdRel Qle a l -> HdRel Qle a (insert_sorted x l).
Proof.
  intros Hax Hl. destruct l as [| y r]; simpl; [constructor; exact Hax |].
  destruct (Qle_bool x y); constructor; [exact Hax |].
  inversion Hl; assumption.
Qed.

Lemma insert_sorted_sorted (x : Q) (l : list Q) :
  Sorted Qle l -> Sorted Qle (insert_sorted x l).
Proof.
  induction 1 as [| y r Hs IH Hd]; simpl; [repeat constructor |].
  destruct (Qle_bool x y) eqn:E.
  - apply Qle_bool_iff in E. repeat constructor; assumption.
  - assert (Hyx : y <= x).
    { destruct (Qlt_le_dec y x) as [L | L]; [lra |].
      apply Qle_bool_iff in L. congruence. }
    constructor; [exact IH | apply insert_sorted_hd; assumption].
Qed.

Lemma py_sorted_sorted (l : list Q) : Sorted Qle (py_sorted l).
Proof.
  induction l as [| x r IH]; simpl; [constructor | apply insert_sorted_sorted, IH].
Qed.

Lemma not_outlier_within (q1 q3 price : Q) :
  negb (is_outlier (q1 - 1.5 * (q3 - q1)) (q3 + 1.5 * (q3 - q1)) price)
  = within (iqr_bounds q1 q3) price.
Proof.
  unfold is_outlier, within, iqr_bounds, Qltb. cbn [fst snd].
  destruct (Qle_bool _ price), (Qle_bool price _); reflexivity.
Qed.

Lemma outlier_not_within (q1 q3 price : Q) :
  is_outlier (q1 - 1.5 * (q3 - q1)) (q3 + 1.5 * (q3 - q1)) price
  = negb (within (iqr_bounds q1 q3) price).
Proof.
  rewrite <- not_outlier_within, negb_involutive. reflexivity.
Qed.

(** The quartile positions are inside the sorted list. *)
Lemma quartile_index (n k : nat) :
  (1 <= n)%nat -> (k <= 3)%nat ->
  (Z.of_nat k * Z.of_nat n / 4 = Z.of_nat (k * n / 4))%Z /\ (k * n / 4 < n)%nat.
Proof.
  intros Hn Hk. split.
  - rewrite <- Nat2Z.inj_mul. change 4%Z with (Z.of_nat 4). symmetry. apply Nat2Z.inj_div.
  - apply Nat.Div0.div_lt_upper_bound. nia.
Qed.

(** What the IQR stage does to a list of at least ten prices. *)
Lemma iqr_stage_runs (cleaned_prices : list Q) :
  let n := List.length cleaned_prices in
  (10 <= n)%nat ->
  exists q1 q3,
    nth_error (py_sorted cleaned_prices) (n / 4) = Some q1 /\
    nth_error (py_sorted cleaned_prices) (3 * n / 4) = Some q3 /\
    iqr_stage cleaned_prices =
      Some (filter (within (iqr_bounds q1 q3)) cleaned_prices,
            map StatisticalOutlier
                (filter (fun price => negb (within (iqr_bounds q1 q3) price)) cleaned_prices)).
Proof.
  intros n Hn. unfold iqr_stage. fold n.
  replace (10 <=? n)%nat with true by (symmetry; apply Nat.leb_le; exact Hn).
  rewrite py_sorted_length. fold n.
  destruct (quartile_index n 1 ltac:(lia) ltac:(lia)) as [E1 L1].
  destruct (quartile_index n 3 ltac:(lia) ltac:(lia)) as [E3 L3].
  change (Z.of_nat 1) with 1%Z in E1. rewrite Z.mul_1_l in E1.
  rewrite Nat.mul_1_l in E1, L1.
  change (Z.of_nat 3) with 3%Z in E3.
  rewrite E1, E3, !py_index_nonneg, !Nat2Z.id by lia.
  destruct (nth_error_in_range (py_sorted cleaned_prices) (n / 4)) as [q1 H1];
    [rewrite py_sorted_length; exact L1 |].
  destruct (nth_error_in_range (py_sorted cleaned_prices) (3 * n / 4)) as [q3 H3];
    [rewrite py_sorted_length; exact L3 |].
  exists q1, q3. rewrite H1, H3. repeat split.
  f_equal. f_equal.
  - apply filter_ext. intro price. apply not_outlier_within.
  - f_equal. apply filter_ext. intro price. apply outlier_not_within.
Qed.

Lemma iqr_stage_skipped (cleaned_prices : list Q) :
  (List.length cleaned_prices < 10)%nat ->
  iqr_stage cleaned_prices = Some (cleaned_prices, []).
Proof.
  intro H. unfold iqr_stage.
  replace (10 <=? List.length cleaned_prices)%nat with false
    by (symmetry; apply Nat.leb_gt; exact H).
  reflexivity.
Qed.

(** [clean_prices] with its three steps named. *)
Lemma clean_prices_steps (raw_prices : list Q) (part_name : string)
    (raw_titles : option (list string)) (minimum_price : Q) :
  let step1 := keyword_stage (keywords_for part_name) raw_titles 0 raw_prices in
  let step2 := minimum_stage minimum_price (fst step1) in
  clean_prices raw_prices part_name raw_titles minimum_price =
  match iqr_stage (fst step2) with
  | Some (cleaned_prices, removed3) =>
      Some (cleaned_prices, snd step1 ++ snd step2 ++ removed3)
  | None => None
  end.
Proof.
  cbv zeta. unfold clean_prices.
  destruct (keyword_stage _ _ _ _) as [c1 r1]. cbn [fst snd].
  destruct (minimum_stage _ _) as [c2 r2]. cbn [fst snd].
  destruct (iqr_stage c2) as [[c3 r3] |]; reflexivity.
Qed.

(** *** The keyword step *)

Lemma keyword_stage_app (keywords : list string) (raw_titles : option (list string))
    (l1 l2 : list Q) (i : nat) :
  keyword_stage keywords raw_titles i (l1 ++ l2) =
  (fst (keyword_stage keywords raw_titles i l1)
     ++ fst (keyword_stage keywords raw_titles (i + List.length l1) l2),
   snd (keyword_stage keywords raw_titles i l1)
     ++ snd (keyword_stage keywords raw_titles (i + List.length l1) l2)).
Proof.
  revert i. induction l1 as [| x r IH]; intro i.
  - simpl. rewrite Nat.add_0_r. destruct (keyword_stage _ _ _ l2); reflexivity.
  - cbn [app keyword_stage List.length].
    rewrite (IH (S i)). replace (i + S (List.length r))%nat with (S i + List.length r)%nat by lia.
    destruct (keyword_stage keywords raw_titles (S i) r) as [c1 r1].
    destruct (keyword_stage keywords raw_titles (S i + List.length r) l2) as [c2 r2].
    cbn [fst snd].
    destruct (is_suspicious keywords (title_at raw_titles i)); reflexivity.
Qed.

End FilterFacts.

(** ** The analyzer as a whole *)

Module AnalyzerFacts.

Import PyNum PyStr SpecWords Analyzer.
Import PyNumFacts RoundingFacts PercentileFacts FilterFacts Lqa.
Local Open Scope Q_scope.

Lemma sorted_nth_le (l : list Q) (i j : nat) (a b : Q) :
  Sorted Qle l -> (i <= j)%nat ->
  nth_error l i = Some a -> nth_error l j = Some b -> a <= b.
Proof.
  intro Hs. apply Sorted_StronglySorted in Hs; [| intros x y z; apply Qle_trans].
  revert i j. induction Hs as [| x r Hr IH Hall]; intros i j Hij Ha Hb.
  - destruct i; discriminate.
  - destruct i as [| i], j as [| j]; simpl in Ha, Hb; try lia.
    + injection Ha as <-. injection Hb as <-. apply Qle_refl.
    + injection Ha as <-. apply nth_error_In in Hb.
      rewrite Forall_forall in Hall. apply Hall, Hb.
    + apply (IH i j); [lia | assumption | assumption].
Qed.

(** On a sorted list a larger percentile is not smaller. *)
Lemma get_percentile_mono (data : list Q) (p p' r r' : Q) :
  Sorted Qle data -> data <> [] ->
  0 <= p -> p <= p' -> p' <= 100 ->
  get_percentile data p = Some r -> get_percentile data p' = Some r' ->
  r <= r'.
Proof.
  intros Hs Hne H0 Hpp H100 Hr Hr'.
  destruct (get_percentile_char data p Hne H0 ltac:(lra))
    as (r1 & lo & hi & Hr1 & Hlo & Hhi & Er & F0 & F1 & W0 & W1).
  destruct (get_percentile_char data p' Hne ltac:(lra) H100)
    as (r2 & lo' & hi' & Hr2 & Hlo' & Hhi' & Er' & F0' & F1' & W0' & W1').
  rewrite Hr in Hr1. injection Hr1 as <-.
  rewrite Hr' in Hr2. injection Hr2 as <-.
  set (n := Z.of_nat (List.length data)) in *.
  set (index := (p / 100) * inject_Z (n - 1)) in *.
  set (index' := (p' / 100) * inject_Z (n - 1)) in *.
  assert (N : 0 <= inject_Z (n - 1)).
  { change 0 with (inject_Z 0). rewrite <- Zle_Qle. lia. }
  assert (Hidx : index <= index').
  { unfold index, index'. apply Qmult_le_compat_r; [| exact N].
    unfold Qdiv. apply Qmult_le_compat_r; [exact Hpp | discriminate]. }
  assert (Hf : (Qfloor index <= Qfloor index')%Z) by (apply Qfloor_resp_le, Hidx).
  assert (Hlh : lo <= hi)
    by (eapply (sorted_nth_le data _ _ lo hi Hs); [| exact Hlo | exact Hhi]; lia).
  assert (Hlh' : lo' <= hi')
    by (eapply (sorted_nth_le data _ _ lo' hi' Hs); [| exact Hlo' | exact Hhi']; lia).
  rewrite Er, Er'.
  destruct (Z.eq_dec (Qfloor index) (Qfloor index')) as [E | NE].
  - rewrite <- E in *. rewrite Hlo in Hlo'. injection Hlo' as <-.
    rewrite Hhi in Hhi'. injection Hhi' as <-.
    nra.
  - assert (Hhl : hi <= lo')
      by (eapply (sorted_nth_le data _ _ hi lo' Hs); [| exact Hhi | exact Hlo']; lia).
    nra.
Qed.

Lemma get_percentile_total (data : list Q) (p : Q) :
  data <> [] -> 0 <= p -> p <= 100 -> exists r, get_percentile data p = Some r.
Proof.
  intros Hne H0 H100.
  destruct (get_percentile_char data p Hne H0 H100) as (r & _ & _ & Hr & _).
  exists r. exact Hr.
Qed.

(** Rounding alone keeps the three tiers in order. *)
Lemma rounded_tiers_ordered (sorted_prices : list Q) :
  Sorted Qle sorted_prices -> sorted_prices <> [] ->
  exists raw b s p,
    rounded_tiers sorted_prices = Some (raw, (b, s, p)) /\ (b <= s)%Z /\ (s <= p)%Z.
Proof.
  intros Hs Hne. unfold rounded_tiers.
  destruct (get_percentile_total sorted_prices 10 Hne) as [a10 H10]; [discriminate .. |].
  destruct (get_percentile_total sorted_prices 30 Hne) as [a30 H30]; [discriminate .. |].
  destruct (get_percentile_total sorted_prices 50 Hne) as [a50 H50]; [discriminate .. |].
  destruct (get_percentile_total sorted_prices 5 Hne) as [a5 H5]; [discriminate .. |].
  destruct (get_percentile_total sorted_prices 25 Hne) as [a25 H25]; [discriminate .. |].
  rewrite H10, H30, H50.
  destruct (List.length sorted_prices <? 10)%nat.
  - rewrite H5, H25. do 4 eexists. split; [reflexivity |].
    split; apply small_round_mono;
      eapply (get_percentile_mono sorted_prices); eauto; discriminate.
  - do 4 eexists. split; [reflexivity |].
    split; apply smart_round_mono;
      eapply (get_percentile_mono sorted_prices); eauto; discriminate.
Qed.

Lemma py_min_total (l : list Q) : l <> [] -> exists m, py_min l = Some m.
Proof. destruct l; [contradiction | intros _; eexists; reflexivity]. Qed.

Lemma py_max_total (l : list Q) : l <> [] -> exists m, py_max l = Some m.
Proof. destruct l; [contradiction | intros _; eexists; reflexivity]. Qed.

(** The three outcomes of the forced separation on at least 3 prices:
    nothing changes unless the three rounded tiers coincide and the range
    of the prices exceeds 10; then [low] becomes the larger of [tier - step]
    and the smallest price, and [high] becomes [tier + step]. *)
Lemma separate_tiers_cases (sorted_prices : list Q) (b s p : Z) (lo hi : Q) :
  (3 <= List.length sorted_prices)%nat ->
  py_min sorted_prices = Some lo -> py_max sorted_prices = Some hi ->
  exists l h,
    separate_tiers sorted_prices (b, s, p) = Some (l, inject_Z s, h) /\
    ((b = s /\ s = p /\ 10 < hi - lo) /\
       (exists step, (0 < step)%Z /\
          l = py_max2 (inject_Z (b - step)) lo /\ h = inject_Z (p + step))
     \/
     ~ (b = s /\ s = p /\ 10 < hi - lo) /\ l = inject_Z b /\ h = inject_Z p).
Proof.
  intros Hn Hlo Hhi. unfold separate_tiers. rewrite Hlo, Hhi.
  replace (3 <=? List.length sorted_prices)%nat with true
    by (symmetry; apply Nat.leb_le; exact Hn).
  rewrite andb_true_r.
  destruct (b =? s)%Z eqn:E1; [apply Z.eqb_eq in E1 | apply Z.eqb_neq in E1];
    [destruct (s =? p)%Z eqn:E2; [apply Z.eqb_eq in E2 | apply Z.eqb_neq in E2] |];
    cbn [andb].
  - destruct (Qltb 10 (hi - lo)) eqn:E3; [apply Qltb_lt in E3 | apply Qltb_ge in E3].
    + do 2 eexists. split; [reflexivity |]. left. split; [tauto |].
      eexists. split; [| split; reflexivity].
      destruct (Qltb (hi - lo) 50); [| destruct (Qltb (hi - lo) 200)]; lia.
    + do 2 eexists. split; [reflexivity |]. right.
      split; [intros (_ & _ & H); lra | split; reflexivity].
  - do 2 eexists. split; [reflexivity |]. right. split; [tauto | split; reflexivity].
  - do 2 eexists. split; [reflexivity |]. right. split; [tauto | split; reflexivity].
Qed.

(** What [full_analysis] answers once the cleaning left at least 3 prices. *)
Lemma full_analysis_tiers (raw_prices : list Q) (part_name : string)
    (raw_titles : option (list string)) (minimum_price : Q)
    (cleaned : list Q) (removed : list removal) :
  clean_prices raw_prices part_name raw_titles minimum_price = Some (cleaned, removed) ->
  (3 <= List.length cleaned)%nat ->
  exists r raw_percentiles b s p lo hi,
    full_analysis raw_prices part_name raw_titles minimum_price = Some r /\
    rounded_tiers (py_sorted cleaned) = Some (raw_percentiles, (b, s, p)) /\
    py_min (py_sorted cleaned) = Some lo /\
    py_max (py_sorted cleaned) = Some hi /\
    (b <= s)%Z /\ (s <= p)%Z /\
    separate_tiers (py_sorted cleaned) (b, s, p) = Some (low r, average r, high r) /\
    cleaned_count r = Z.of_nat (List.length cleaned).
Proof.
  intros Hclean Hn.
  assert (Hne : cleaned <> []) by (destruct cleaned; [simpl in Hn; lia | discriminate]).
  assert (Hsn : (3 <= List.length (py_sorted cleaned))%nat) by (rewrite py_sorted_length; exact Hn).
  assert (Hsne : py_sorted cleaned <> [])
    by (destruct (py_sorted cleaned); [simpl in Hsn; lia | discriminate]).
  destruct (rounded_tiers_ordered (py_sorted cleaned) (py_sorted_sorted cleaned) Hsne)
    as (raw & b & s & p & Hrt & Hbs & Hsp).
  destruct (py_min_total _ Hsne) as [lo Hlo].
  destruct (py_max_total _ Hsne) as [hi Hhi].
  destruct (separate_tiers_cases (py_sorted cleaned) b s p lo hi Hsn Hlo Hhi)
    as (l & h & Hsep & _).
  destruct (py_min_total _ Hne) as [lo' Hlo'].
  destruct (py_max_total _ Hne) as [hi' Hhi'].
  unfold full_analysis. rewrite Hclean.
  destruct cleaned as [| c0 cs]; [contradiction |].
  rewrite Hrt, Hsep, Hhi', Hlo'. destruct raw as [[p1 p2] p3].
  eexists. exists (p1, p2, p3), b, s, p, lo, hi.
  split; [reflexivity |]. cbn [low average high cleaned_count].
  repeat split; assumption.
Qed.

Lemma analyze_three_or_more (raw_prices : list Q) (part_name : string)
    (raw_titles : option (list string)) (minimum_price : Q) :
  (3 <= List.length raw_prices)%nat ->
  _analyze_price_distribution raw_prices part_name raw_titles minimum_price
  = full_analysis raw_prices part_name raw_titles minimum_price.
Proof.
  intro H. unfold _analyze_price_distribution.
  destruct raw_prices as [| x r]; [simpl in H; lia |].
  replace (List.length (x :: r) <? 3)%nat with false
    by (symmetry; apply Nat.ltb_ge; exact H).
  reflexivity.
Qed.

(** *** The analyzer never raises *)

Lemma iqr_stage_total (cleaned_prices : list Q) :
  exists kept removed, iqr_stage cleaned_prices = Some (kept, removed).
Proof.
  destruct (Nat.lt_ge_cases (List.length cleaned_prices) 10) as [L | L].
  - rewrite (iqr_stage_skipped _ L). eauto.
  - destruct (iqr_stage_runs _ L) as (q1 & q3 & _ & _ & ->). eauto.
Qed.

Lemma clean_prices_total (raw_prices : list Q) (part_name : string)
    (raw_titles : option (list string)) (minimum_price : Q) :
  exists cleaned removed,
    clean_prices raw_prices part_name raw_titles minimum_price = Some (cleaned, removed).
Proof.
  rewrite clean_prices_steps.
  destruct (iqr_stage_total
              (fst (minimum_stage minimum_price
                      (fst (keyword_stage (keywords_for part_name) raw_titles 0 raw_prices)))))
    as (kept & removed & ->).
  eauto.
Qed.

Lemma separate_tiers_total (sorted_prices : list Q) (tiers : Z * Z * Z) :
  sorted_prices <> [] -> exists t, separate_tiers sorted_prices tiers = Some t.
Proof.
  intro Hne. destruct tiers as [[b s] p]. unfold separate_tiers.
  destruct (py_min_total _ Hne) as [lo ->].
  destruct (py_max_total _ Hne) as [hi ->].
  destruct (_ && _); [destruct (Qltb 10 _) |]; eauto.
Qed.

Lemma full_analysis_total (raw_prices : list Q) (part_name : string)
    (raw_titles : option (list string)) (minimum_price : Q) :
  exists r, full_analysis raw_prices part_name raw_titles minimum_price = Some r.
Proof.
  unfold full_analysis.
  destruct (clean_prices_total raw_prices part_name raw_titles minimum_price)
    as (cleaned & removed & ->).
  destruct cleaned as [| c0 cs]; [eauto |].
  set (cleaned := c0 :: cs).
  assert (Hne : cleaned <> []) by discriminate.
  assert (Hsne : py_sorted cleaned <> []).
  { intro E. apply (f_equal (@List.length Q)) in E.
    rewrite py_sorted_length in E. discriminate. }
  destruct (rounded_tiers_ordered _ (py_sorted_sorted cleaned) Hsne)
    as (raw & b & s & p & -> & _).
  destruct (separate_tiers_total (py_sorted cleaned) (b, s, p) Hsne) as [[[l a] h] ->].
  destruct (py_max_total _ Hne) as [hi ->].
  destruct (py_min_total _ Hne) as [lo ->].
  destruct raw as [[p1 p2] p3]. eauto.
Qed.

(** [_analyze_price_distribution] returns a dict on every input. *)
Lemma analyze_total (raw_prices : list Q) (part_name : string)
    (raw_titles : option (list string)) (minimum_price : Q) :
  exists r, _analyze_price_distribution raw_prices part_name raw_titles minimum_price = Some r.
Proof.
  unfold _analyze_price_distribution.
  destruct raw_prices as [| x rest]; [eauto |].
  destruct (_ <? 3)%nat; [eauto | apply full_analysis_total].
Qed.

End AnalyzerFacts.

(** ** The AI-assisted analyzer *)

Module AIFacts.

Import PyNum PyStr Analyzer AIAnalyzer AnalyzerFacts.
Local Open Scope string_scope.

Lemma py_all_defined (test : string -> bool) (keys : list string) :
  py_all (map (fun key => Some (test key)) keys) = Some (forallb test keys).
Proof.
  induction keys as [| k r IH]; simpl; [reflexivity |].
  destruct (test k); [exact IH | reflexivity].
Qed.

Lemma key_present (fields : list (string * json)) (key : string) :
  existsb (fun kv => String.eqb (fst kv) key) fields = true <-> In key (map fst fields).
Proof.
  rewrite existsb_exists, in_map_iff. split.
  - intros [kv [Hin E]]. apply String.eqb_eq in E. exists kv. split; assumption.
  - intros [kv [E Hin]]. exists kv. split; [exact Hin | apply String.eqb_eq, E].
Qed.

Section Service.

Variable json_loads : string -> option json.
Variable float_of_string : string -> option Q.
Variable generate_content : nat -> option (option string).

(** The fallback always answers, with the statistical result on the prices
    and titles of the same items. *)
Lemma traditional_analysis_answers (raw_items : list raw_item) (part_name : string)
    (minimum_price : Q) :
  exists r,
    traditional_analysis raw_items part_name minimum_price = Some (Statistical r) /\
    _analyze_price_distribution (prices_of raw_items) part_name
      (Some (titles_of raw_items)) minimum_price = Some r.
Proof.
  unfold traditional_analysis.
  destruct (analyze_total (prices_of raw_items) part_name
              (Some (titles_of raw_items)) minimum_price) as [r Hr].
  exists r. rewrite Hr. split; reflexivity.
Qed.

(** A response that does not parse raises inside the [try]. *)
Lemma invalid_json_raises (text : string) :
  json_loads (strip_fences text) = None ->
  interpret_response json_loads float_of_string text = None.
Proof.
  intro H. unfold interpret_response. rewrite H. reflexivity.
Qed.

(** So does an object that lacks a required key. *)
Lemma missing_key_raises (text : string) (fields : list (string * json)) (key : string) :
  json_loads (strip_fences text) = Some (JObject fields) ->
  In key required_keys -> ~ In key (map fst fields) ->
  interpret_response json_loads float_of_string text = None.
Proof.
  intros H Hreq Hmiss. unfold interpret_response. rewrite H.
  cbn [py_in]. rewrite py_all_defined.
  replace (forallb _ required_keys) with false; [reflexivity |].
  symmetry. apply not_true_is_false. intro Hall.
  rewrite forallb_forall in Hall. specialize (Hall key Hreq).
  apply key_present in Hall. contradiction.
Qed.

(** And so does anything that is not an object. *)
Lemma non_object_raises (text : string) (result : json) :
  json_loads (strip_fences text) = Some result ->
  (forall fields, result <> JObject fields) ->
  interpret_response json_loads float_of_string text = None.
Proof.
  intros H Hno. unfold interpret_response. rewrite H.
  destruct result; try reflexivity.
  - destruct (py_all _) as [[|] |]; reflexivity.
  - destruct (py_all _) as [[|] |]; reflexivity.
  - exfalso. apply (Hno fields). reflexivity.
Qed.

(** An object with every required key, a string rating and numeric prices
    and counts is kept. *)
Lemma well_formed_kept (text : string) (fields : list (string * json))
    (rating : string) (low average high cleaned : Q) :
  json_loads (strip_fences text) = Some (JObject fields) ->
  (forall key, In key required_keys -> In key (map fst fields)) ->
  dict_get fields "confidence_rating" (JString "") = JString rating ->
  py_float float_of_string (dict_get fields "low_price" JNull) = Some low ->
  py_float float_of_string (dict_get fields "average_price" JNull) = Some average ->
  py_float float_of_string (dict_get fields "high_price" JNull) = Some high ->
  py_sub (dict_get fields "items_analyzed" JNull)
         (dict_get fields "items_filtered_out" JNull) = Some cleaned ->
  interpret_response json_loads float_of_string text =
  Some (mk_ai_analysis low average high
          (dict_get fields "items_analyzed" JNull)
          (dict_get fields "items_filtered_out" JNull)
          (dict_get fields "reasoning" JNull)
          (if negb (existsb (String.eqb (lower rating)) valid_confidence_levels)
           then "yellow" else lower rating)
          (dict_get fields "confidence_explanation" JNull)
          cleaned
          (dict_get fields "items_filtered_out" JNull)).
Proof.
  intros H Hall Hrating Hlow Havg Hhigh Hsub. unfold interpret_response. rewrite H.
  cbn [py_in]. rewrite py_all_defined.
  replace (forallb _ required_keys) with true.
  - cbn [negb as_dict]. rewrite Hrating. cbn [py_lower].
    rewrite Hlow, Havg, Hhigh, Hsub. reflexivity.
  - symmetry. apply forallb_forall. intros key Hkey.
    apply key_present, Hall, Hkey.
Qed.

End Service.

(** C5, as the program has it.  Let the model have answered (at the first
    attempt or at the retry) a response whose text is [response], on a
    nonempty list of items with the AI path enabled.  If the response, its code fences stripped, is not
    valid JSON, or parses to an object lacking a required key, the analysis
    raises nothing and returns exactly the statistical analyzer's result on
    the prices and titles of the same items.  If instead it parses to an
    object with every required key, whose [confidence_rating] is a string
    outside the five levels and whose prices and counts are numeric, the
    response is kept and its [confidence_rating] becomes "yellow". *)
Theorem ai_fallback_and_coercion
    (json_loads : string -> option json) (float_of_string : string -> option Q)
    (generate_content : nat -> option (option string))
    (raw_items : list raw_item) (part_name : string) (minimum_price : Q)
    (response : string) :
  raw_items <> [] ->
  model_text generate_content = Some response ->
  let run :=
    _analyze_prices_with_ai json_loads float_of_string true true generate_content
      raw_items part_name minimum_price in
  ((json_loads (strip_fences response) = None \/
    (exists fields key,
        json_loads (strip_fences response) = Some (JObject fields) /\
        In key required_keys /\ ~ In key (map fst fields))) ->
   exists r,
     run = Some (Statistical r) /\
     _analyze_price_distribution (prices_of raw_items) part_name
       (Some (titles_of raw_items)) minimum_price = Some r) /\
  (forall fields rating low average high cleaned,
     json_loads (strip_fences response) = Some (JObject fields) ->
     (forall key, In key required_keys -> In key (map fst fields)) ->
     dict_get fields "confidence_rating" (JString "") = JString rating ->
     ~ In (lower rating) valid_confidence_levels ->
     py_float float_of_string (dict_get fields "low_price" JNull) = Some low ->
     py_float float_of_string (dict_get fields "average_price" JNull) = Some average ->
     py_float float_of_string (dict_get fields "high_price" JNull) = Some high ->
     py_sub (dict_get fields "items_analyzed" JNull)
            (dict_get fields "items_filtered_out" JNull) = Some cleaned ->
     run = Some (AIAssisted
                   (mk_ai_analysis low average high
                      (dict_get fields "items_analyzed" JNull)
                      (dict_get fields "items_filtered_out" JNull)
                      (dict_get fields "reasoning" JNull)
                      "yellow"
                      (dict_get fields "confidence_explanation" JNull)
                      cleaned
                      (dict_get fields "items_filtered_out" JNull)))).
Proof.
  intros Hne Hresp. cbv zeta. unfold _analyze_prices_with_ai. cbn [negb orb].
  destruct raw_items as [| item rest]; [contradiction |].
  rewrite Hresp. split.
  - intros Hbad.
    replace (interpret_response json_loads float_of_string response) with (@None ai_analysis).
    + apply traditional_analysis_answers.
    + symmetry. destruct Hbad as [H | (fields & key & H & Hreq & Hmiss)].
      * apply invalid_json_raises, H.
      * eapply missing_key_raises; eassumption.
  - intros fields rating low average high cleaned H Hall Hrating Hunk Hlow Havg Hhigh Hsub.
    rewrite (well_formed_kept json_loads float_of_string response fields rating
               low average high cleaned H Hall Hrating Hlow Havg Hhigh Hsub).
    replace (existsb (String.eqb (lower rating)) valid_confidence_levels) with false;
      [reflexivity |].
    symmetry. apply not_true_is_false. intro E.
    apply existsb_exists in E. destruct E as [level [Hin E]].
    apply String.eqb_eq in E. subst level. contradiction.
Qed.

Lemma ai_fallback_and_coercion_witness :
  exists r,
    _analyze_prices_with_ai sample_loads (fun _ => None) true true
      (fun _ => Some (Some "Sorry, no estimate."))
      [mk_raw_item (Some 40%Q) (Some 0%Q) (Some 40%Q) (Some "Alternator")]
      "alternator" 0%Q
    = Some (Statistical r) /\
    _analyze_price_distribution
      (prices_of [mk_raw_item (Some 40%Q) (Some 0%Q) (Some 40%Q) (Some "Alternator")])
      "alternator"
      (Some (titles_of [mk_raw_item (Some 40%Q) (Some 0%Q) (Some 40%Q) (Some "Alternator")]))
      0%Q = Some r.
Proof.
  refine (proj1 (ai_fallback_and_coercion sample_loads (fun _ => None)
                   (fun _ => Some (Some "Sorry, no estimate."))
                   [mk_raw_item (Some 40%Q) (Some 0%Q) (Some 40%Q) (Some "Alternator")]
                   "alternator" 0%Q "Sorry, no estimate." _ _) _).
  - discriminate.
  - reflexivity.
  - left. reflexivity.
Defined.

(** A response with every required key and numeric prices and counts whose
    [confidence_rating] is the JSON value [null], no recognized level, is not
    kept with "yellow": [.lower()] raises on it and the statistical result
    is returned instead. *)
Lemma null_rating_not_coerced :
  (forall key, In key required_keys ->
     py_in key null_rating_object = Some true) /\
  sample_loads (strip_fences null_rating_response) = Some null_rating_object /\
  exists r,
    _analyze_prices_with_ai sample_loads (fun _ => None) true true
      (fun _ => Some (Some null_rating_response))
      [mk_raw_item (Some 40%Q) (Some 0%Q) (Some 40%Q) (Some "Alternator")]
      "alternator" 0%Q
    = Some (Statistical r).
Proof.
  split.
  - intros key Hkey. simpl in Hkey.
    repeat (destruct Hkey as [<- | Hkey]; [reflexivity |]). contradiction.
  - split; [vm_compute; reflexivity |].
    eexists. vm_compute. reflexivity.
Qed.

End AIFacts.

(** ** The bid formula on binary64 floats *)

Module BidFloatFacts.

Import Bid.
Local Open Scope float_scope.

Lemma SFcompare_antisym (x y : spec_float) (c : comparison) :
  SFcompare x y = Some c -> SFcompare y x = Some (CompOpp c).
Proof.
  destruct x as [sx | sx | | sx mx ex], y as [sy | sy | | sy my ey];
    cbn [SFcompare]; try discriminate;
    try (destruct sx); try (destruct sy);
    intro H; injection H as <-; try reflexivity;
    rewrite (Z.compare_antisym ex ey);
    destruct (ex ?= ey)%Z; cbn [CompOpp]; try reflexivity;
    rewrite (Pos.compare_cont_antisym mx my Eq); reflexivity.
Qed.

(** [x < y] excludes [y <= x]. *)
Lemma ltb_not_leb (x y : float) : (x <? y) = true -> (y <=? x) = false.
Proof.
  rewrite ltb_spec, leb_spec. unfold SFltb, SFleb.
  destruct (SFcompare (Prim2SF x) (Prim2SF y)) as [[| |] |] eqn:E; try discriminate.
  intros _. rewrite (SFcompare_antisym _ _ _ E). reflexivity.
Qed.

(** Above 3000 is not at or below 0. *)
Lemma above_3000_not_nonpositive (v : float) : (3000 <? v) = true -> (v <=? 0) = false.
Proof.
  rewrite ltb_spec, leb_spec.
  set (c := Prim2SF 3000). vm_compute in c. subst c.
  set (z := Prim2SF 0). vm_compute in z. subst z.
  unfold SFltb, SFleb.
  destruct (Prim2SF v) as [s | s | | s m e]; cbn [SFcompare];
    try destruct s; try discriminate; reflexivity.
Qed.

(** C3.  On every binary64 value [v], [calculate_bid v] is 0 when
    [v <= 0], 300 when [0 < v <= 3000], and [300 + (v - 3000) * (0.25 + 0.40
    * sqrt((v - 3000) / 15000))] when [v > 3000]; and [calculate_bid 0 = 0],
    [calculate_bid 3000 = 300], [calculate_bid 18000 = 10050], each computed
    in binary64 arithmetic. *)
Theorem calculate_bid_piecewise (v : float) :
  ((v <=? 0) = true -> calculate_bid v = 0) /\
  ((0 <? v) = true -> (v <=? 3000) = true -> calculate_bid v = 300) /\
  ((3000 <? v) = true ->
     calculate_bid v
     = 300 + (v - 3000) * (0.25 + 0.40 * PrimFloat.sqrt ((v - 3000) / 15000))) /\
  calculate_bid 0 = 0 /\ calculate_bid 3000 = 300 /\ calculate_bid 18000 = 10050.
Proof.
  unfold calculate_bid.
  split; [intros ->; reflexivity |].
  split; [intros H0 H1; rewrite (ltb_not_leb _ _ H0), H1; reflexivity |].
  split; [intro H; rewrite (above_3000_not_nonpositive _ H), (ltb_not_leb _ _ H); reflexivity |].
  repeat split; vm_compute; reflexivity.
Qed.

Lemma calculate_bid_piecewise_witness :
  (3000 <? 18000) = true /\
  calculate_bid 18000
  = 300 + (18000 - 3000) * (0.25 + 0.40 * PrimFloat.sqrt ((18000 - 3000) / 15000)).
Proof.
  assert (H : (3000 <? 18000) = true) by (vm_compute; reflexivity).
  split; [exact H |].
  exact (proj1 (proj2 (proj2 (calculate_bid_piecewise 18000))) H).
Defined.

(** The step at 0 as binary64 sees it: the bid of 0 is 0 and the bid of
    the smallest positive value is already 300. *)
Lemma bid_step_at_0_binary64 :
  calculate_bid 0 = 0 /\ calculate_bid 0x1p-1074 = 300.
Proof. split; vm_compute; reflexivity. Qed.

End BidFloatFacts.

(** ** The bid formula on the reals *)

Module BidRealFacts.

Import Bid Reals Lra.
Local Open Scope R_scope.

Lemma bid_nonpositive (x : R) : x <= 0 -> calculate_bid_real x = 0.
Proof.
  intro H. unfold calculate_bid_real. destruct (Rle_dec x 0); [reflexivity | contradiction].
Qed.

Lemma bid_floor (x : R) : 0 < x -> x <= 3000 -> calculate_bid_real x = 300.
Proof.
  intros H0 H1. unfold calculate_bid_real.
  destruct (Rle_dec x 0); [lra |]. destruct (Rle_dec x 3000); [reflexivity | contradiction].
Qed.

Lemma bid_premium (x : R) : 3000 < x -> calculate_bid_real x = premium_branch x.
Proof.
  intro H. unfold calculate_bid_real, premium_branch.
  destruct (Rle_dec x 0); [lra |]. destruct (Rle_dec x 3000); [lra | reflexivity].
Qed.

Lemma percentage_pos (x : R) : 0 < 0.25 + 0.40 * sqrt ((x - 3000) / 15000).
Proof.
  pose proof (sqrt_pos ((x - 3000) / 15000)). lra.
Qed.

Lemma premium_branch_mono (x y : R) :
  3000 <= x -> x <= y -> premium_branch x <= premium_branch y.
Proof.
  intros Hx Hxy. unfold premium_branch.
  apply Rplus_le_compat_l.
  apply Rmult_le_compat; [lra | apply Rlt_le, percentage_pos | lra |].
  apply Rplus_le_compat_l, Rmult_le_compat_l; [lra |].
  apply sqrt_le_1_alt. lra.
Qed.

Lemma premium_branch_floor : premium_branch 3000 = 300.
Proof.
  unfold premium_branch. replace (3000 - 3000) with 0 by lra. lra.
Qed.

Lemma bid_monotone (x y : R) : x <= y -> calculate_bid_real x <= calculate_bid_real y.
Proof.
  intro Hxy.
  destruct (Rle_dec x 0) as [X0 | X0]; [rewrite (bid_nonpositive x X0) |].
  - destruct (Rle_dec y 0) as [Y0 | Y0]; [rewrite (bid_nonpositive y Y0); lra |].
    destruct (Rle_dec y 3000) as [Y1 | Y1]; [rewrite bid_floor; lra |].
    rewrite bid_premium by lra.
    pose proof (premium_branch_mono 3000 y). rewrite premium_branch_floor in *. lra.
  - destruct (Rle_dec x 3000) as [X1 | X1].
    + rewrite (bid_floor x) by lra.
      destruct (Rle_dec y 3000) as [Y1 | Y1]; [rewrite bid_floor; lra |].
      rewrite bid_premium by lra.
      pose proof (premium_branch_mono 3000 y). rewrite premium_branch_floor in *. lra.
    + rewrite !bid_premium by lra. apply premium_branch_mono; lra.
Qed.

Lemma premium_branch_continuous (x : R) : 3000 <= x -> continuity_pt premium_branch x.
Proof.
  intro Hx.
  change premium_branch with
    (fct_cte 300 + (id - fct_cte 3000)
                   * (fct_cte 0.25
                      + fct_cte 0.40 * comp sqrt ((id - fct_cte 3000) * fct_cte (/ 15000))))%F.
  assert (Hid : continuity_pt (id - fct_cte 3000) x).
  { apply continuity_pt_minus; [apply derivable_continuous_pt, derivable_pt_id
                               | apply continuity_pt_const; intros a b; reflexivity]. }
  apply continuity_pt_plus; [apply continuity_pt_const; intros a b; reflexivity |].
  apply continuity_pt_mult; [exact Hid |].
  apply continuity_pt_plus; [apply continuity_pt_const; intros a b; reflexivity |].
  apply continuity_pt_mult; [apply continuity_pt_const; intros a b; reflexivity |].
  apply continuity_pt_comp.
  - apply continuity_pt_mult; [exact Hid | apply continuity_pt_const; intros a b; reflexivity].
  - apply continuity_pt_sqrt.
    unfold mult_fct, minus_fct, id, fct_cte. nra.
Qed.

Lemma constant_continuous (c x : R) : continuity_pt (fun _ => c) x.
Proof. apply continuity_pt_const. intros a b. reflexivity. Qed.

Lemma bid_continuous_away_from_0 (x : R) : x <> 0 -> continuity_pt calculate_bid_real x.
Proof.
  intro Hx.
  destruct (Rlt_le_dec x 0) as [Neg | Pos].
  - apply (continuity_pt_locally_ext (fun _ => 0) _ (- x)); [lra | | apply constant_continuous].
    intros y Hy. unfold Rdist in Hy. apply Rabs_def2 in Hy.
    symmetry. apply bid_nonpositive. lra.
  - destruct (Rlt_le_dec x 3000) as [Low | High].
    + apply (continuity_pt_locally_ext (fun _ => 300) _ (Rmin x (3000 - x)));
        [apply Rmin_pos; lra | | apply constant_continuous].
      intros y Hy. unfold Rdist in Hy. apply Rabs_def2 in Hy.
      pose proof (Rmin_l x (3000 - x)). pose proof (Rmin_r x (3000 - x)).
      symmetry. apply bid_floor; lra.
    + destruct (Req_dec x 3000) as [-> | NE].
      * pose proof (premium_branch_continuous 3000 ltac:(lra)) as Hc.
        unfold continuity_pt, continue_in, limit1_in, limit_in in *.
        intros eps Heps. destruct (Hc eps Heps) as [alp [Halp Hlim]].
        exists (Rmin alp 3000). split; [apply Rmin_pos; lra |].
        intros y [Dy Hy]. simpl in *. unfold Rdist in *.
        pose proof (Rmin_l alp 3000). pose proof (Rmin_r alp 3000).
        assert (Hy' := Hy). apply Rabs_def2 in Hy'.
        rewrite (bid_floor 3000) by lra.
        destruct (Rle_dec y 3000) as [L | L].
        -- rewrite (bid_floor y) by lra.
           replace (300 - 300) with 0 by lra. rewrite Rabs_R0. exact Heps.
        -- rewrite (bid_premium y) by lra.
           rewrite premium_branch_floor in Hlim. apply Hlim.
           split; [exact Dy | lra].
      * apply (continuity_pt_locally_ext premium_branch _ (x - 3000));
          [lra | | apply premium_branch_continuous; lra].
        intros y Hy. unfold Rdist in Hy. apply Rabs_def2 in Hy.
        symmetry. apply bid_premium. lra.
Qed.

(** The bid jumps at 0: it is not continuous there. *)
Lemma bid_jump_at_0 : ~ continuity_pt calculate_bid_real 0.
Proof.
  unfold continuity_pt, continue_in, limit1_in, limit_in.
  intro Hc. destruct (Hc 100 ltac:(lra)) as [alp [Halp Hlim]].
  simpl in *. unfold Rdist in *.
  set (y := Rmin (alp / 2) 1).
  assert (Hy : 0 < y) by (apply Rmin_pos; lra).
  assert (Hy1 : y <= alp / 2) by apply Rmin_l.
  assert (Hy2 : y <= 1) by apply Rmin_r.
  clearbody y. specialize (Hlim y).
  rewrite (bid_floor y), (bid_nonpositive 0) in Hlim by lra.
  assert (H' : Rabs (300 - 0) < 100).
  { apply Hlim. split; [split; [exact I | lra] |].
    rewrite Rabs_right; lra. }
  rewrite Rabs_right in H'; lra.
Qed.

(** C4, as the program has it.  On the reals the bid is monotone
    nondecreasing on its whole domain and continuous at every point other
    than 0, the boundary 3000 included.  At 0 it jumps: the bid of 0 is 0,
    and the bid of every value above 0 and up to 3000 is 300. *)
Theorem bid_monotone_continuous_off_0 :
  (forall x y, x <= y -> calculate_bid_real x <= calculate_bid_real y) /\
  (forall x, x <> 0 -> continuity_pt calculate_bid_real x) /\
  continuity_pt calculate_bid_real 3000 /\
  calculate_bid_real 0 = 0 /\
  (forall x, 0 < x -> x <= 3000 -> calculate_bid_real x = 300).
Proof.
  split; [exact bid_monotone |].
  split; [exact bid_continuous_away_from_0 |].
  split; [apply bid_continuous_away_from_0; lra |].
  split; [apply bid_nonpositive; lra | exact bid_floor].
Qed.

Lemma bid_monotone_continuous_off_0_witness :
  3000 <> 0 /\ continuity_pt calculate_bid_real 3000.
Proof.
  assert (H : 3000 <> 0) by lra.
  split; [exact H |].
  exact (proj1 (proj2 bid_monotone_continuous_off_0) 3000 H).
Defined.

End BidRealFacts.

(** ** The order of floats and [sorted] *)

Module Py64Facts.

Import Py64.
Local Open Scope float_scope.

Lemma SFcompare_same (x : spec_float) : x <> S754_nan -> SFcompare x x = Some Eq.
Proof.
  destruct x as [s | s | | s m e]; cbn [SFcompare]; intro H;
    try (destruct s; reflexivity); [contradiction |].
  rewrite Z.compare_refl, Pos.compare_cont_refl. destruct s; reflexivity.
Qed.

Lemma is_nan_spec (x : float) : is_nan x = false <-> Prim2SF x <> S754_nan.
Proof.
  unfold is_nan. rewrite eqb_spec. unfold SFeqb. split.
  - intros H E. rewrite E in H. discriminate.
  - intro H. rewrite SFcompare_same by exact H. reflexivity.
Qed.

Lemma SFcompare_defined (x y : spec_float) :
  x <> S754_nan -> y <> S754_nan -> exists c, SFcompare x y = Some c.
Proof.
  destruct x, y; cbn [SFcompare]; intros Hx Hy; try contradiction; eexists; reflexivity.
Qed.

(** Without a NaN two floats are always comparable. *)
Lemma leb_total (x y : float) :
  is_nan x = false -> is_nan y = false -> (x <=? y) = false -> (y <=? x) = true.
Proof.
  rewrite !is_nan_spec, !leb_spec. unfold SFleb. intros Hx Hy.
  destruct (SFcompare_defined _ _ Hx Hy) as [c Hc]. rewrite Hc.
  rewrite (BidFloatFacts.SFcompare_antisym _ _ _ Hc). destruct c; cbn [CompOpp]; congruence.
Qed.

Lemma insert_sorted_perm_64 (x : float) (l : list float) : Permutation (x :: l) (insert_sorted x l).
Proof.
  induction l as [| y r IH]; simpl; [apply Permutation_refl |].
  destruct (x <=? y); [apply Permutation_refl |].
  eapply perm_trans; [apply perm_swap |]. apply perm_skip, IH.
Qed.

Lemma py_sorted_perm_64 (l : list float) : Permutation l (py_sorted l).
Proof.
  induction l as [| x r IH]; simpl; [constructor |].
  eapply perm_trans; [apply perm_skip, IH | apply insert_sorted_perm_64].
Qed.

Lemma py_sorted_length_64 (l : list float) : List.length (py_sorted l) = List.length l.
Proof. symmetry. apply Permutation_length, py_sorted_perm_64. Qed.

Lemma insert_sorted_hd_64 (a x : float) (l : list float) :
  (a <=? x) = true -> HdRel (fun u v => (u <=? v) = true) a l ->
  HdRel (fun u v => (u <=? v) = true) a (insert_sorted x l).
Proof.
  intros Hax Hl. destruct l as [| y r]; simpl; [constructor; exact Hax |].
  destruct (x <=? y); constructor; [exact Hax |].
  inversion Hl; assumption.
Qed.

Lemma insert_sorted_sorted_64 (x : float) (l : list float) :
  is_nan x = false -> Forall (fun y => is_nan y = false) l ->
  Sorted (fun u v => (u <=? v) = true) l ->
  Sorted (fun u v => (u <=? v) = true) (insert_sorted x l).
Proof.
  intros Hx Hl Hs. induction Hs as [| y r Hs IH Hd]; simpl; [repeat constructor |].
  inversion Hl as [| ? ? Hy Hr]; subst.
  destruct (x <=? y) eqn:E.
  - repeat constructor; assumption.
  - constructor; [exact (IH Hr) |].
    apply insert_sorted_hd_64; [apply leb_total; assumption | exact Hd].
Qed.

(** On a list without NaN [sorted] returns the prices in ascending order. *)
Lemma py_sorted_sorted_64 (l : list float) :
  Forall (fun y => is_nan y = false) l ->
  Sorted (fun u v => (u <=? v) = true) (py_sorted l).
Proof.
  induction 1 as [| x r Hx Hr IH]; simpl; [constructor |].
  apply insert_sorted_sorted_64; [exact Hx | | exact IH].
  eapply Permutation_Forall; [apply py_sorted_perm_64 | exact Hr].
Qed.



End Py64Facts.

(** ** The analyzer on binary64 floats *)

Module Analyzer64Facts.

Import PyNum PyStr Analyzer Py64 Analyzer64 SpecWords64.
Import PercentileFacts Py64Facts.
Local Open Scope float_scope.

(** *** The cleaning steps *)

Lemma keyword_stage_app_64 (keywords : list string) (raw_titles : option (list string))
    (l1 l2 : list float) (i : nat) :
  keyword_stage keywords raw_titles i (l1 ++ l2) =
  (fst (keyword_stage keywords raw_titles i l1)
     ++ fst (keyword_stage keywords raw_titles (i + List.length l1) l2),
   snd (keyword_stage keywords raw_titles i l1)
     ++ snd (keyword_stage keywords raw_titles (i + List.length l1) l2)).
Proof.
  revert i. induction l1 as [| x r IH]; intro i.
  - simpl. rewrite Nat.add_0_r. destruct (keyword_stage _ _ _ l2); reflexivity.
  - cbn [app keyword_stage List.length].
    rewrite (IH (S i)). replace (i + S (List.length r))%nat with (S i + List.length r)%nat by lia.
    destruct (keyword_stage keywords raw_titles (S i) r) as [c1 r1].
    destruct (keyword_stage keywords raw_titles (S i + List.length r) l2) as [c2 r2].
    cbn [fst snd].
    destruct (is_suspicious keywords (title_at raw_titles i)); reflexivity.
Qed.

Lemma keyword_stage_length (keywords : list string) (raw_titles : option (list string))
    (i : nat) (raw_prices : list float) :
  (List.length (fst (keyword_stage keywords raw_titles i raw_prices))
   <= List.length raw_prices)%nat.
Proof.
  revert i. induction raw_prices as [| x r IH]; intro i; [simpl; lia |].
  cbn [keyword_stage]. specialize (IH (S i)).
  destruct (keyword_stage keywords raw_titles (S i) r) as [c1 r1]. cbn [fst] in *.
  destruct (is_suspicious _ _); cbn [fst List.length]; lia.
Qed.

Lemma filter_length_le {A : Type} (f : A -> bool) (l : list A) :
  (List.length (filter f l) <= List.length l)%nat.
Proof.
  induction l as [| a r IH]; simpl; [lia |]. destruct (f a); simpl; lia.
Qed.

Lemma minimum_stage_length (minimum_price : float) (cleaned_prices : list float) :
  (List.length (fst (minimum_stage minimum_price cleaned_prices))
   <= List.length cleaned_prices)%nat.
Proof.
  unfold minimum_stage. destruct (0 <? minimum_price); cbn [fst]; [apply filter_length_le | lia].
Qed.

(** What the IQR step does to a list of at least ten prices. *)
Lemma iqr_stage_runs_64 (cleaned_prices : list float) :
  let n := List.length cleaned_prices in
  (10 <= n)%nat ->
  exists q1 q3,
    nth_error (py_sorted cleaned_prices) (n / 4) = Some q1 /\
    nth_error (py_sorted cleaned_prices) (3 * n / 4) = Some q3 /\
    iqr_stage cleaned_prices =
      Some (filter (fun price => negb (strictly_outside (iqr_bounds q1 q3) price))
                   cleaned_prices,
            map StatisticalOutlier
                (filter (strictly_outside (iqr_bounds q1 q3)) cleaned_prices)).
Proof.
  intros n Hn. unfold iqr_stage. fold n.
  replace (10 <=? n)%nat with true by (symmetry; apply Nat.leb_le; exact Hn).
  rewrite py_sorted_length_64. fold n.
  destruct (FilterFacts.quartile_index n 1 ltac:(lia) ltac:(lia)) as [E1 L1].
  destruct (FilterFacts.quartile_index n 3 ltac:(lia) ltac:(lia)) as [E3 L3].
  change (Z.of_nat 1) with 1%Z in E1. rewrite Z.mul_1_l in E1.
  rewrite Nat.mul_1_l in E1, L1.
  change (Z.of_nat 3) with 3%Z in E3.
  rewrite E1, E3, !py_index_nonneg, !Nat2Z.id by lia.
  destruct (nth_error_in_range (py_sorted cleaned_prices) (n / 4)) as [q1 H1];
    [rewrite py_sorted_length_64; exact L1 |].
  destruct (nth_error_in_range (py_sorted cleaned_prices) (3 * n / 4)) as [q3 H3];
    [rewrite py_sorted_length_64; exact L3 |].
  exists q1, q3. rewrite H1, H3. repeat split.
Qed.

Lemma iqr_stage_skipped_64 (cleaned_prices : list float) :
  (List.length cleaned_prices < 10)%nat ->
  iqr_stage cleaned_prices = Some (cleaned_prices, []).
Proof.
  intro H. unfold iqr_stage.
  replace (10 <=? List.length cleaned_prices)%nat with false
    by (symmetry; apply Nat.leb_gt; exact H).
  reflexivity.
Qed.

Lemma iqr_stage_length (cleaned_prices kept : list float) (removed : list removal) :
  iqr_stage cleaned_prices = Some (kept, removed) ->
  (List.length kept <= List.length cleaned_prices)%nat.
Proof.
  destruct (Nat.lt_ge_cases (List.length cleaned_prices) 10) as [L | L].
  - rewrite (iqr_stage_skipped_64 _ L). intro H. injection H as <- _. lia.
  - destruct (iqr_stage_runs_64 _ L) as (q1 & q3 & _ & _ & ->).
    intro H. injection H as <- _. apply filter_length_le.
Qed.

(** [clean_prices] with its three steps named. *)
Lemma clean_prices_steps_64 (raw_prices : list float) (part_name : string)
    (raw_titles : option (list string)) (minimum_price : float) :
  let step1 := keyword_stage (keywords_for part_name) raw_titles 0 raw_prices in
  let step2 := minimum_stage minimum_price (fst step1) in
  clean_prices raw_prices part_name raw_titles minimum_price =
  match iqr_stage (fst step2) with
  | Some (cleaned_prices, removed3) =>
      Some (cleaned_prices, snd step1 ++ snd step2 ++ removed3)
  | None => None
  end.
Proof.
  cbv zeta. unfold clean_prices.
  destruct (keyword_stage _ _ _ _) as [c1 r1]. cbn [fst snd].
  destruct (minimum_stage _ _) as [c2 r2]. cbn [fst snd].
  destruct (iqr_stage c2) as [[c3 r3] |]; reflexivity.
Qed.

Lemma analyze_three_or_more_64 (raw_prices : list float) (part_name : string)
    (raw_titles : option (list string)) (minimum_price : float) :
  (3 <= List.length raw_prices)%nat ->
  _analyze_price_distribution raw_prices part_name raw_titles minimum_price
  = full_analysis raw_prices part_name raw_titles minimum_price.
Proof.
  intro H. unfold _analyze_price_distribution.
  destruct raw_prices as [| x r]; [simpl in H; lia |].
  replace (List.length (x :: r) <? 3)%nat with false
    by (symmetry; apply Nat.ltb_ge; exact H).
  reflexivity.
Qed.

(** The estimate of the full path is a function of the cleaned prices and
    of the number of raw prices. *)
Lemma full_analysis_estimate (raw_prices raw_prices' : list float) (part_name : string)
    (raw_titles : option (list string)) (minimum_price : float)
    (cleaned : list float) (removed removed' : list removal) :
  List.length raw_prices = List.length raw_prices' ->
  clean_prices raw_prices part_name raw_titles minimum_price = Some (cleaned, removed) ->
  clean_prices raw_prices' part_name raw_titles minimum_price = Some (cleaned, removed') ->
  option_map estimate (full_analysis raw_prices part_name raw_titles minimum_price)
  = option_map estimate (full_analysis raw_prices' part_name raw_titles minimum_price).
Proof.
  intros Hlen H H'. unfold full_analysis. rewrite H, H', Hlen.
  destruct cleaned as [| c0 cs]; [reflexivity |].
  destruct (rounded_tiers _) as [[[[p1 p2] p3] tiers] |]; [| reflexivity].
  destruct (separate_tiers _ _) as [[[l a] h] |]; [| reflexivity].
  destruct (py_max _); [| reflexivity]. destruct (py_min _); reflexivity.
Qed.

(** The counts of the full path. *)
Lemma full_analysis_counts (raw_prices : list float) (part_name : string)
    (raw_titles : option (list string)) (minimum_price : float)
    (cleaned : list float) (removed : list removal) (r : price_analysis) :
  clean_prices raw_prices part_name raw_titles minimum_price = Some (cleaned, removed) ->
  full_analysis raw_prices part_name raw_titles minimum_price = Some r ->
  cleaned_count r = Z.of_nat (List.length cleaned) /\
  items_removed r = (Z.of_nat (List.length raw_prices) - Z.of_nat (List.length cleaned))%Z.
Proof.
  intros H. unfold full_analysis. rewrite H.
  destruct cleaned as [| c0 cs].
  - intro E. injection E as <-. cbn [cleaned_count items_removed List.length]. lia.
  - destruct (rounded_tiers _) as [[[[p1 p2] p3] tiers] |]; [| discriminate].
    destruct (separate_tiers _ _) as [[[l a] h] |]; [| discriminate].
    destruct (py_max _); [| discriminate]. destruct (py_min _); [| discriminate].
    intro E. injection E as <-. cbn [cleaned_count items_removed]. split; reflexivity.
Qed.

(** *** The IQR step *)

(** C7, as the program computes it.  Let [remaining] be the prices left by
    the keyword and minimum-price steps.  With fewer than 10 of them the IQR
    step removes nothing; with 10 or more it reads Q1 and Q3 at positions
    [n / 4] and [3 n / 4] of the sorted list (no interpolation) and removes
    exactly the prices strictly outside the interval whose two ends are the
    floats [Q1 - 1.5 * IQR] and [Q3 + 1.5 * IQR] evaluate to.  A 9-item list
    with an extreme price is left alone; the same list with a tenth price
    loses the extreme one. *)
Theorem iqr_rejection (raw_prices : list float) (part_name : string)
    (raw_titles : option (list string)) (minimum_price : float) :
  let step1 := keyword_stage (keywords_for part_name) raw_titles 0 raw_prices in
  let step2 := minimum_stage minimum_price (fst step1) in
  let remaining := fst step2 in
  let n := List.length remaining in
  Permutation remaining (py_sorted remaining) /\
  (Forall (fun price => is_nan price = false) remaining ->
   Sorted (fun u v => (u <=? v) = true) (py_sorted remaining)) /\
  ((n < 10)%nat ->
     clean_prices raw_prices part_name raw_titles minimum_price
     = Some (remaining, snd step1 ++ snd step2 ++ [])) /\
  ((10 <= n)%nat ->
     exists q1 q3,
       nth_error (py_sorted remaining) (n / 4) = Some q1 /\
       nth_error (py_sorted remaining) (3 * n / 4) = Some q3 /\
       clean_prices raw_prices part_name raw_titles minimum_price
       = Some (filter (fun price => negb (strictly_outside (iqr_bounds q1 q3) price))
                      remaining,
               snd step1 ++ snd step2 ++
               map StatisticalOutlier
                 (filter (strictly_outside (iqr_bounds q1 q3)) remaining))) /\
  iqr_stage [10; 11; 12; 13; 14; 15; 16; 17; 1000]
    = Some ([10; 11; 12; 13; 14; 15; 16; 17; 1000], []) /\
  iqr_stage [10; 11; 12; 13; 14; 15; 16; 17; 18; 1000]
    = Some ([10; 11; 12; 13; 14; 15; 16; 17; 18], [StatisticalOutlier 1000]).
Proof.
  cbv zeta.
  split; [apply py_sorted_perm_64 |].
  split; [apply py_sorted_sorted_64 |].
  split; [| split; [| split; vm_compute; reflexivity]]; intro Hn; rewrite clean_prices_steps_64.
  - rewrite iqr_stage_skipped_64 by exact Hn. reflexivity.
  - destruct (iqr_stage_runs_64 _ Hn) as (q1 & q3 & H1 & H3 & ->).
    exists q1, q3. repeat split; assumption.
Qed.

Lemma iqr_rejection_witness :
  exists q1 q3,
    nth_error (py_sorted [10; 11; 12; 13; 14; 15; 16; 17; 18; 1000]) 2 = Some q1 /\
    nth_error (py_sorted [10; 11; 12; 13; 14; 15; 16; 17; 18; 1000]) 7 = Some q3 /\
    clean_prices [10; 11; 12; 13; 14; 15; 16; 17; 18; 1000] "engine" None 0
    = Some (filter (fun price => negb (strictly_outside (iqr_bounds q1 q3) price))
                   [10; 11; 12; 13; 14; 15; 16; 17; 18; 1000],
            map StatisticalOutlier
              (filter (strictly_outside (iqr_bounds q1 q3))
                      [10; 11; 12; 13; 14; 15; 16; 17; 18; 1000])).
Proof.
  assert (H : (10 <= List.length [10; 11; 12; 13; 14; 15; 16; 17; 18; 1000])%nat)
    by (simpl; lia).
  exact (proj1 (proj2 (proj2 (proj2
           (iqr_rejection [10; 11; 12; 13; 14; 15; 16; 17; 18; 1000] "engine" None 0)))) H).
Defined.

(** On 32, 32, 32, 32, 32, 32.4, 32.4, 32.4, 32.4, 33 the quartiles are
    32 and the float 32.4; the price 33 lies strictly above
    [Q3 + 1.5 * IQR] taken exactly on these floats, and the step keeps it,
    because the float that expression evaluates to is 33.  On 31, 31, 31,
    31, 31, 31.4, 31.4, 31.4, 31.4, 32 it is the other way round: with the
    prices as the decimals they are written as, 32 is the upper end
    [31.4 + 1.5 * 0.4] itself, not strictly outside, and the step removes
    it, because the float is below 32. *)
Lemma price_outside_exact_bounds_kept :
  (exists kept removed q1 q3,
     iqr_stage [32; 32; 32; 32; 32; 32.4; 32.4; 32.4; 32.4; 33] = Some (kept, removed) /\
     In 33 kept /\
     value 32 = Some q1 /\ value 32.4 = Some q3 /\
     SpecWords.within (SpecWords.iqr_bounds q1 q3) 33 = false) /\
  (exists kept,
     iqr_stage [31; 31; 31; 31; 31; 31.4; 31.4; 31.4; 31.4; 32]
       = Some (kept, [StatisticalOutlier 32]) /\
     SpecWords.within (SpecWords.iqr_bounds 31 31.4) 32 = true).
Proof.
  split.
  - do 4 eexists. split; [vm_compute; reflexivity |].
    split; [do 9 right; left; reflexivity |].
    split; [vm_compute; reflexivity |]. split; [vm_compute; reflexivity |].
    vm_compute. reflexivity.
  - eexists. split; vm_compute; reflexivity.
Qed.


(** *** The percentile routine *)







(** *** The keyword step *)

Lemma suspicious_dropped (part_name : string) (raw_titles : list string)
    (before after : list float) (price : float) (title keyword : string) :
  lower part_name = "engine"%string ->
  In keyword (keywords_for "engine") ->
  contains keyword (lower title) = true ->
  nth_error raw_titles (List.length before) = Some title ->
  let stage := keyword_stage (keywords_for part_name) (Some raw_titles) in
  stage 0%nat (before ++ price :: after)
  = (fst (stage 0%nat before) ++ fst (stage (S (List.length before)) after),
     snd (stage 0%nat before)
       ++ Miscategorized price :: snd (stage (S (List.length before)) after)).
Proof.
  intros Hpart Hkw Hin Htitle. cbv zeta.
  assert (Hk : keywords_for part_name = keywords_for "engine").
  { unfold keywords_for. rewrite Hpart. reflexivity. }
  rewrite keyword_stage_app_64. cbn [Nat.add keyword_stage].
  destruct (keyword_stage (keywords_for part_name) (Some raw_titles)
              (S (List.length before)) after) as [c2 r2].
  replace (is_suspicious (keywords_for part_name)
             (title_at (Some raw_titles) (List.length before))) with true; [reflexivity |].
  symmetry. unfold title_at. rewrite Htitle, Hk.
  apply existsb_exists. exists keyword. split; assumption.
Qed.

(** C8, as the program has it.  For the part name "engine" in any letter
    case, among 3 or more raw listings, a listing whose title contains,
    case-insensitively, one of the keywords configured for "engine" is
    dropped by the keyword step and recorded as miscategorized, whatever its
    price and whatever [minimum_price]: the analyzer counts it as removed,
    never among the cleaned prices, and the estimate it returns (the three
    tiers and the two counts) is the same for every price of that listing.
    "Engine Oil Filter Cap" is such a title, through the keyword "oil
    filter". *)
Theorem suspicious_engine_listing_removed (part_name : string)
    (raw_titles : list string) (before after : list float)
    (price price' minimum_price : float) (title keyword : string) :
  lower part_name = "engine"%string ->
  In keyword (keywords_for "engine") ->
  contains keyword (lower title) = true ->
  nth_error raw_titles (List.length before) = Some title ->
  (3 <= List.length (before ++ price :: after))%nat ->
  let stage := keyword_stage (keywords_for part_name) (Some raw_titles) in
  let analyze := fun raw_prices =>
    _analyze_price_distribution raw_prices part_name (Some raw_titles) minimum_price in
  stage 0%nat (before ++ price :: after)
    = (fst (stage 0%nat before) ++ fst (stage (S (List.length before)) after),
       snd (stage 0%nat before)
         ++ Miscategorized price :: snd (stage (S (List.length before)) after)) /\
  (forall r, analyze (before ++ price :: after) = Some r ->
     (1 <= items_removed r)%Z /\
     (cleaned_count r <= Z.of_nat (List.length before + List.length after))%Z) /\
  option_map estimate (analyze (before ++ price :: after))
    = option_map estimate (analyze (before ++ price' :: after)) /\
  In "oil filter"%string (keywords_for "engine") /\
  contains "oil filter" (lower "Engine Oil Filter Cap") = true.
Proof.
  intros Hpart Hkw Hin Htitle Hn. cbv zeta.
  pose proof (suspicious_dropped part_name raw_titles before after price title keyword
                Hpart Hkw Hin Htitle) as E.
  pose proof (suspicious_dropped part_name raw_titles before after price' title keyword
                Hpart Hkw Hin Htitle) as E'.
  cbv zeta in E, E'.
  assert (Hn' : (3 <= List.length (before ++ price' :: after))%nat)
    by (rewrite length_app in *; cbn [List.length] in *; lia).
  split; [exact E |].
  rewrite !analyze_three_or_more_64 by assumption.
  pose proof (clean_prices_steps_64 (before ++ price :: after) part_name (Some raw_titles)
                minimum_price) as C.
  pose proof (clean_prices_steps_64 (before ++ price' :: after) part_name (Some raw_titles)
                minimum_price) as C'.
  cbv zeta in C, C'. rewrite E in C. rewrite E' in C'. cbn [fst snd] in C, C'.
  set (survivors := fst (keyword_stage (keywords_for part_name) (Some raw_titles) 0 before)
                    ++ fst (keyword_stage (keywords_for part_name) (Some raw_titles)
                              (S (List.length before)) after)) in *.
  assert (Hsurv : (List.length survivors <= List.length before + List.length after)%nat).
  { unfold survivors. rewrite length_app.
    pose proof (keyword_stage_length (keywords_for part_name) (Some raw_titles) 0 before).
    pose proof (keyword_stage_length (keywords_for part_name) (Some raw_titles)
                  (S (List.length before)) after).
    lia. }
  pose proof (minimum_stage_length minimum_price survivors) as Hmin.
  assert (Hex : In "oil filter"%string (keywords_for "engine") /\
                contains "oil filter" (lower "Engine Oil Filter Cap") = true)
    by (split; [simpl; tauto | reflexivity]).
  destruct (iqr_stage (fst (minimum_stage minimum_price survivors)))
    as [[cleaned removed3] |] eqn:Eiqr.
  - pose proof (iqr_stage_length _ _ _ Eiqr) as Hiqr.
    split; [| split; [| exact Hex]].
    + intros r Hr.
      destruct (full_analysis_counts _ _ _ _ _ _ r C Hr) as [-> ->].
      rewrite length_app. cbn [List.length]. lia.
    + eapply full_analysis_estimate; [| exact C | exact C'].
      rewrite !length_app. reflexivity.
  - split; [| split; [| exact Hex]].
    + intros r Hr. unfold full_analysis in Hr. rewrite C in Hr. discriminate.
    + unfold full_analysis. rewrite C, C'. reflexivity.
Qed.

Lemma suspicious_engine_listing_removed_witness :
  option_map estimate
    (_analyze_price_distribution ([100] ++ 5000 :: [110]) "ENGINE"
       (Some ["Engine"; "Engine Oil Filter Cap"; "Engine"]%string) 4000)
  = option_map estimate
      (_analyze_price_distribution ([100] ++ 1 :: [110]) "ENGINE"
         (Some ["Engine"; "Engine Oil Filter Cap"; "Engine"]%string) 4000).
Proof.
  refine (proj1 (proj2 (proj2
            (suspicious_engine_listing_removed "ENGINE"
               ["Engine"; "Engine Oil Filter Cap"; "Engine"]%string
               [100] [110] 5000 1 4000 "Engine Oil Filter Cap" "oil filter" _ _ _ _ _)))).
  - reflexivity.
  - simpl. tauto.
  - reflexivity.
  - reflexivity.
  - simpl. lia.
Defined.

(** Of two listings for "engine" the one titled "Engine Oil Filter Cap" is
    not removed: nothing is, and its price enters the mean. *)
Lemma suspicious_listing_kept_among_two :
  contains "oil filter" (lower "Engine Oil Filter Cap") = true /\
  _analyze_price_distribution [5000; 100] "engine"
    (Some ["Engine Oil Filter Cap"; "Engine"]%string) 0
  = Some (mk_price_analysis (PyFloat 2550) (PyFloat 2550) (PyFloat 2550) 0 2 None).
Proof. split; [reflexivity | vm_compute; reflexivity]. Qed.

(** *** The two early returns and the boundary at three listings *)

(** Adding a price to the float 0 and dividing a price by the float 1 are
    exact. *)
Lemma zero_plus_price (x : float) : is_price x = true -> 0 + x = x.
Proof.
  intro H. apply Prim2SF_inj. rewrite add_spec. unfold is_price in H.
  change (Prim2SF 0) with (S754_zero false).
  destruct (Prim2SF x) as [s | s | | s m e]; try discriminate;
    destruct s; try discriminate; reflexivity.
Qed.

(** Rounding a canonical mantissa, possibly written with one more bit,
    gives it back. *)
Lemma round_canonical (s : bool) (m : positive) (e : Z) :
  bounded prec emax m e = true ->
  binary_round_aux prec emax s (Zpos m) e loc_Exact = S754_finite s m e /\
  binary_round_aux prec emax s (Zpos m~0) (e - 1) loc_Exact = S754_finite s m e.
Proof.
  unfold bounded, canonical_mantissa. intro H. apply andb_true_iff in H.
  destruct H as [Hc He]. apply Z.eqb_eq in Hc.
  assert (S0 : shr_fexp prec emax (Zpos m) e loc_Exact
               = ({| shr_m := Zpos m; shr_r := false; shr_s := false |}, e)).
  { unfold shr_fexp. cbn [Zdigits2 shr_record_of_loc]. rewrite Hc, Z.sub_diag. reflexivity. }
  assert (S1 : shr_fexp prec emax (Zpos m~0) (e - 1) loc_Exact
               = ({| shr_m := Zpos m; shr_r := false; shr_s := false |}, e)).
  { unfold shr_fexp. cbn [Zdigits2 digits2_pos shr_record_of_loc].
    replace (Zpos (Pos.succ (digits2_pos m)) + (e - 1))%Z with (Zpos (digits2_pos m) + e)%Z by lia.
    rewrite Hc. replace (e - (e - 1))%Z with 1%Z by lia.
    cbn [shr iter_pos shr_1 orb]. f_equal. lia. }
  unfold binary_round_aux. rewrite S0, S1.
  cbn [shr_m loc_of_shr_record round_nearest_even]. rewrite S0. cbn [shr_m].
  rewrite He. split; reflexivity.
Qed.

Lemma div_eucl_exact (q b : Z) : (0 < b)%Z -> Z.div_eucl (q * b) b = (q, 0%Z).
Proof.
  intro Hb. pose proof (Z_div_mod (q * b) b ltac:(lia)) as H.
  destruct (Z.div_eucl (q * b) b) as [q' r']. destruct H as [Heq Hr].
  assert (q' = q) by nia. subst q'. f_equal. lia.
Qed.

Lemma price_over_one (x : float) : is_price x = true -> x / 1 = x.
Proof.
  intro H. apply Prim2SF_inj. rewrite div_spec. unfold is_price in H.
  pose proof (Prim2SF_valid x) as V.
  change (Prim2SF 1) with (S754_finite false 4503599627370496 (-52)).
  destruct (Prim2SF x) as [s | s | | s m e]; try discriminate;
    destruct s; try discriminate; [reflexivity |].
  cbn [valid_binary] in V.
  destruct (round_canonical false m e V) as [R0 R1].
  unfold SF64div, SFdiv, SFdiv_core_binary.
  change (Zdigits2 4503599627370496) with 53%Z. cbn [Zdigits2 xorb].
  unfold bounded, canonical_mantissa in V. apply andb_true_iff in V.
  destruct V as [Hc He]. apply Z.eqb_eq in Hc. unfold fexp in Hc |- *.
  change (SpecFloat.emin prec emax) with (-1074)%Z in *. change prec with 53%Z in *.
  set (d := Zpos (digits2_pos m)) in *.
  set (e' := Z.min (Z.max (d + e - (53 + -52) - 53) (-1074)) (e - -52)).
  assert (Hd : (0 < d)%Z) by (unfold d; lia).
  assert (Hcase : e' = (e - 1)%Z \/ e' = e) by (unfold e'; lia).
  destruct Hcase as [-> | ->].
  - replace (e - -52 - (e - 1))%Z with 53%Z by lia.
    rewrite Z.shiftl_mul_pow2 by lia.
    replace (Zpos m * 2 ^ 53)%Z with (Zpos m~0 * 4503599627370496)%Z
      by (change (2 ^ 53)%Z with 9007199254740992%Z; lia).
    rewrite div_eucl_exact by lia. exact R1.
  - replace (e - -52 - e)%Z with 52%Z by lia.
    rewrite Z.shiftl_mul_pow2 by lia.
    change (2 ^ 52)%Z with 4503599627370496%Z.
    rewrite div_eucl_exact by lia. exact R0.
Qed.

(** C2, as the program computes it.  On no listing the analyzer returns
    three tiers 0 with both counts 0.  On one or two listings it removes
    nothing, counts every price and returns three times the float
    [sum(raw_prices) / len(raw_prices)]: for one price, that price; for two,
    the float [(a + b) / 2].  On exactly three listings it runs the full
    pipeline: the counts are those of the keyword and minimum-price steps
    (the IQR step is skipped below 10 prices) and the tiers are rounded
    percentiles of the sorted survivors, as on 110, 100, 105, on 5, 110, 100
    with a minimum price of 10, and on a suspicious title; the same two
    cheap prices alone go through unfiltered. *)
Theorem degenerate_paths_and_boundary (part_name : string)
    (raw_titles : option (list string)) (minimum_price : float) :
  let analyze := fun raw_prices =>
    _analyze_price_distribution raw_prices part_name raw_titles minimum_price in
  analyze [] = Some (mk_price_analysis (PyInt 0) (PyInt 0) (PyInt 0) 0 0 None) /\
  (forall a,
     analyze [a] = Some (mk_price_analysis (PyFloat ((0 + a) / 1)) (PyFloat ((0 + a) / 1))
                           (PyFloat ((0 + a) / 1)) 0 1 None) /\
     (is_price a = true -> (0 + a) / 1 = a)) /\
  (forall a b,
     analyze [a; b] = Some (mk_price_analysis (PyFloat ((0 + a + b) / 2))
                              (PyFloat ((0 + a + b) / 2)) (PyFloat ((0 + a + b) / 2))
                              0 2 None) /\
     (is_price a = true -> (0 + a + b) / 2 = (a + b) / 2)) /\
  (forall a b c,
     analyze [a; b; c] = full_analysis [a; b; c] part_name raw_titles minimum_price /\
     forall r, analyze [a; b; c] = Some r ->
       let survivors :=
         fst (minimum_stage minimum_price
                (fst (keyword_stage (keywords_for part_name) raw_titles 0 [a; b; c]))) in
       cleaned_count r = Z.of_nat (List.length survivors) /\
       items_removed r = (3 - Z.of_nat (List.length survivors))%Z) /\
  option_map estimate (_analyze_price_distribution [110; 100; 105] "engine" None 0)
    = Some (PyInt 100, PyInt 100, PyInt 105, 0%Z, 3%Z) /\
  option_map estimate (_analyze_price_distribution [5; 110; 100] "engine" None 10)
    = Some (PyInt 100, PyInt 100, PyInt 105, 1%Z, 2%Z) /\
  option_map estimate
    (_analyze_price_distribution [100; 5000; 110] "engine"
       (Some ["Engine"; "Engine Oil Filter Cap"; "Engine"]%string) 0)
    = Some (PyInt 100, PyInt 100, PyInt 105, 1%Z, 2%Z) /\
  option_map estimate (_analyze_price_distribution [5; 110] "engine" None 10)
    = Some (PyFloat 57.5, PyFloat 57.5, PyFloat 57.5, 0%Z, 2%Z).
Proof.
  cbv zeta. split; [reflexivity |].
  split; [intro a; split; [reflexivity | intro H; rewrite (zero_plus_price a H); apply price_over_one, H] |].
  split; [intros a b; split; [reflexivity | intro H; rewrite (zero_plus_price a H); reflexivity] |].
  split.
  { intros a b c. split; [apply analyze_three_or_more_64; simpl; lia |].
    intros r Hr. rewrite analyze_three_or_more_64 in Hr by (simpl; lia).
    pose proof (clean_prices_steps_64 [a; b; c] part_name raw_titles minimum_price) as C.
    cbv zeta in C.
    pose proof (keyword_stage_length (keywords_for part_name) raw_titles 0 [a; b; c]) as L1.
    pose proof (minimum_stage_length minimum_price
                  (fst (keyword_stage (keywords_for part_name) raw_titles 0 [a; b; c]))) as L2.
    cbn [List.length] in L1.
    rewrite iqr_stage_skipped_64 in C by lia.
    destruct (full_analysis_counts _ _ _ _ _ _ r C Hr) as [-> ->].
    cbn [List.length]. split; [reflexivity | lia]. }
  repeat split; vm_compute; reflexivity.
Qed.

(** The float mean of the two prices 0.1 and 0.2 is not their arithmetic
    mean: the three tiers are the float 0.15000000000000002, which is
    neither the exact mean of the two floats nor the float 0.15. *)
Lemma mean_of_two_is_rounded :
  exists t a b v,
    _analyze_price_distribution [0.1; 0.2] "engine" None 0
    = Some (mk_price_analysis (PyFloat t) (PyFloat t) (PyFloat t) 0 2 None) /\
    value 0.1 = Some a /\ value 0.2 = Some b /\ value t = Some v /\
    ~ (v == SpecWords.mean [a; b])%Q /\
    (0.15 <? t) = true.
Proof.
  do 4 eexists. split; [vm_compute; reflexivity |].
  split; [vm_compute; reflexivity |]. split; [vm_compute; reflexivity |].
  split; [vm_compute; reflexivity |].
  split; [vm_compute; discriminate | vm_compute; reflexivity].
Qed.

(** *** The tiers after the forced separation *)









(** The interpolation in floating point can put the rounded percentiles out
    of order: on 6.5, 6.5, 6.5 the 5th percentile is the float
    6.500000000000001, which rounds to 7, while the 25th and the 50th are
    6.5, which rounds to 6. *)
Lemma interpolation_error_reverses_tiers :
  option_map estimate (_analyze_price_distribution [6.5; 6.5; 6.5] "engine" None 0)
  = Some (PyInt 7, PyInt 6, PyInt 6, 0%Z, 3%Z).
Proof. vm_compute. reflexivity. Qed.

(** The clamp of the forced separation, [max(budget_tier - step,
    min(sorted_prices))], can lift [low] above [average]: on 204, 204, 215
    the three tiers round to 200, the range is 11, and [low] becomes the
    price 204. *)
Lemma clamp_lifts_low_above_average :
  option_map estimate (_analyze_price_distribution [204; 204; 215] "engine" None 0)
  = Some (PyFloat 204, PyInt 200, PyInt 205, 0%Z, 3%Z).
Proof. vm_compute. reflexivity. Qed.

(** *** The minimum price *)

Lemma keyword_stage_removals (keywords : list string) (raw_titles : option (list string))
    (i : nat) (raw_prices : list float) (x : removal) :
  In x (snd (keyword_stage keywords raw_titles i raw_prices)) ->
  exists price, x = Miscategorized price.
Proof.
  revert i. induction raw_prices as [| y r IH]; intro i; [contradiction |].
  cbn [keyword_stage]. specialize (IH (S i)).
  destruct (keyword_stage keywords raw_titles (S i) r) as [c1 r1]. cbn [snd] in IH.
  destruct (is_suspicious _ _); cbn [snd]; [| exact IH].
  intros [<- | H]; [eexists; reflexivity | exact (IH H)].
Qed.

Lemma iqr_stage_result (cleaned_prices kept : list float) (removed : list removal) :
  iqr_stage cleaned_prices = Some (kept, removed) ->
  (forall price, In price kept -> In price cleaned_prices) /\
  (forall x, In x removed -> exists price, x = StatisticalOutlier price).
Proof.
  destruct (Nat.lt_ge_cases (List.length cleaned_prices) 10) as [L | L].
  - rewrite (iqr_stage_skipped_64 _ L). intro H. injection H as <- <-.
    split; [auto | contradiction].
  - destruct (iqr_stage_runs_64 _ L) as (q1 & q3 & _ & _ & ->).
    intro H. injection H as <- <-. split.
    + intros price Hin. apply filter_In in Hin. apply Hin.
    + intros x Hin. apply in_map_iff in Hin. destruct Hin as (price & <- & _).
      eexists. reflexivity.
Qed.

(** X3.  With a positive [minimum_price] every price that survives the
    three cleaning steps is at least [minimum_price], and the prices
    recorded as below the minimum are prices that are not. *)
Theorem minimum_price_is_a_floor (raw_prices : list float) (part_name : string)
    (raw_titles : option (list string)) (minimum_price : float)
    (cleaned : list float) (removed : list removal) :
  (0 <? minimum_price) = true ->
  clean_prices raw_prices part_name raw_titles minimum_price = Some (cleaned, removed) ->
  Forall (fun price => (minimum_price <=? price) = true) cleaned /\
  (forall price minimum,
     In (BelowMinimum price minimum) removed ->
     minimum = minimum_price /\ (minimum_price <=? price) = false).
Proof.
  intros Hpos Hclean. rewrite clean_prices_steps_64 in Hclean. cbv zeta in Hclean.
  set (step1 := keyword_stage (keywords_for part_name) raw_titles 0 raw_prices) in *.
  unfold minimum_stage in Hclean. rewrite Hpos in Hclean. cbn [fst snd] in Hclean.
  destruct (iqr_stage _) as [[kept removed3] |] eqn:Eiqr; [| discriminate].
  injection Hclean as <- <-.
  destruct (iqr_stage_result _ _ _ Eiqr) as [Hkept Hout].
  split.
  - apply Forall_forall. intros price Hin. apply Hkept, filter_In in Hin. apply Hin.
  - intros price minimum Hin. rewrite !in_app_iff in Hin.
    destruct Hin as [Hin | [Hin | Hin]].
    + apply keyword_stage_removals in Hin. destruct Hin as [q Hq]. discriminate.
    + apply in_map_iff in Hin. destruct Hin as (q & E & Hq). injection E as -> ->.
      split; [reflexivity |]. apply filter_In in Hq. apply negb_true_iff, Hq.
    + apply Hout in Hin. destruct Hin as [q Hq]. discriminate.
Qed.

Lemma minimum_price_is_a_floor_witness :
  Forall (fun price => (10 <=? price) = true) [110; 100].
Proof.
  refine (proj1 (minimum_price_is_a_floor [5; 110; 100] "engine" None 10
                   [110; 100] [BelowMinimum 5 10] _ _)).
  - reflexivity.
  - vm_compute. reflexivity.
Defined.

End Analyzer64Facts.

(** ** More on the statistical analyzer: counts, floors and ranges *)

Module AnalyzerMore.

Import PyNum PyStr SpecWords Analyzer.
Import PyNumFacts RoundingFacts PercentileFacts FilterFacts AnalyzerFacts Lqa.
Local Open Scope Q_scope.

(** *** Every step either keeps a price or records its removal *)

Lemma keyword_stage_account (keywords : list string) (raw_titles : option (list string))
    (raw_prices : list Q) (i : nat) :
  (List.length (fst (keyword_stage keywords raw_titles i raw_prices))
   + List.length (snd (keyword_stage keywords raw_titles i raw_prices))
   = List.length raw_prices)%nat /\
  (forall x, In x (fst (keyword_stage keywords raw_titles i raw_prices)) -> In x raw_prices).
Proof.
  revert i. induction raw_prices as [| price rest IH]; intro i; [simpl; tauto |].
  cbn [keyword_stage]. destruct (IH (S i)) as [Hlen Hin].
  destruct (keyword_stage keywords raw_titles (S i) rest) as [cleaned removed].
  cbn [fst snd] in *.
  destruct (is_suspicious keywords (title_at raw_titles i)); cbn [fst snd List.length].
  - split; [lia | intros x Hx; right; apply Hin, Hx].
  - split; [lia | intros x [<- | Hx]; [left; reflexivity | right; apply Hin, Hx]].
Qed.

Lemma minimum_stage_account (minimum_price : Q) (prices : list Q) :
  (List.length (fst (minimum_stage minimum_price prices))
   + List.length (snd (minimum_stage minimum_price prices))
   = List.length prices)%nat /\
  (forall x, In x (fst (minimum_stage minimum_price prices)) ->
     In x prices /\ (0 < minimum_price -> minimum_price <= x)).
Proof.
  unfold minimum_stage.
  destruct (Qltb 0 minimum_price) eqn:E; cbn [fst snd].
  - split.
    + rewrite length_map. apply filter_length.
    + intros x Hx. apply filter_In in Hx. destruct Hx as [Hin Hle].
      split; [exact Hin | intros _; apply Qle_bool_iff, Hle].
  - apply Qltb_ge in E. split; [simpl; lia |].
    intros x Hx. split; [exact Hx | intro H; lra].
Qed.

Lemma iqr_stage_account (prices kept : list Q) (removed : list removal) :
  iqr_stage prices = Some (kept, removed) ->
  (List.length kept + List.length removed = List.length prices)%nat /\
  (forall x, In x kept -> In x prices).
Proof.
  intro H.
  destruct (Nat.lt_ge_cases (List.length prices) 10) as [L | L].
  - rewrite (iqr_stage_skipped _ L) in H. injection H as <- <-.
    split; [simpl; lia | tauto].
  - destruct (iqr_stage_runs _ L) as (q1 & q3 & _ & _ & E).
    rewrite E in H. injection H as <- <-.
    split; [rewrite length_map; apply filter_length |].
    intros x Hx. apply filter_In in Hx. tauto.
Qed.

Lemma clean_prices_account (raw_prices : list Q) (part_name : string)
    (raw_titles : option (list string)) (minimum_price : Q)
    (cleaned : list Q) (removed : list removal) :
  clean_prices raw_prices part_name raw_titles minimum_price = Some (cleaned, removed) ->
  (List.length cleaned + List.length removed = List.length raw_prices)%nat /\
  (forall x, In x cleaned ->
     In x raw_prices /\ (0 < minimum_price -> minimum_price <= x)).
Proof.
  rewrite clean_prices_steps.
  set (step1 := keyword_stage (keywords_for part_name) raw_titles 0 raw_prices).
  set (step2 := minimum_stage minimum_price (fst step1)).
  destruct (iqr_stage (fst step2)) as [[kept removed3] |] eqn:E3; [| discriminate].
  intro H. injection H as <- <-.
  destruct (keyword_stage_account (keywords_for part_name) raw_titles raw_prices 0)
    as [L1 I1]. fold step1 in L1, I1.
  destruct (minimum_stage_account minimum_price (fst step1)) as [L2 I2]. fold step2 in L2, I2.
  destruct (iqr_stage_account _ _ _ E3) as [L3 I3].
  split; [rewrite !length_app; lia |].
  intros x Hx. destruct (I2 x (I3 x Hx)) as [Hin Hmin].
  split; [apply I1, Hin | exact Hmin].
Qed.

(** The dict [full_analysis] returns when some price survives the
    cleaning. *)
Lemma full_analysis_shape (raw_prices : list Q) (part_name : string)
    (raw_titles : option (list string)) (minimum_price : Q)
    (cleaned : list Q) (removed : list removal) :
  clean_prices raw_prices part_name raw_titles minimum_price = Some (cleaned, removed) ->
  cleaned <> [] ->
  exists r p1 p2 p3 tiers hi lo,
    full_analysis raw_prices part_name raw_titles minimum_price = Some r /\
    rounded_tiers (py_sorted cleaned) = Some ((p1, p2, p3), tiers) /\
    separate_tiers (py_sorted cleaned) tiers = Some (low r, average r, high r) /\
    py_max cleaned = Some hi /\ py_min cleaned = Some lo /\
    items_removed r = (Z.of_nat (List.length raw_prices) - Z.of_nat (List.length cleaned))%Z /\
    cleaned_count r = Z.of_nat (List.length cleaned) /\
    extra r = Some (mk_details p1 p2 p3 (firstn 3 removed) (hi - lo) minimum_price).
Proof.
  intros Hclean Hne.
  assert (Hsne : py_sorted cleaned <> []).
  { intro E. apply (f_equal (@List.length Q)) in E.
    rewrite py_sorted_length in E. destruct cleaned; [contradiction | discriminate]. }
  destruct (rounded_tiers_ordered _ (py_sorted_sorted cleaned) Hsne)
    as (raw & b & s & p & Hrt & _).
  destruct (separate_tiers_total (py_sorted cleaned) (b, s, p) Hsne) as [[[l a] h] Hsep].
  destruct (py_max_total _ Hne) as [hi Hhi].
  destruct (py_min_total _ Hne) as [lo Hlo].
  destruct raw as [[p1 p2] p3].
  unfold full_analysis. rewrite Hclean.
  destruct cleaned as [| c0 cs]; [contradiction |].
  rewrite Hrt, Hsep, Hhi, Hlo.
  eexists. exists p1, p2, p3, (b, s, p), hi, lo.
  split; [reflexivity |]. cbn [low average high items_removed cleaned_count extra].
  repeat split; assumption.
Qed.

(** X1.  Whatever the listings, the analyzer answers and its two counts add
    up to the number of raw prices: [items_removed + cleaned_count =
    len(raw_prices)], neither count negative. *)
Theorem counts_add_up (raw_prices : list Q) (part_name : string)
    (raw_titles : option (list string)) (minimum_price : Q) :
  exists r,
    _analyze_price_distribution raw_prices part_name raw_titles minimum_price = Some r /\
    (items_removed r + cleaned_count r = Z.of_nat (List.length raw_prices))%Z /\
    (0 <= items_removed r)%Z /\ (0 <= cleaned_count r)%Z.
Proof.
  destruct raw_prices as [| x rest]; [eexists; split; [reflexivity |]; simpl; lia |].
  unfold _analyze_price_distribution.
  destruct (List.length (x :: rest) <? 3)%nat eqn:E.
  - eexists. split; [reflexivity |]. cbn [items_removed cleaned_count]. lia.
  - destruct (clean_prices_total (x :: rest) part_name raw_titles minimum_price)
      as (cleaned & removed & Hclean).
    destruct (clean_prices_account _ _ _ _ _ _ Hclean) as [Hlen _].
    destruct cleaned as [| c0 cs].
    + unfold full_analysis. rewrite Hclean. eexists. split; [reflexivity |].
      cbn [items_removed cleaned_count]. lia.
    + destruct (full_analysis_shape _ _ _ _ _ _ Hclean ltac:(discriminate))
        as (r & p1 & p2 & p3 & tiers & hi & lo & Hr & _ & _ & _ & _ & Hrem & Hcnt & _).
      exists r. split; [exact Hr |]. rewrite Hrem, Hcnt. lia.
Qed.

Lemma py_sorted_In (l : list Q) (x : Q) : In x (py_sorted l) -> In x l.
Proof.
  apply Permutation_in, Permutation_sym, py_sorted_perm.
Qed.

(** *** The IQR step keeps the middle of the distribution *)

(** X4.  When the IQR step runs (10 prices or more) it keeps every price
    between Q1 and Q3, so it never removes everything: an estimate emptied
    by the cleaning was emptied by the keyword or minimum-price steps. *)
Theorem iqr_keeps_the_middle (cleaned_prices : list Q) :
  let n := List.length cleaned_prices in
  (10 <= n)%nat ->
  exists q1 q3 kept removed,
    nth_error (py_sorted cleaned_prices) (n / 4) = Some q1 /\
    nth_error (py_sorted cleaned_prices) (3 * n / 4) = Some q3 /\
    iqr_stage cleaned_prices = Some (kept, removed) /\
    q1 <= q3 /\
    (forall x, In x cleaned_prices -> q1 <= x -> x <= q3 -> In x kept) /\
    kept <> [].
Proof.
  intros n Hn.
  destruct (iqr_stage_runs cleaned_prices Hn) as (q1 & q3 & H1 & H3 & E). fold n in H1, H3.
  assert (Hq : q1 <= q3).
  { apply (sorted_nth_le (py_sorted cleaned_prices) (n / 4) (3 * n / 4) q1 q3
             (py_sorted_sorted cleaned_prices)); [| exact H1 | exact H3].
    apply Nat.Div0.div_le_mono. lia. }
  assert (Hmid : forall x, In x cleaned_prices -> q1 <= x -> x <= q3 ->
                   In x (filter (within (iqr_bounds q1 q3)) cleaned_prices)).
  { intros x Hx L U. apply filter_In. split; [exact Hx |].
    unfold within, iqr_bounds. cbn [fst snd].
    apply andb_true_intro. split; apply Qle_bool_iff; lra. }
  do 4 eexists. split; [exact H1 |]. split; [exact H3 |]. split; [exact E |].
  split; [exact Hq |]. split; [exact Hmid |].
  intro Hnil.
  assert (Hin : In q1 cleaned_prices) by (apply py_sorted_In; eapply nth_error_In, H1).
  specialize (Hmid q1 Hin ltac:(lra) Hq). rewrite Hnil in Hmid. exact Hmid.
Qed.

Lemma iqr_keeps_the_middle_witness :
  exists q1 q3 kept removed,
    nth_error (py_sorted [10; 11; 12; 13; 14; 15; 16; 17; 18; 1000]) (10 / 4) = Some q1 /\
    nth_error (py_sorted [10; 11; 12; 13; 14; 15; 16; 17; 18; 1000]) (3 * 10 / 4) = Some q3 /\
    iqr_stage [10; 11; 12; 13; 14; 15; 16; 17; 18; 1000] = Some (kept, removed) /\
    q1 <= q3 /\
    (forall x, In x [10; 11; 12; 13; 14; 15; 16; 17; 18; 1000] ->
       q1 <= x -> x <= q3 -> In x kept) /\
    kept <> [].
Proof.
  apply (iqr_keeps_the_middle [10; 11; 12; 13; 14; 15; 16; 17; 18; 1000]).
  simpl. lia.
Defined.

(** *** Listings without a title, and parts without keywords *)

Lemma keyword_stage_nothing_suspicious (keywords : list string)
    (raw_titles : option (list string)) (raw_prices : list Q) (i : nat) :
  (forall j, is_suspicious keywords (title_at raw_titles j) = false) ->
  keyword_stage keywords raw_titles i raw_prices = (raw_prices, []).
Proof.
  intro H. revert i. induction raw_prices as [| price rest IH]; intro i; [reflexivity |].
  cbn [keyword_stage]. rewrite (IH (S i)), (H i). reflexivity.
Qed.

Lemma empty_title_not_suspicious (part_name : string) :
  is_suspicious (keywords_for part_name) EmptyString = false.
Proof.
  unfold keywords_for, suspicious_keywords. cbn [dict_get].
  repeat (destruct (String.eqb _ (lower part_name)); [reflexivity |]).
  reflexivity.
Qed.

(** X5.  The keyword step removes nothing when the listings carry no
    titles ([raw_titles] absent or empty), whatever the part; and nothing
    for a part without configured keywords, whatever the titles. *)
Theorem keyword_step_needs_titles_and_keywords (part_name : string)
    (raw_prices : list Q) (i : nat) :
  keyword_stage (keywords_for part_name) None i raw_prices = (raw_prices, []) /\
  keyword_stage (keywords_for part_name) (Some []) i raw_prices = (raw_prices, []) /\
  (keywords_for part_name = [] ->
   forall raw_titles,
     keyword_stage (keywords_for part_name) raw_titles i raw_prices = (raw_prices, [])).
Proof.
  split; [| split].
  - apply keyword_stage_nothing_suspicious. intro j. apply empty_title_not_suspicious.
  - apply keyword_stage_nothing_suspicious. intro j. unfold title_at.
    destruct j; apply empty_title_not_suspicious.
  - intros E raw_titles. apply keyword_stage_nothing_suspicious. intro j.
    rewrite E. reflexivity.
Qed.

Lemma keyword_step_needs_titles_and_keywords_witness :
  keyword_stage (keywords_for "radiator")
    (Some ["Radiator hose"; "Radiator cap gasket"]%string) 0 [100; 200]
  = ([100; 200], []).
Proof.
  exact (proj2 (proj2 (keyword_step_needs_titles_and_keywords "radiator" [100; 200] 0))
           eq_refl (Some ["Radiator hose"; "Radiator cap gasket"]%string)).
Defined.

(** *** Every listing rejected *)

Lemma filter_none {A : Type} (f : A -> bool) (l : list A) :
  (forall x, In x l -> f x = false) -> filter f l = [].
Proof.
  induction l as [| a r IH]; intro H; [reflexivity |].
  simpl. rewrite (H a (or_introl eq_refl)). apply IH.
  intros x Hx. apply H. right. exact Hx.
Qed.

(** X6.  When 3 or more listings are all priced below a positive
    [minimum_price], the analyzer returns the zero estimate: three tiers 0,
    every listing counted as removed, none as cleaned. *)
Theorem all_below_minimum_gives_zero (raw_prices : list Q) (part_name : string)
    (raw_titles : option (list string)) (minimum_price : Q) :
  (3 <= List.length raw_prices)%nat ->
  0 < minimum_price ->
  (forall x, In x raw_prices -> x < minimum_price) ->
  _analyze_price_distribution raw_prices part_name raw_titles minimum_price
  = Some (mk_price_analysis 0 0 0 (Z.of_nat (List.length raw_prices)) 0 None).
Proof.
  intros Hn Hm Hall.
  rewrite analyze_three_or_more by exact Hn.
  unfold full_analysis. rewrite clean_prices_steps.
  set (step1 := keyword_stage (keywords_for part_name) raw_titles 0 raw_prices).
  assert (E : fst (minimum_stage minimum_price (fst step1)) = []).
  { unfold minimum_stage.
    replace (Qltb 0 minimum_price) with true by (symmetry; apply Qltb_lt; exact Hm).
    cbn [fst]. apply filter_none. intros x Hx.
    apply (proj2 (keyword_stage_account _ _ _ _)) in Hx.
    specialize (Hall x Hx).
    destruct (Qle_bool minimum_price x) eqn:B; [| reflexivity].
    apply Qle_bool_iff in B. lra. }
  rewrite E. reflexivity.
Qed.

Lemma all_below_minimum_gives_zero_witness :
  _analyze_price_distribution [10; 20; 30] "engine" None 50
  = Some (mk_price_analysis 0 0 0 (Z.of_nat (List.length [10; 20; 30])) 0 None).
Proof.
  apply (all_below_minimum_gives_zero [10; 20; 30] "engine" None 50).
  - simpl. lia.
  - reflexivity.
  - intros x [<- | [<- | [<- | []]]]; reflexivity.
Defined.

End AnalyzerMore.

(** ** More on the AI-assisted analyzer *)

Module AIMore.

Import PyNum PyStr Analyzer AIAnalyzer TextWords AnalyzerFacts AIFacts.
Local Open Scope string_scope.

(** *** Responses that are JSON but no object *)

(** X7.  A response that parses to a JSON value other than an object (a
    list, a string, a number, null) is dropped for the statistical result,
    even a list or a string that mentions every required key. *)
Theorem non_object_response_falls_back
    (json_loads : string -> option json) (float_of_string : string -> option Q)
    (generate_content : nat -> option (option string))
    (raw_items : list raw_item) (part_name : string) (minimum_price : Q)
    (response : string) (result : json) :
  raw_items <> [] ->
  model_text generate_content = Some response ->
  json_loads (strip_fences response) = Some result ->
  (forall fields, result <> JObject fields) ->
  exists r,
    _analyze_prices_with_ai json_loads float_of_string true true generate_content
      raw_items part_name minimum_price = Some (Statistical r) /\
    _analyze_price_distribution (prices_of raw_items) part_name
      (Some (titles_of raw_items)) minimum_price = Some r.
Proof.
  intros Hne Hresp Hload Hno. unfold _analyze_prices_with_ai. cbn [negb orb].
  destruct raw_items as [| item rest]; [contradiction |].
  rewrite Hresp, (non_object_raises json_loads float_of_string response result Hload Hno).
  apply traditional_analysis_answers.
Qed.

Lemma non_object_response_falls_back_witness :
  exists r,
    _analyze_prices_with_ai (fun _ => Some (JArray (map JString required_keys)))
      (fun _ => None) true true (fun _ => Some (Some "[...]"))
      [mk_raw_item (Some 40%Q) (Some 0%Q) (Some 40%Q) (Some "Alternator")]
      "alternator" 0%Q
    = Some (Statistical r) /\
    _analyze_price_distribution
      (prices_of [mk_raw_item (Some 40%Q) (Some 0%Q) (Some 40%Q) (Some "Alternator")])
      "alternator"
      (Some (titles_of [mk_raw_item (Some 40%Q) (Some 0%Q) (Some 40%Q) (Some "Alternator")]))
      0%Q = Some r.
Proof.
  apply (non_object_response_falls_back
           (fun _ => Some (JArray (map JString required_keys))) (fun _ => None)
           (fun _ => Some (Some "[...]"))
           [mk_raw_item (Some 40%Q) (Some 0%Q) (Some 40%Q) (Some "Alternator")]
           "alternator" 0%Q "[...]" (JArray (map JString required_keys)));
    [discriminate | reflexivity | reflexivity | discriminate].
Defined.

(** *** The retry budget *)

(** X8.  The model is asked at most twice, and a second time only if the
    first call raised: the analysis is the same for any two services that
    agree on the first attempt and, when that attempt raised, on the
    second.  A response that came back is never asked for again, neither
    when its text cannot be read nor when its text turns out invalid. *)
Theorem retry_budget
    (json_loads : string -> option json) (float_of_string : string -> option Q)
    (gemini_model use_ai_analysis : bool)
    (service service' : nat -> option (option string))
    (raw_items : list raw_item) (part_name : string) (minimum_price : Q) :
  service 0%nat = service' 0%nat ->
  (service 0%nat = None -> service 1%nat = service' 1%nat) ->
  _analyze_prices_with_ai json_loads float_of_string gemini_model use_ai_analysis
    service raw_items part_name minimum_price
  = _analyze_prices_with_ai json_loads float_of_string gemini_model use_ai_analysis
      service' raw_items part_name minimum_price.
Proof.
  intros H0 H1. unfold _analyze_prices_with_ai.
  destruct (negb gemini_model || negb use_ai_analysis); [reflexivity |].
  destruct raw_items as [| item rest]; [reflexivity |].
  unfold model_text. cbn [max_retries seq attempt_loop]. rewrite <- H0.
  destruct (service 0%nat) as [response |]; [reflexivity |].
  rewrite <- (H1 eq_refl). reflexivity.
Qed.

Lemma retry_budget_witness :
  _analyze_prices_with_ai sample_loads (fun _ => None) true true
    (fun attempt => match attempt with 0%nat => Some None | _ => Some (Some "second") end)
    [mk_raw_item (Some 40%Q) (Some 0%Q) (Some 40%Q) (Some "Alternator")] "alternator" 0%Q
  = _analyze_prices_with_ai sample_loads (fun _ => None) true true
      (fun attempt => match attempt with 0%nat => Some None | _ => None end)
      [mk_raw_item (Some 40%Q) (Some 0%Q) (Some 40%Q) (Some "Alternator")] "alternator" 0%Q.
Proof.
  apply (retry_budget sample_loads (fun _ => None) true true
           (fun attempt => match attempt with 0%nat => Some None | _ => Some (Some "second") end)
           (fun attempt => match attempt with 0%nat => Some None | _ => None end)).
  - reflexivity.
  - discriminate.
Defined.

(** *** What a kept response looks like *)

Lemma interpret_response_kept
    (json_loads : string -> option json) (float_of_string : string -> option Q)
    (text : string) (a : ai_analysis) :
  interpret_response json_loads float_of_string text = Some a ->
  In (confidence_rating a) valid_confidence_levels /\
  ai_items_removed a = items_filtered_out a /\
  py_sub (items_analyzed a) (items_filtered_out a) = Some (ai_cleaned_count a).
Proof.
  unfold interpret_response.
  destruct (json_loads (strip_fences text)) as [result |]; [| discriminate].
  destruct (py_all _) as [[|] |]; cbn [negb]; try discriminate.
  destruct (as_dict result) as [fields |]; [| discriminate].
  destruct (py_lower _) as [rating |]; [| discriminate].
  destruct (py_float float_of_string (dict_get fields "low_price" JNull)); [| discriminate].
  destruct (py_float float_of_string (dict_get fields "average_price" JNull)); [| discriminate].
  destruct (py_float float_of_string (dict_get fields "high_price" JNull)); [| discriminate].
  destruct (py_sub _ _) as [cleaned |] eqn:Hsub; [| discriminate].
  destruct (existsb (String.eqb rating) valid_confidence_levels) eqn:E;
    intro H; injection H as <-;
    cbn [negb confidence_rating ai_items_removed items_filtered_out items_analyzed
         ai_cleaned_count];
    (split; [| split; [reflexivity | exact Hsub]]).
  - apply existsb_exists in E. destruct E as [level [Hin E]].
    apply String.eqb_eq in E. subst level. exact Hin.
  - simpl. tauto.
Qed.

(** X9.  Whenever the AI answer is kept, its confidence rating is one of
    the five levels, its filtered-out count is reported as [items_removed],
    and its [cleaned_count] is [items_analyzed - items_filtered_out] on
    two numeric counts. *)
Theorem kept_answer_is_well_formed
    (json_loads : string -> option json) (float_of_string : string -> option Q)
    (gemini_model use_ai_analysis : bool) (generate_content : nat -> option (option string))
    (raw_items : list raw_item) (part_name : string) (minimum_price : Q)
    (a : ai_analysis) :
  _analyze_prices_with_ai json_loads float_of_string gemini_model use_ai_analysis
    generate_content raw_items part_name minimum_price = Some (AIAssisted a) ->
  In (confidence_rating a) valid_confidence_levels /\
  ai_items_removed a = items_filtered_out a /\
  py_sub (items_analyzed a) (items_filtered_out a) = Some (ai_cleaned_count a).
Proof.
  unfold _analyze_prices_with_ai.
  destruct (negb gemini_model || negb use_ai_analysis).
  - destruct (traditional_analysis_answers raw_items part_name minimum_price)
      as (r & -> & _). discriminate.
  - destruct raw_items as [| item rest]; [discriminate |].
    destruct (model_text generate_content) as [response |].
    + destruct (interpret_response json_loads float_of_string response) as [a' |] eqn:E.
      * intro H. injection H as <-. eapply interpret_response_kept, E.
      * destruct (traditional_analysis_answers (item :: rest) part_name minimum_price)
          as (r & -> & _). discriminate.
    + destruct (traditional_analysis_answers (item :: rest) part_name minimum_price)
        as (r & -> & _). discriminate.
Qed.

Lemma kept_answer_is_well_formed_witness :
  In "light_green" valid_confidence_levels.
Proof.
  exact (proj1 (kept_answer_is_well_formed Samples.mixed_case_loads Samples.decimal_50
                  true true (fun _ => Some (Some "{...}")) Samples.one_item "alternator" 0%Q
                  (mk_ai_analysis 40 50 60 (JNumber 10) (JNumber 2) (JString "ok")
                     "light_green" (JString "ok") (10 - 2) (JNumber 2))
                  eq_refl)).
Defined.

(** X10.  A recognised confidence level is accepted in any letter case
    and stored in lower case, and prices given as numeric strings are
    converted by [float]: a response with every required key, such a
    rating, convertible prices and numeric counts is kept. *)
Theorem recognised_rating_kept_in_lower_case
    (json_loads : string -> option json) (float_of_string : string -> option Q)
    (generate_content : nat -> option (option string))
    (raw_items : list raw_item) (part_name : string) (minimum_price : Q)
    (response : string) (fields : list (string * json)) (rating : string)
    (low average high cleaned : Q) :
  raw_items <> [] ->
  model_text generate_content = Some response ->
  json_loads (strip_fences response) = Some (JObject fields) ->
  (forall key, In key required_keys -> In key (map fst fields)) ->
  dict_get fields "confidence_rating" (JString "") = JString rating ->
  In (lower rating) valid_confidence_levels ->
  py_float float_of_string (dict_get fields "low_price" JNull) = Some low ->
  py_float float_of_string (dict_get fields "average_price" JNull) = Some average ->
  py_float float_of_string (dict_get fields "high_price" JNull) = Some high ->
  py_sub (dict_get fields "items_analyzed" JNull)
         (dict_get fields "items_filtered_out" JNull) = Some cleaned ->
  _analyze_prices_with_ai json_loads float_of_string true true generate_content
    raw_items part_name minimum_price
  = Some (AIAssisted
            (mk_ai_analysis low average high
               (dict_get fields "items_analyzed" JNull)
               (dict_get fields "items_filtered_out" JNull)
               (dict_get fields "reasoning" JNull)
               (lower rating)
               (dict_get fields "confidence_explanation" JNull)
               cleaned
               (dict_get fields "items_filtered_out" JNull))).
Proof.
  intros Hne Hresp H Hall Hrating Hknown Hlow Havg Hhigh Hsub.
  unfold _analyze_prices_with_ai. cbn [negb orb].
  destruct raw_items as [| item rest]; [contradiction |].
  rewrite Hresp.
  rewrite (well_formed_kept json_loads float_of_string response fields rating
             low average high cleaned H Hall Hrating Hlow Havg Hhigh Hsub).
  replace (existsb (String.eqb (lower rating)) valid_confidence_levels) with true;
    [reflexivity |].
  symmetry. apply existsb_exists. exists (lower rating).
  split; [exact Hknown | apply String.eqb_refl].
Qed.

Lemma recognised_rating_kept_in_lower_case_witness :
  _analyze_prices_with_ai Samples.mixed_case_loads Samples.decimal_50 true true
    (fun _ => Some (Some "{...}")) Samples.one_item "alternator" 0%Q
  = Some (AIAssisted
            (mk_ai_analysis 40 50 60 (JNumber 10) (JNumber 2) (JString "ok")
               (lower "Light_Green") (JString "ok") (10 - 2) (JNumber 2))).
Proof.
  apply (recognised_rating_kept_in_lower_case Samples.mixed_case_loads Samples.decimal_50
           (fun _ => Some (Some "{...}")) Samples.one_item "alternator" 0%Q "{...}"
           [ ("low_price", JNumber 40); ("average_price", JString "50");
             ("high_price", JNumber 60); ("items_analyzed", JNumber 10);
             ("items_filtered_out", JNumber 2); ("reasoning", JString "ok");
             ("confidence_rating", JString "Light_Green");
             ("confidence_explanation", JString "ok") ]
           "Light_Green" 40 50 60 (10 - 2)).
  - discriminate.
  - reflexivity.
  - reflexivity.
  - intros key Hkey. simpl in Hkey. simpl.
    repeat (destruct Hkey as [<- | Hkey]; [tauto |]). contradiction.
  - reflexivity.
  - simpl. tauto.
  - reflexivity.
  - reflexivity.
  - reflexivity.
  - reflexivity.
Defined.

(** *** Code fences *)

Lemma append_empty_r (s : string) : s ++ "" = s.
Proof. induction s as [| c r IH]; simpl; [reflexivity | rewrite IH; reflexivity]. Qed.

Lemma append_assoc (a b c : string) : (a ++ b) ++ c = a ++ (b ++ c).
Proof. induction a as [| x r IH]; simpl; [reflexivity | rewrite IH; reflexivity]. Qed.

(** [rstrip] leaves a text that ends with a non-space character alone. *)
Lemma rstrip_ends_nonspace (s : string) (c : ascii) :
  is_space c = false -> rstrip (s ++ String c "") = s ++ String c "".
Proof.
  intro Hc. induction s as [| a r IH]; cbn [append rstrip].
  - rewrite Hc. reflexivity.
  - rewrite IH. destruct r; reflexivity.
Qed.

Lemma free_of_head (c a : ascii) (r : string) :
  free_of c (String a r) = true -> a <> c /\ free_of c r = true.
Proof.
  cbn [free_of]. intro H. apply andb_prop in H. destruct H as [H1 H2].
  split; [| exact H2]. intros ->. rewrite Ascii.eqb_refl in H1. discriminate.
Qed.

(** [replace] passes over a stretch of text free of the first character of
    the pattern. *)
Lemma replace_from_free (c : ascii) (old' new s tail : string) :
  free_of c s = true ->
  replace_from (String c old') new 0 (s ++ tail)
  = s ++ replace_from (String c old') new 0 tail.
Proof.
  induction s as [| a r IH]; intro Hfree; [reflexivity |].
  apply free_of_head in Hfree. destruct Hfree as [Ha Hr].
  cbn [append replace_from String.prefix].
  destruct (ascii_dec c a) as [E | _]; [symmetry in E; contradiction |].
  rewrite (IH Hr). reflexivity.
Qed.

Lemma prefix_empty (s : string) : String.prefix "" s = true.
Proof. destruct s; reflexivity. Qed.

Lemma prefix_app (p rest : string) : String.prefix p (p ++ rest) = true.
Proof.
  induction p as [| c r IH]; [apply prefix_empty |].
  cbn [append String.prefix].
  destruct (ascii_dec c c) as [_ | N]; [exact IH | exfalso; apply N; reflexivity].
Qed.

Lemma replace_from_skip (old new p t : string) :
  replace_from old new (String.length p) (p ++ t) = replace_from old new 0 t.
Proof.
  induction p as [| a r IH]; [reflexivity |].
  cbn [append String.length replace_from]. exact IH.
Qed.

(** [replace] at an occurrence of the pattern. *)
Lemma replace_from_hit (c : ascii) (old' new rest : string) :
  replace_from (String c old') new 0 (String c old' ++ rest)
  = new ++ replace_from (String c old') new 0 rest.
Proof.
  cbn [append replace_from].
  change (String c (old' ++ rest)) with (String c old' ++ rest).
  rewrite prefix_app.
  replace (String.length (String c old') - 1)%nat with (String.length old')
    by (cbn [String.length]; lia).
  rewrite replace_from_skip. reflexivity.
Qed.

(** X11.  A body without backticks that the model wrapped in a "```json"
    fence, or in a bare "```" fence, reaches [json.loads] unwrapped and
    stripped of surrounding whitespace. *)
Theorem fenced_body_is_unwrapped (body : string) :
  free_of "`" body = true ->
  strip_fences ("```json" ++ body ++ "```") = strip body /\
  (startswith (body ++ "```") "json" = false ->
   strip_fences ("```" ++ body ++ "```") = strip body).
Proof.
  intro Hfree.
  assert (Htail : replace_from "```" "" 0 (body ++ "```") = body).
  { rewrite (replace_from_free "`" "``" "" body "```" Hfree).
    replace (replace_from "```" "" 0 "```") with "" by reflexivity.
    apply append_empty_r. }
  assert (Hends : forall opening,
             rstrip (opening ++ body ++ "```") = opening ++ body ++ "```").
  { intro opening.
    replace (opening ++ body ++ "```") with ((opening ++ body ++ "``") ++ "`")
      by (rewrite !append_assoc; reflexivity).
    apply rstrip_ends_nonspace. reflexivity. }
  split.
  - unfold strip_fences.
    assert (Hs : strip ("```json" ++ body ++ "```") = "```json" ++ body ++ "```").
    { unfold strip.
      replace (lstrip ("```json" ++ body ++ "```")) with ("```json" ++ body ++ "```")
        by reflexivity.
      apply Hends. }
    rewrite Hs.
    replace (startswith ("```json" ++ body ++ "```") "```json") with true
      by (symmetry; apply prefix_app).
    unfold replace.
    rewrite (replace_from_hit "`" "``json" "" (body ++ "```")).
    cbn [append].
    rewrite (replace_from_free "`" "``json" "" body "```" Hfree).
    replace (replace_from "```json" "" 0 "```") with "```" by reflexivity.
    rewrite Htail. reflexivity.
  - intro Hnj. unfold strip_fences.
    assert (Hs : strip ("```" ++ body ++ "```") = "```" ++ body ++ "```").
    { unfold strip.
      replace (lstrip ("```" ++ body ++ "```")) with ("```" ++ body ++ "```")
        by reflexivity.
      apply Hends. }
    rewrite Hs.
    assert (Hp : startswith ("```" ++ body ++ "```") "```json" = false).
    { unfold startswith in *. cbn [append String.prefix].
      repeat (destruct (ascii_dec _ _) as [_ | N]; [| exfalso; apply N; reflexivity]).
      exact Hnj. }
    rewrite Hp.
    replace (startswith ("```" ++ body ++ "```") "```") with true
      by (symmetry; apply prefix_app).
    unfold replace.
    rewrite (replace_from_hit "`" "``" "" (body ++ "```")).
    cbn [append]. rewrite Htail. reflexivity.
Qed.

Lemma fenced_body_is_unwrapped_witness :
  strip_fences ("```json" ++ " {} " ++ "```") = strip " {} ".
Proof.
  exact (proj1 (fenced_body_is_unwrapped " {} " eq_refl)).
Defined.

(** *** The AI path is no hard dependency *)

(** X12.  [_analyze_prices_with_ai] never raises, whatever the service,
    the parser and the items.  With the model missing or AI analysis
    switched off its answer is the statistical analyzer's; in any case a
    statistical answer is that analyzer's result on the prices and titles
    of the same items, and the "no data" answer is given for an empty item
    list only. *)
Theorem ai_analysis_always_answers
    (json_loads : string -> option json) (float_of_string : string -> option Q)
    (gemini_model use_ai_analysis : bool) (generate_content : nat -> option (option string))
    (raw_items : list raw_item) (part_name : string) (minimum_price : Q) :
  exists answer,
    _analyze_prices_with_ai json_loads float_of_string gemini_model use_ai_analysis
      generate_content raw_items part_name minimum_price = Some answer /\
    (gemini_model = false \/ use_ai_analysis = false ->
     exists r, answer = Statistical r) /\
    (forall r, answer = Statistical r ->
       _analyze_price_distribution (prices_of raw_items) part_name
         (Some (titles_of raw_items)) minimum_price = Some r) /\
    (answer = NoData -> raw_items = []).
Proof.
  destruct (traditional_analysis_answers raw_items part_name minimum_price)
    as (r & Htrad & Hstat).
  assert (Hfallback :
            traditional_analysis raw_items part_name minimum_price = Some (Statistical r) /\
            (gemini_model = false \/ use_ai_analysis = false -> exists r', Statistical r = Statistical r') /\
            (forall r', Statistical r = Statistical r' ->
               _analyze_price_distribution (prices_of raw_items) part_name
                 (Some (titles_of raw_items)) minimum_price = Some r') /\
            (Statistical r = NoData -> raw_items = [])).
  { split; [exact Htrad |]. split; [intros _; eauto |].
    split; [intros r' E; injection E as <-; exact Hstat | discriminate]. }
  unfold _analyze_prices_with_ai.
  destruct gemini_model, use_ai_analysis; cbn [negb orb];
    try (exists (Statistical r); exact Hfallback).
  destruct raw_items as [| item rest].
  - exists NoData. split; [reflexivity |].
    split; [intros [H | H]; discriminate |].
    split; [discriminate | reflexivity].
  - destruct (model_text generate_content) as [response |];
      [| exists (Statistical r); exact Hfallback].
    destruct (interpret_response json_loads float_of_string response) as [a |];
      [| exists (Statistical r); exact Hfallback].
    exists (AIAssisted a). split; [reflexivity |].
    split; [intros [H | H]; discriminate |].
    split; discriminate.
Qed.

Lemma ai_analysis_always_answers_witness :
  exists answer,
    _analyze_prices_with_ai sample_loads (fun _ => None) false true
      (fun _ => Some (Some null_rating_response)) Samples.one_item "alternator" 0%Q
    = Some answer /\
    exists r, answer = Statistical r.
Proof.
  destruct (ai_analysis_always_answers sample_loads (fun _ => None) false true
              (fun _ => Some (Some null_rating_response)) Samples.one_item "alternator" 0%Q)
    as (answer & Hrun & Hoff & _).
  exists answer. split; [exact Hrun | apply Hoff; left; reflexivity].
Defined.

End AIMore.

(** ** Totals and bids *)

Module AggregatorFacts.

Import Parts Aggregator TotalsWords Bid BidRealFacts.
Import Qreals Reals.

Section Sums.

Import Lqa.
Local Open Scope Q_scope.

(** The accumulator of the loop can be added afterwards. *)
Lemma fold_add_part (parts : list part_prices) (acc : tier_totals) :
  total_low (fold_left add_part parts acc)
    == total_low acc + Qsum (map part_low parts) /\
  total_average (fold_left add_part parts acc)
    == total_average acc + Qsum (map part_average parts) /\
  total_high (fold_left add_part parts acc)
    == total_high acc + Qsum (map part_high parts).
Proof.
  revert acc. induction parts as [| p rest IH]; intro acc.
  - simpl. repeat split; ring.
  - cbn [fold_left map]. destruct (IH (add_part acc p)) as (Hl & Ha & Hh).
    rewrite Hl, Ha, Hh. unfold Qsum. cbn [fold_right].
    destruct p as [d | value]; cbn [add_part total_low total_average total_high
                                    part_low part_average part_high];
      repeat split; ring.
Qed.

(** The totals are the plain sums of the tiers of the parts. *)
Lemma sum_totals_sums (parts : list part_prices) :
  total_low (sum_totals parts) == Qsum (map part_low parts) /\
  total_average (sum_totals parts) == Qsum (map part_average parts) /\
  total_high (sum_totals parts) == Qsum (map part_high parts).
Proof.
  destruct (fold_add_part parts (mk_totals 0 0 0)) as (Hl & Ha & Hh).
  unfold sum_totals. cbn [total_low total_average total_high] in *.
  rewrite Hl, Ha, Hh. repeat split; ring.
Qed.

Lemma Qsum_le {A : Type} (f g : A -> Q) (l : list A) :
  (forall x, In x l -> f x <= g x) -> Qsum (map f l) <= Qsum (map g l).
Proof.
  induction l as [| a r IH]; intro H; unfold Qsum in *; cbn [map fold_right].
  - apply Qle_refl.
  - apply Qplus_le_compat; [apply H; left; reflexivity |].
    apply IH. intros x Hx. apply H. right. exact Hx.
Qed.

Lemma Qsum_app (l l' : list Q) : Qsum (l ++ l') == Qsum l + Qsum l'.
Proof.
  induction l as [| a r IH]; unfold Qsum in *; cbn [app fold_right]; [ring |].
  rewrite IH. ring.
Qed.

Lemma Qsum_without_zero {A : Type} (f : A -> Q) (before after : list A) (z : A) :
  f z == 0 ->
  Qsum (map f (before ++ z :: after)) == Qsum (map f (before ++ after)).
Proof.
  intro Hz. rewrite !map_app, !Qsum_app. cbn [map]. unfold Qsum at 2. cbn [fold_right].
  fold (Qsum (map f after)). rewrite Hz. ring.
Qed.

End Sums.

(** Equal totals give equal bids. *)
Lemma same_totals_same_bids (parts parts' : list part_prices) :
  same_totals (sum_totals parts) (sum_totals parts') ->
  snd (calculate_recommended_bid parts) = snd (calculate_recommended_bid parts').
Proof.
  intros (Hl & Ha & Hh). unfold calculate_recommended_bid. cbn [snd].
  rewrite (Qeq_eqR _ _ Hl), (Qeq_eqR _ _ Ha), (Qeq_eqR _ _ Hh). reflexivity.
Qed.

(** X13.  If every part has its three tiers in order, so are the three
    totals and the three bids: [low <= average <= high] survives the
    aggregation. *)
Theorem ordered_tiers_give_ordered_bids (parts_prices : list part_prices) :
  (forall p, In p parts_prices ->
     (part_low p <= part_average p)%Q /\ (part_average p <= part_high p)%Q) ->
  let '(totals, bids) := calculate_recommended_bid parts_prices in
  (total_low totals <= total_average totals)%Q /\
  (total_average totals <= total_high totals)%Q /\
  (bid_low bids <= bid_average bids)%R /\
  (bid_average bids <= bid_high bids)%R.
Proof.
  intro H. unfold calculate_recommended_bid. cbn [bid_low bid_average bid_high].
  destruct (sum_totals_sums parts_prices) as (Hl & Ha & Hh).
  assert (L1 : (total_low (sum_totals parts_prices)
                <= total_average (sum_totals parts_prices))%Q).
  { rewrite Hl, Ha. apply Qsum_le. intros p Hp. apply H, Hp. }
  assert (L2 : (total_average (sum_totals parts_prices)
                <= total_high (sum_totals parts_prices))%Q).
  { rewrite Ha, Hh. apply Qsum_le. intros p Hp. apply H, Hp. }
  split; [exact L1 |]. split; [exact L2 |].
  split; apply bid_monotone, Qle_Rle; assumption.
Qed.

Lemma ordered_tiers_give_ordered_bids_witness :
  let '(totals, bids) :=
    calculate_recommended_bid
      [PartDict (mk_part_result (Some 100%Q) (Some 150%Q) (Some 200%Q)
                   None None None None None None None);
       PartNumber 3000%Q] in
  (total_low totals <= total_average totals)%Q /\
  (total_average totals <= total_high totals)%Q /\
  (bid_low bids <= bid_average bids)%R /\
  (bid_average bids <= bid_high bids)%R.
Proof.
  apply (ordered_tiers_give_ordered_bids
           [PartDict (mk_part_result (Some 100%Q) (Some 150%Q) (Some 200%Q)
                        None None None None None None None);
            PartNumber 3000%Q]).
  intros p [<- | [<- | []]]; split; discriminate.
Defined.

(** X15.  A part whose three tiers are 0 (a failed part) changes neither
    the totals nor the bids, wherever it stands among the parts. *)
Theorem zero_part_changes_nothing (before after : list part_prices) (failed : part_prices) :
  (part_low failed == 0)%Q -> (part_average failed == 0)%Q -> (part_high failed == 0)%Q ->
  same_totals (sum_totals (before ++ failed :: after)) (sum_totals (before ++ after)) /\
  snd (calculate_recommended_bid (before ++ failed :: after))
  = snd (calculate_recommended_bid (before ++ after)).
Proof.
  intros Zl Za Zh.
  assert (Hsame : same_totals (sum_totals (before ++ failed :: after))
                              (sum_totals (before ++ after))).
  { destruct (sum_totals_sums (before ++ failed :: after)) as (Hl & Ha & Hh).
    destruct (sum_totals_sums (before ++ after)) as (Hl' & Ha' & Hh').
    unfold same_totals. rewrite Hl, Ha, Hh, Hl', Ha', Hh'.
    repeat split; apply Qsum_without_zero; assumption. }
  split; [exact Hsame | apply same_totals_same_bids, Hsame].
Qed.

Lemma zero_part_changes_nothing_witness :
  same_totals
    (sum_totals ([PartNumber 100%Q] ++ PartDict no_prices_result :: [PartNumber 3000%Q]))
    (sum_totals ([PartNumber 100%Q] ++ [PartNumber 3000%Q])) /\
  snd (calculate_recommended_bid
         ([PartNumber 100%Q] ++ PartDict no_prices_result :: [PartNumber 3000%Q]))
  = snd (calculate_recommended_bid ([PartNumber 100%Q] ++ [PartNumber 3000%Q])).
Proof.
  apply (zero_part_changes_nothing [PartNumber 100%Q] [PartNumber 3000%Q]
           (PartDict no_prices_result)); reflexivity.
Defined.

Section Bounds.

Import Lra.
Local Open Scope R_scope.

(** X16.  Above 3000 the bid is at least 300 plus a quarter of the excess,
    and the percentage is not capped: from a parts value of 63000 on, the
    bid is larger than the parts value itself. *)
Theorem bid_grows_past_the_parts_value (parts_value : R) :
  (3000 < parts_value ->
   300 + 0.25 * (parts_value - 3000) <= calculate_bid_real parts_value) /\
  (63000 <= parts_value -> parts_value < calculate_bid_real parts_value).
Proof.
  split; intro H.
  - rewrite bid_premium by exact H. unfold premium_branch.
    pose proof (sqrt_pos ((parts_value - 3000) / 15000)) as Hs.
    assert (0 <= (parts_value - 3000) * (0.40 * sqrt ((parts_value - 3000) / 15000))).
    { apply Rmult_le_pos; [lra |]. apply Rmult_le_pos; [lra | exact Hs]. }
    lra.
  - rewrite bid_premium by lra. unfold premium_branch.
    assert (Hs : 2 <= sqrt ((parts_value - 3000) / 15000)).
    { rewrite <- (sqrt_square 2) at 1 by lra. apply sqrt_le_1_alt. lra. }
    assert (Hp : 1.05 <= 0.25 + 0.40 * sqrt ((parts_value - 3000) / 15000)) by lra.
    assert (Hm : (parts_value - 3000) * 1.05
                 <= (parts_value - 3000)
                    * (0.25 + 0.40 * sqrt ((parts_value - 3000) / 15000))).
    { apply Rmult_le_compat_l; [lra | exact Hp]. }
    lra.
Qed.

Lemma bid_grows_past_the_parts_value_witness :
  63000 <= 63000 /\ 63000 < calculate_bid_real 63000.
Proof.
  assert (H : 63000 <= 63000) by lra.
  split; [exact H |].
  exact (proj2 (bid_grows_past_the_parts_value 63000) H).
Defined.

End Bounds.

End AggregatorFacts.

(** ** The scan history *)

Module HistoryFacts.

Import Parts Aggregator History.
Local Open Scope string_scope.

(** X17.  After [add_to_vin_history] the history holds the new entry first,
    followed by the 49 most recent earlier entries in their order: it never
    holds more than 50 entries and only the oldest are dropped. *)
Theorem history_keeps_50_most_recent {E : Type} (history_entry : E) (vin_history : list E) :
  insert_entry history_entry vin_history = history_entry :: firstn 49 vin_history /\
  (List.length (insert_entry history_entry vin_history) <= 50)%nat.
Proof.
  assert (H : insert_entry history_entry vin_history
              = history_entry :: firstn 49 vin_history).
  { unfold insert_entry.
    destruct (50 <? List.length (history_entry :: vin_history))%nat eqn:E50.
    - reflexivity.
    - apply Nat.ltb_ge in E50. cbn [List.length] in E50.
      rewrite firstn_all2 by lia. reflexivity. }
  split; [exact H |].
  rewrite H. cbn [List.length]. rewrite length_firstn. lia.
Qed.

Lemma rated_low_iff (d : part_result) :
  rated_low d = true <->
  pr_confidence_rating d = Some "orange" \/ pr_confidence_rating d = Some "red".
Proof.
  unfold rated_low. destruct (pr_confidence_rating d) as [c |]; cbn [existsb].
  - rewrite !orb_true_iff, !String.eqb_eq. split.
    + intros [-> | [-> | F]]; [left | right | discriminate]; reflexivity.
    + intros [E | E]; injection E as ->; [left | right; left]; reflexivity.
  - split; [discriminate | intros [E | E]; discriminate].
Qed.

Lemma classify_failed (parts_prices : list (string * part_prices)) (name : string) :
  In name (fst (classify parts_prices)) <->
  exists d, In (name, PartDict d) parts_prices /\ all_tiers_zero d = true.
Proof.
  induction parts_prices as [| [part prices] rest IH]; cbn [classify].
  - cbn [fst]. split; [contradiction | intros (d & [] & _)].
  - destruct (classify rest) as [failed lowc]. cbn [fst] in IH.
    assert (Hrest : (exists d, In (name, PartDict d) ((part, prices) :: rest)
                               /\ all_tiers_zero d = true)
                    <-> (exists d, (part, prices) = (name, PartDict d)
                                   /\ all_tiers_zero d = true) \/ In name failed).
    { rewrite IH. split.
      - intros (d & [E | Hin] & Hz); [left | right]; exists d; tauto.
      - intros [(d & E & Hz) | (d & Hin & Hz)]; exists d; split; try assumption;
          [left | right]; assumption. }
    rewrite Hrest.
    destruct prices as [d | value].
    + destruct (all_tiers_zero d) eqn:Z; [| destruct (rated_low d)]; cbn [fst].
      * split.
        -- intros [<- | Hin]; [left; exists d; tauto | right; exact Hin].
        -- intros [(d' & E & _) | Hin]; [left; congruence | right; exact Hin].
      * split; [tauto |].
        intros [(d' & E & Hz) | Hin]; [injection E as _ <-; congruence | exact Hin].
      * split; [tauto |].
        intros [(d' & E & Hz) | Hin]; [injection E as _ <-; congruence | exact Hin].
    + cbn [fst]. split; [tauto |].
      intros [(d' & E & _) | Hin]; [discriminate | exact Hin].
Qed.

Lemma classify_low_confidence (parts_prices : list (string * part_prices)) (name : string) :
  In name (snd (classify parts_prices)) <->
  exists d, In (name, PartDict d) parts_prices
            /\ all_tiers_zero d = false /\ rated_low d = true.
Proof.
  induction parts_prices as [| [part prices] rest IH]; cbn [classify].
  - cbn [snd]. split; [contradiction | intros (d & [] & _)].
  - destruct (classify rest) as [failed lowc]. cbn [snd] in IH.
    assert (Hrest : (exists d, In (name, PartDict d) ((part, prices) :: rest)
                               /\ all_tiers_zero d = false /\ rated_low d = true)
                    <-> (exists d, (part, prices) = (name, PartDict d)
                                   /\ all_tiers_zero d = false /\ rated_low d = true)
                        \/ In name lowc).
    { rewrite IH. split.
      - intros (d & [E | Hin] & Hz); [left | right]; exists d; tauto.
      - intros [(d & E & Hz) | (d & Hin & Hz)]; exists d; split; try assumption;
          [left | right]; assumption. }
    rewrite Hrest.
    destruct prices as [d | value].
    + destruct (all_tiers_zero d) eqn:Z; [| destruct (rated_low d) eqn:L]; cbn [snd].
      * split; [tauto |].
        intros [(d' & E & Hz & _) | Hin]; [injection E as _ <-; congruence | exact Hin].
      * split.
        -- intros [<- | Hin]; [left; exists d; tauto | right; exact Hin].
        -- intros [(d' & E & _) | Hin]; [left; congruence | right; exact Hin].
      * split; [tauto |].
        intros [(d' & E & _ & Hl) | Hin]; [injection E as _ <-; congruence | exact Hin].
    + cbn [snd]. split; [tauto |].
      intros [(d' & E & _) | Hin]; [discriminate | exact Hin].
Qed.

Lemma unique_value {V : Type} (l : list (string * V)) (k : string) (v v' : V) :
  NoDup (map fst l) -> In (k, v) l -> In (k, v') l -> v = v'.
Proof.
  induction l as [| [k0 v0] r IH]; intros Hnd H1 H2; [contradiction |].
  cbn [map fst] in Hnd. inversion Hnd as [| ? ? Hnotin Hnd']; subst.
  destruct H1 as [E1 | H1], H2 as [E2 | H2].
  - congruence.
  - injection E1 as -> ->. exfalso. apply Hnotin.
    apply in_map_iff. exists (k, v'). split; [reflexivity | exact H2].
  - injection E2 as -> ->. exfalso. apply Hnotin.
    apply in_map_iff. exists (k, v). split; [reflexivity | exact H1].
  - apply IH; assumption.
Qed.

(** X18.  In the status of a scan, a part is failed exactly when its dict
    has three zero tiers, and low-confidence exactly when its dict has a
    nonzero tier and the rating "orange" or "red" (a part without a rating
    counts as "yellow"); with distinct part names no part is both; and
    failed parts take precedence in the status, which is "complete" only
    when both lists are empty. *)
Theorem scan_status_classification (parts_prices : list (string * part_prices)) :
  let failed_parts := fst (classify parts_prices) in
  let low_confidence_parts := snd (classify parts_prices) in
  (forall name,
     In name failed_parts <->
     exists d, In (name, PartDict d) parts_prices /\ all_tiers_zero d = true) /\
  (forall name,
     In name low_confidence_parts <->
     exists d, In (name, PartDict d) parts_prices /\ all_tiers_zero d = false /\
               (pr_confidence_rating d = Some "orange"
                \/ pr_confidence_rating d = Some "red")) /\
  (NoDup (map fst parts_prices) ->
   forall name, In name failed_parts -> ~ In name low_confidence_parts) /\
  (failed_parts <> [] ->
   status_of failed_parts low_confidence_parts = StatusFailed (List.length failed_parts)) /\
  (status_of failed_parts low_confidence_parts = StatusComplete <->
   failed_parts = [] /\ low_confidence_parts = []).
Proof.
  cbv zeta.
  split; [intro name; apply classify_failed |].
  split.
  { intro name. rewrite classify_low_confidence.
    split; intros (d & Hin & Hz & Hl); exists d; (split; [exact Hin | split; [exact Hz |]]);
      apply rated_low_iff; exact Hl. }
  split.
  { intros Hnd name Hf Hl.
    apply classify_failed in Hf. destruct Hf as (d & Hin & Hz).
    apply classify_low_confidence in Hl. destruct Hl as (d' & Hin' & Hz' & _).
    pose proof (unique_value parts_prices name _ _ Hnd Hin Hin') as E.
    injection E as <-. congruence. }
  unfold status_of.
  destruct (fst (classify parts_prices)) as [| f fs];
    destruct (snd (classify parts_prices)) as [| l ls].
  - split; [intro H; contradiction |]. split; [auto | reflexivity].
  - split; [intro H; contradiction |].
    split; [discriminate | intros [_ H]; discriminate].
  - split; [reflexivity |]. split; [discriminate | intros [H _]; discriminate].
  - split; [reflexivity |]. split; [discriminate | intros [H _]; discriminate].
Qed.

Lemma scan_status_classification_witness :
  status_of
    (fst (classify [("engine", PartDict no_prices_result);
                    ("alternator",
                     PartDict (mk_part_result (Some 40%Q) (Some 50%Q) (Some 60%Q)
                                 None None None None (Some "red") None None))]))
    (snd (classify [("engine", PartDict no_prices_result);
                    ("alternator",
                     PartDict (mk_part_result (Some 40%Q) (Some 50%Q) (Some 60%Q)
                                 None None None None (Some "red") None None))]))
  = StatusFailed 1.
Proof.
  refine (proj1 (proj2 (proj2 (proj2
            (scan_status_classification
               [("engine", PartDict no_prices_result);
                ("alternator",
                 PartDict (mk_part_result (Some 40%Q) (Some 50%Q) (Some 60%Q)
                             None None None None (Some "red") None None))])))) _).
  discriminate.
Defined.

End HistoryFacts.

(** ** The dict of a part *)

Module PartsFacts.

Import PyNum PyStr Analyzer AIAnalyzer AIFacts Parts History.
Local Open Scope string_scope.

(** The analysis of a nonempty list of listings is either the statistical
    analyzer's result on their prices and titles or a kept AI answer, which
    carries one of the five ratings; without the model it is the former. *)
Lemma analysis_of_listings
    (json_loads : string -> option json) (float_of_string : string -> option Q)
    (gemini_model use_ai_analysis : bool) (generate_content : nat -> option (option string))
    (raw_items : list raw_item) (part_name : string) (minimum_price : Q) :
  raw_items <> [] ->
  exists answer,
    _analyze_prices_with_ai json_loads float_of_string gemini_model use_ai_analysis
      generate_content raw_items part_name minimum_price = Some answer /\
    ((exists r, answer = Statistical r /\
                _analyze_price_distribution (prices_of raw_items) part_name
                  (Some (titles_of raw_items)) minimum_price = Some r) \/
     (exists a, answer = AIAssisted a /\
                In (confidence_rating a) valid_confidence_levels /\
                gemini_model = true /\ use_ai_analysis = true)).
Proof.
  intro Hne.
  destruct (traditional_analysis_answers raw_items part_name minimum_price)
    as (r & Htrad & Hstat).
  unfold _analyze_prices_with_ai.
  destruct gemini_model, use_ai_analysis; cbn [negb orb];
    try (exists (Statistical r); split; [exact Htrad | left; exists r; split; [reflexivity | exact Hstat]]).
  destruct raw_items as [| item rest]; [contradiction |].
  destruct (model_text generate_content) as [response |];
    [| exists (Statistical r); split; [exact Htrad | left; exists r; split; [reflexivity | exact Hstat]]].
  destruct (interpret_response json_loads float_of_string response) as [a |] eqn:E;
    [| exists (Statistical r); split; [exact Htrad | left; exists r; split; [reflexivity | exact Hstat]]].
  exists (AIAssisted a). split; [reflexivity |]. right. exists a.
  split; [reflexivity |].
  split; [exact (proj1 (AIMore.interpret_response_kept _ _ _ _ E)) | split; reflexivity].
Qed.

(** X19.  A part with at least one priced listing always gets a full dict:
    pricing it does not raise, the dict carries the listings and a
    confidence rating that is one of the five levels; when the model is
    missing or AI analysis is off, the tiers are those of the statistical
    analyzer on the listings' prices and titles and the rating is "yellow",
    so the part is never counted as low-confidence. *)
Theorem listed_part_is_priced_and_rated
    (json_loads : string -> option json) (float_of_string : string -> option Q)
    (gemini_model use_ai_analysis : bool) (generate_content : nat -> option (option string))
    (raw_items : list raw_item) (search_query : string) (min_price : option Q) :
  raw_items <> [] ->
  exists d,
    price_part json_loads float_of_string gemini_model use_ai_analysis generate_content
      raw_items search_query min_price = Some d /\
    pr_raw_items d = Some raw_items /\
    (exists c, pr_confidence_rating d = Some c /\ In c valid_confidence_levels) /\
    (gemini_model = false \/ use_ai_analysis = false ->
     exists r,
       _analyze_price_distribution (prices_of raw_items) search_query
         (Some (titles_of raw_items))
         (match min_price with Some m => m | None => 0%Q end) = Some r /\
       pr_low d = Some (low r) /\ pr_average d = Some (average r) /\
       pr_high d = Some (high r) /\
       pr_confidence_rating d = Some "yellow" /\ rated_low d = false).
Proof.
  intro Hne.
  destruct (analysis_of_listings json_loads float_of_string gemini_model use_ai_analysis
              generate_content raw_items search_query
              (match min_price with Some m => m | None => 0%Q end) Hne)
    as (answer & Hrun & Hcases).
  unfold price_part. destruct raw_items as [| item rest]; [contradiction |].
  rewrite Hrun. cbn [assemble].
  destruct Hcases as [(r & -> & Hstat) | (a & -> & Hin & Hm & Hu)].
  - exists (assemble (Statistical r) (item :: rest)).
    split; [reflexivity |]. split; [reflexivity |].
    split; [exists "yellow"; split; [reflexivity | simpl; tauto] |].
    intros _. exists r. repeat split; assumption.
  - exists (assemble (AIAssisted a) (item :: rest)).
    split; [reflexivity |]. split; [reflexivity |].
    split; [exists (confidence_rating a); split; [reflexivity | exact Hin] |].
    intros [H | H]; congruence.
Qed.

Lemma listed_part_is_priced_and_rated_witness :
  exists d,
    price_part sample_loads (fun _ => None) false true
      (fun _ => Some (Some null_rating_response)) Samples.one_item "alternator" None = Some d /\
    pr_confidence_rating d = Some "yellow" /\ rated_low d = false.
Proof.
  destruct (listed_part_is_priced_and_rated sample_loads (fun _ => None) false true
              (fun _ => Some (Some null_rating_response)) Samples.one_item "alternator" None)
    as (d & Hrun & _ & _ & Hoff); [discriminate |].
  destruct (Hoff (or_introl eq_refl)) as (r & _ & _ & _ & _ & Hy & Hl).
  exists d. split; [exact Hrun | split; [exact Hy | exact Hl]].
Defined.

End PartsFacts.

(** ** The table sent to the model *)

Module CsvFacts.

Import PyNum PyStr AIAnalyzer CsvExport TextWords.
Local Open Scope string_scope.

Lemma count_char_app (c : ascii) (a b : string) :
  count_char c (a ++ b) = (count_char c a + count_char c b)%nat.
Proof.
  induction a as [| x r IH]; cbn [append count_char]; [reflexivity | rewrite IH; lia].
Qed.

(** Neither the comma nor the line feed is a digit. *)
Lemma digits_plain (c : ascii) (d : Decimal.uint) :
  c = comma \/ c = newline ->
  count_char c (DecimalString.NilEmpty.string_of_uint d) = 0%nat.
Proof.
  intros [-> | ->]; induction d; cbn [DecimalString.NilEmpty.string_of_uint count_char];
    try rewrite IHd; reflexivity.
Qed.

Lemma decimal_plain (c : ascii) (n : N) :
  c = comma \/ c = newline -> count_char c (decimal n) = 0%nat.
Proof.
  intro Hc. unfold decimal, DecimalString.NilZero.string_of_uint.
  destruct (N.to_uint n) eqn:E; try (rewrite <- E at 1); try apply digits_plain, Hc.
  destruct Hc as [-> | ->]; reflexivity.
Qed.

Lemma format_2f_plain (c : ascii) (x : Q) :
  c = comma \/ c = newline -> count_char c (format_2f x) = 0%nat.
Proof.
  intro Hc. unfold format_2f. cbv zeta. rewrite !count_char_app.
  rewrite !(decimal_plain c _ Hc).
  destruct Hc as [-> | ->]; destruct (Qltb x 0); destruct (N.ltb _ 10); reflexivity.
Qed.

(** Replacing one character by another goes character by character. *)
Lemma replace_char_step (c d a : ascii) (r : string) :
  replace (String a r) (String c "") (String d "")
  = String (if Ascii.eqb c a then d else a) (replace r (String c "") (String d "")).
Proof.
  unfold replace. cbn [replace_from String.prefix String.length Nat.sub].
  destruct (ascii_dec c a) as [-> | Hne].
  - rewrite Ascii.eqb_refl. destruct r; reflexivity.
  - apply Ascii.eqb_neq in Hne. rewrite Hne. reflexivity.
Qed.

Lemma replace_char_removes (c d : ascii) (s : string) :
  c <> d -> count_char c (replace s (String c "") (String d "")) = 0%nat.
Proof.
  intro Hne. induction s as [| a r IH]; [reflexivity |].
  rewrite replace_char_step. cbn [count_char]. rewrite IH.
  destruct (Ascii.eqb c a) eqn:E.
  - assert (H : Ascii.eqb d c = false) by (apply Ascii.eqb_neq; congruence).
    rewrite H. reflexivity.
  - rewrite Ascii.eqb_sym in E. rewrite E. reflexivity.
Qed.

Lemma replace_char_keeps_absent (c d e : ascii) (s : string) :
  e <> d -> count_char e s = 0%nat ->
  count_char e (replace s (String c "") (String d "")) = 0%nat.
Proof.
  intro Hne. induction s as [| a r IH]; intro H0; [reflexivity |].
  rewrite replace_char_step. cbn [count_char] in *.
  destruct (Ascii.eqb a e) eqn:Ea; [discriminate |].
  rewrite (IH H0).
  destruct (Ascii.eqb c a).
  - assert (H : Ascii.eqb d e = false) by (apply Ascii.eqb_neq; congruence).
    rewrite H. reflexivity.
  - rewrite Ea. reflexivity.
Qed.

Lemma lstrip_keeps_absent (e : ascii) (s : string) :
  count_char e s = 0%nat -> count_char e (lstrip s) = 0%nat.
Proof.
  induction s as [| a r IH]; intro H; [reflexivity |].
  cbn [lstrip]. destruct (is_space a); [| exact H].
  apply IH. cbn [count_char] in H. lia.
Qed.

Lemma rstrip_keeps_absent (e : ascii) (s : string) :
  count_char e s = 0%nat -> count_char e (rstrip s) = 0%nat.
Proof.
  induction s as [| a r IH]; intro H; [reflexivity |].
  cbn [count_char] in H.
  assert (Hr : count_char e r = 0%nat) by lia. specialize (IH Hr).
  cbn [rstrip]. destruct (rstrip r) as [| b r'].
  - destruct (is_space a); cbn [count_char]; lia.
  - cbn [count_char] in *. lia.
Qed.

(** A cleaned title holds neither a comma nor a line feed. *)
Lemma clean_title_plain (c : ascii) (item : raw_item) :
  c = comma \/ c = newline -> count_char c (clean_title item) = 0%nat.
Proof.
  intro Hc. unfold clean_title, strip. cbv zeta.
  apply rstrip_keeps_absent, lstrip_keeps_absent.
  destruct Hc as [-> | ->].
  - apply replace_char_keeps_absent; [discriminate |].
    apply replace_char_removes. discriminate.
  - apply replace_char_removes. discriminate.
Qed.

Lemma csv_line_shape (item : raw_item) :
  count_char comma (csv_line item) = 3%nat /\ count_char newline (csv_line item) = 0%nat.
Proof.
  unfold csv_line. cbv zeta. rewrite !count_char_app.
  rewrite !(format_2f_plain comma) by (left; reflexivity).
  rewrite !(format_2f_plain newline) by (right; reflexivity).
  rewrite (clean_title_plain comma) by (left; reflexivity).
  rewrite (clean_title_plain newline) by (right; reflexivity).
  split; reflexivity.
Qed.

(** The separators of a joined table, counted line by line. *)
Lemma join_lines_count (first : string) (raw_items : list raw_item) :
  count_char newline (join_lines (first :: map csv_line raw_items))
  = (count_char newline first + List.length raw_items)%nat /\
  count_char comma (join_lines (first :: map csv_line raw_items))
  = (count_char comma first + 3 * List.length raw_items)%nat.
Proof.
  revert first. induction raw_items as [| item rest IH]; intro first.
  - cbn [map join_lines List.length]. split; lia.
  - cbn [map List.length].
    change (join_lines (first :: csv_line item :: map csv_line rest))
      with (first ++ String newline (join_lines (csv_line item :: map csv_line rest))).
    rewrite !count_char_app. cbn [count_char].
    destruct (IH (csv_line item)) as [Hn Hc]. rewrite Hn, Hc.
    destruct (csv_line_shape item) as [H3 H0]. rewrite H3, H0.
    split; cbn; lia.
Qed.

(** X20.  The table of listings has the header line and one line per
    listing, every line with exactly three commas: after the cleaning of
    the titles no title can add a line or a column, whatever it holds. *)
Theorem csv_table_shape (part_name : string) (raw_items : list raw_item) :
  Forall (fun line => count_char comma line = 3%nat /\ count_char newline line = 0%nat)
         ("Price,Shipping,Total,Title" :: map csv_line raw_items) /\
  count_char newline (format_raw_results_for_ai part_name raw_items)
  = List.length raw_items /\
  count_char comma (format_raw_results_for_ai part_name raw_items)
  = (3 * (1 + List.length raw_items))%nat.
Proof.
  split.
  - constructor; [split; reflexivity |].
    apply Forall_forall. intros line Hin. apply in_map_iff in Hin.
    destruct Hin as (item & <- & _). apply csv_line_shape.
  - unfold format_raw_results_for_ai.
    destruct (join_lines_count "Price,Shipping,Total,Title" raw_items) as [Hn Hc].
    rewrite Hn, Hc. split; cbn [count_char]; cbn; lia.
Qed.

End CsvFacts.
